(** * Verification of the Pod manifest validators

    The repository holds three stand-alone variants of one command-line
    validator for Kubernetes-Pod-like YAML manifests, each a Go [package main]:

    - [src/unnamed/part_001]: the full validator (multi-document loop,
      object-shaped [os], integer-kind enforcement), embedded in [Part001];
    - [src/main.go]: a single-document validator with an inlined walk,
      embedded in [MainGo];
    - [src/unnamed/part_000]: a reduced validator that only looks at
      [spec.os], probe ports and cpu requests, embedded in [Part000].

    The validators read a [yaml.Node] tree produced by [gopkg.in/yaml.v3] and
    append formatted strings to a slice of errors.  The embedding keeps that
    shape: nodes are a record with the fields the code reads, the slice of
    errors is threaded through every validator as an explicit accumulator,
    and [fmt.Sprintf] is string concatenation. *)

From Stdlib Require Import ZArith List String Ascii Bool Lia DecimalString.
Import ListNotations.

Local Open Scope string_scope.
Local Open Scope Z_scope.

Set Warnings "-register-all".

(** ** The node tree of gopkg.in/yaml.v3 *)

Module yaml.

(** [yaml.Kind]: the five node kinds, and the zero value of an empty
    [yaml.Node]. *)
Inductive KindT : Set :=
| ZeroKind
| DocumentNode
| SequenceNode
| MappingNode
| ScalarNode
| AliasNode.

Definition KindT_eqb (a b : KindT) : bool :=
  match a, b with
  | ZeroKind, ZeroKind
  | DocumentNode, DocumentNode
  | SequenceNode, SequenceNode
  | MappingNode, MappingNode
  | ScalarNode, ScalarNode
  | AliasNode, AliasNode => true
  | _, _ => false
  end.

(** The fields of [yaml.Node] that the validators read.  A mapping node
    keeps its entries flat in [Content]: key, value, key, value, ... *)
Inductive Node : Set := mkNode
  { Kind : KindT;
    Tag : string;
    Value : string;
    Line : Z;
    Content : list Node }.

(** The zero [yaml.Node], as [var root yaml.Node] declares it. *)
Definition zeroNode : Node := mkNode ZeroKind "" "" 0 [].

(** What [yaml.Unmarshal(data, &root)] stores in [root] for a stream whose
    YAML documents have the root nodes [docs]: as the library documents,
    [Unmarshal] "decodes the first document found within the in byte
    slice", so [root] is a single document node that wraps the first root;
    an empty stream leaves [root] untouched.  Reading the documents that
    follow takes a [yaml.Decoder] and one [Decode] per document.  The
    validators read no field of the document node but [Kind] and
    [Content]. *)
Definition Unmarshal (docs : list Node) : Node :=
  match docs with
  | [] => zeroNode
  | d :: _ => mkNode DocumentNode "" "" (Line d) [d]
  end.

End yaml.
Import yaml.

(** ** Go's strings, strconv and fmt, as far as the validators use them *)

Module strings.

(** [strings.HasPrefix(s, prefix)]. *)
Fixpoint HasPrefix (s prefix : string) {struct prefix} : bool :=
  match prefix, s with
  | EmptyString, _ => true
  | String p prefix', String c s' => Ascii.eqb c p && HasPrefix s' prefix'
  | String _ _, EmptyString => false
  end.

(** [strings.Contains(s, substr)]. *)
Fixpoint Contains (s substr : string) : bool :=
  HasPrefix s substr ||
  match s with
  | EmptyString => false
  | String _ s' => Contains s' substr
  end.

(** The slice [s[n:]], for [n <= len(s)]. *)
Fixpoint from (n : nat) (s : string) : string :=
  match n, s with
  | O, _ => s
  | S n', String _ s' => from n' s'
  | S _, EmptyString => EmptyString
  end.

(** The slice [s[:n]], for [n <= len(s)]. *)
Fixpoint upto (n : nat) (s : string) : string :=
  match n, s with
  | O, _ => EmptyString
  | S n', String c s' => String c (upto n' s')
  | S _, EmptyString => EmptyString
  end.

(** [len(s)] as a Go [int]. *)
Definition len (s : string) : Z := Z.of_nat (String.length s).

(** No byte of [a] is a colon. *)
Definition colonFree (a : string) : Prop := Contains a ":" = false.

End strings.

Module strconv.

(** Go's [int] on the 64-bit platforms. *)
Definition maxInt : Z := 9223372036854775807.
Definition minInt : Z := -9223372036854775808.

Definition isDigit (c : ascii) : bool :=
  (48 <=? nat_of_ascii c)%nat && (nat_of_ascii c <=? 57)%nat.

Definition digitVal (c : ascii) : Z := Z.of_nat (nat_of_ascii c) - 48.

(** Every byte of [s] is a decimal digit. *)
Definition allDigits (s : string) : Prop :=
  forall c, In c (list_ascii_of_string s) -> isDigit c = true.

(** The digit loop of [strconv.Atoi] and [strconv.ParseUint] in base 10:
    any byte outside '0'..'9' is a syntax error. *)
Fixpoint digits (s : string) (n : Z) : option Z :=
  match s with
  | EmptyString => Some n
  | String c s' =>
      if isDigit c then digits s' (n * 10 + digitVal c) else None
  end.

(** [strconv.Atoi(s)]: an optional sign, then at least one decimal digit
    and nothing else; [None] stands for a non-nil [err], which is a syntax
    error or a value outside [int].  No caller looks at the number when
    [err] is not nil. *)
Definition Atoi (s : string) : option Z :=
  match s with
  | EmptyString => None
  | String c s' =>
      let neg := Ascii.eqb c "-" in
      let body := if neg || Ascii.eqb c "+" then s' else s in
      match body with
      | EmptyString => None
      | _ =>
          match digits body 0 with
          | None => None
          | Some n =>
              let v := if neg then - n else n in
              if (minInt <=? v) && (v <=? maxInt) then Some v else None
          end
      end
  end.

(** The verb [%d] of [fmt.Sprintf] on an [int]. *)
Definition Itoa (n : Z) : string := NilZero.string_of_int (Z.to_int n).

(** Hexadecimal literals.  [yaml.v3] resolves a plain scalar with
    [strconv.ParseInt(plain, 0, 64)] and gives it the tag [!!int] when that
    succeeds; with base 0 a text [0x...] or [0X...] is read in base 16.
    [hexLiteral] is the value of such a text, without sign or underscore,
    when it lies within [int]; [None] stands for any other text. *)
Definition hexVal (c : ascii) : option Z :=
  let n := nat_of_ascii c in
  if isDigit c then Some (digitVal c)
  else if (97 <=? n)%nat && (n <=? 102)%nat then Some (Z.of_nat n - 87)
  else if (65 <=? n)%nat && (n <=? 70)%nat then Some (Z.of_nat n - 55)
  else None.

Fixpoint hexDigits (s : string) (n : Z) : option Z :=
  match s with
  | EmptyString => Some n
  | String c s' =>
      match hexVal c with
      | Some d => hexDigits s' (n * 16 + d)
      | None => None
      end
  end.

Definition hexLiteral (s : string) : option Z :=
  match s with
  | String z (String x body) =>
      if Ascii.eqb z "0" && (Ascii.eqb x "x" || Ascii.eqb x "X")
         && negb (String.eqb body "")
      then
        match hexDigits body 0 with
        | Some n => if n <=? maxInt then Some n else None
        | None => None
        end
      else None
  | _ => None
  end.

End strconv.

(** ** Regular expressions

    The three patterns of the validators use character ranges, literals,
    concatenation, alternation, [+] and [*], anchored at both ends; in Go's
    [regexp] an unflagged [$] matches at the end of the text only.  Every
    class is a range of ASCII bytes, so matching bytes and matching runes
    agree.  Matching is by Brzozowski derivatives. *)

Module regexp.

Inductive re : Set :=
| Void
| Eps
| Range (lo hi : ascii)
| Cat (r1 r2 : re)
| Alt (r1 r2 : re)
| Star (r : re).

Definition Chr (c : ascii) : re := Range c c.
Definition Plus (r : re) : re := Cat r (Star r).

(** A literal string. *)
Fixpoint Lit (s : string) : re :=
  match s with
  | EmptyString => Eps
  | String c s' => Cat (Chr c) (Lit s')
  end.

(** An alternation of literals, [(a|b|...)]. *)
Fixpoint AltLits (l : list string) : re :=
  match l with
  | [] => Void
  | s :: l' => Alt (Lit s) (AltLits l')
  end.

Definition inRange (lo hi c : ascii) : bool :=
  (nat_of_ascii lo <=? nat_of_ascii c)%nat &&
  (nat_of_ascii c <=? nat_of_ascii hi)%nat.

Fixpoint nullable (r : re) : bool :=
  match r with
  | Void => false
  | Eps => true
  | Range _ _ => false
  | Cat r1 r2 => nullable r1 && nullable r2
  | Alt r1 r2 => nullable r1 || nullable r2
  | Star _ => true
  end.

Fixpoint deriv (c : ascii) (r : re) : re :=
  match r with
  | Void => Void
  | Eps => Void
  | Range lo hi => if inRange lo hi c then Eps else Void
  | Cat r1 r2 =>
      if nullable r1
      then Alt (Cat (deriv c r1) r2) (deriv c r2)
      else Cat (deriv c r1) r2
  | Alt r1 r2 => Alt (deriv c r1) (deriv c r2)
  | Star r1 => Cat (deriv c r1) (Star r1)
  end.

(** [regexp.MatchString("^r$", s)]. *)
Fixpoint MatchString (r : re) (s : string) : bool :=
  match s with
  | EmptyString => nullable r
  | String c s' => MatchString (deriv c r) s'
  end.

(** The language of a regular expression. *)
Inductive lang : re -> string -> Prop :=
| lang_Eps : lang Eps EmptyString
| lang_Range lo hi c :
    inRange lo hi c = true -> lang (Range lo hi) (String c EmptyString)
| lang_Cat r1 r2 s1 s2 :
    lang r1 s1 -> lang r2 s2 -> lang (Cat r1 r2) (s1 ++ s2)
| lang_Alt_l r1 r2 s : lang r1 s -> lang (Alt r1 r2) s
| lang_Alt_r r1 r2 s : lang r2 s -> lang (Alt r1 r2) s
| lang_Star_nil r : lang (Star r) EmptyString
| lang_Star_cons r s1 s2 :
    lang r s1 -> lang (Star r) s2 -> lang (Star r) (s1 ++ s2).

(** [[0-9]] and [[a-z0-9]]. *)
Definition digit : re := Range "0" "9".
Definition lowerAlnum : re := Alt (Range "a" "z") (Range "0" "9").

(** [^[a-z0-9]+(_[a-z0-9]+)*$], the container name pattern of both
    validators (one writes the group as non-capturing). *)
Definition snakeCase : re :=
  Cat (Plus lowerAlnum) (Star (Cat (Chr "_") (Plus lowerAlnum))).

End regexp.

(** ** The slice of errors

    Every validator receives [errors *[]string] and appends to it; here it
    takes the list and returns the extended list. *)

Definition Errors : Set := list string.

(** Go's [append] of one message to the slice behind [errors]. *)
Definition append (errors : Errors) (msg : string) : Errors :=
  (errors ++ [msg])%list.

(** A validator step [g] only appends: its result is the slice it is given,
    followed by what it reports on an empty slice. *)
Definition framed (g : Errors -> Errors) : Prop :=
  forall errors, g errors = (errors ++ g [])%list.

(** ** The full validator, src/unnamed/part_001 *)

Module Part001.

Import strings strconv.

(** The loop of [getMappingValue] over [node.Content], two entries a step.
    The code reads [Content[i+1]] before it looks at the key, so a last key
    without a value would be an index out of range in Go; the parser always
    appends keys and values in pairs and the loop ends there with [None]. *)
Fixpoint lookup (content : list Node) (key : string) : option Node :=
  match content with
  | k :: v :: rest =>
      if KindT_eqb (Kind k) ScalarNode && String.eqb (Value k) key
      then Some v
      else lookup rest key
  | _ => None
  end.

Definition getMappingValue (node : option Node) (key : string) : option Node :=
  match node with
  | None => None
  | Some n =>
      if negb (KindT_eqb (Kind n) MappingNode) then None
      else lookup (Content n) key
  end.

(** [getMappingValue] on a node, as the schema's accessor. *)
Definition get (n : Node) (key : string) : option Node :=
  getMappingValue (Some n) key.

Definition validateMappingField (parent : option Node) (field : string)
    (required : bool) (errors : Errors) (filename : string)
    : option Node * Errors :=
  let valNode := getMappingValue parent field in
  let errors :=
    match valNode with
    | None =>
        if required
        then append errors (filename ++ ": " ++ field ++ " is required")
        else errors
    | Some _ => errors
    end in
  (valNode, errors).

Definition at_line (filename : string) (n : Node) (msg : string) : string :=
  filename ++ ":" ++ Itoa (Line n) ++ " " ++ msg.

Definition validateAPIVersion (node : option Node) (errors : Errors)
    (filename : string) : Errors :=
  match node with
  | None => errors
  | Some node =>
      if negb (KindT_eqb (Kind node) ScalarNode) then
        append errors (at_line filename node "apiVersion must be string")
      else if negb (String.eqb (Value node) "v1") then
        append errors
          (at_line filename node
             ("apiVersion has unsupported value '" ++ Value node ++ "'"))
      else errors
  end.

Definition validateKind (node : option Node) (errors : Errors)
    (filename : string) : Errors :=
  match node with
  | None => errors
  | Some node =>
      if negb (KindT_eqb (Kind node) ScalarNode) then
        append errors (at_line filename node "kind must be string")
      else if negb (String.eqb (Value node) "Pod") then
        append errors
          (at_line filename node
             ("kind has unsupported value '" ++ Value node ++ "'"))
      else errors
  end.

(** The loop of [validateMetadata] over the entries of [labels]. *)
Fixpoint validateLabels (content : list Node) (errors : Errors)
    (filename : string) : Errors :=
  match content with
  | k :: v :: rest =>
      let errors :=
        if negb (KindT_eqb (Kind k) ScalarNode)
        then append errors (at_line filename k "labels key must be string")
        else errors in
      let errors :=
        if negb (KindT_eqb (Kind v) ScalarNode)
        then append errors (at_line filename v "labels value must be string")
        else errors in
      validateLabels rest errors filename
  | _ => errors
  end.

Definition validateMetadata (metaNode : option Node) (errors : Errors)
    (filename : string) : Errors :=
  match metaNode with
  | None => errors
  | Some meta =>
      if negb (KindT_eqb (Kind meta) MappingNode) then
        append errors (at_line filename meta "metadata must be object")
      else
        let '(nameNode, errors) :=
          validateMappingField metaNode "name" true errors filename in
        let '(nsNode, errors) :=
          validateMappingField metaNode "namespace" false errors filename in
        let '(labelsNode, errors) :=
          validateMappingField metaNode "labels" false errors filename in
        let errors :=
          match nameNode with
          | None => errors
          | Some nameNode =>
              if negb (KindT_eqb (Kind nameNode) ScalarNode) then
                append errors (at_line filename nameNode "name must be string")
              else if String.eqb (Value nameNode) "" then
                append errors
                  (at_line filename nameNode "name has invalid format ''")
              else errors
          end in
        let errors :=
          match nsNode with
          | None => errors
          | Some nsNode =>
              if negb (KindT_eqb (Kind nsNode) ScalarNode) then
                append errors
                  (at_line filename nsNode "namespace must be string")
              else errors
          end in
        match labelsNode with
        | None => errors
        | Some labelsNode =>
            if negb (KindT_eqb (Kind labelsNode) MappingNode) then
              append errors
                (at_line filename labelsNode "labels must be object")
            else validateLabels (Content labelsNode) errors filename
        end
  end.

(** The range check shared by [containerPort] and [httpGet.port]: the node
    is a scalar here.  A tag other than [!!int] is reported; with the tag
    [!!int] the range is checked only when [Atoi] succeeds. *)
Definition checkPortValue (field : string) (n : Node) (errors : Errors)
    (filename : string) : Errors :=
  if negb (String.eqb (Tag n) "!!int") then
    append errors (at_line filename n (field ++ " must be int"))
  else
    match Atoi (Value n) with
    | Some val =>
        if (val <? 1) || (val >? 65535)
        then append errors (at_line filename n (field ++ " value out of range"))
        else errors
    | None => errors
    end.

(** The [containerPort] block of the loop of [validatePorts]. *)
Definition checkContainerPort (cpNode : option Node) (errors : Errors)
    (filename : string) : Errors :=
  match cpNode with
  | None => errors
  | Some cpNode =>
      if negb (KindT_eqb (Kind cpNode) ScalarNode) then
        append errors (at_line filename cpNode "containerPort must be int")
      else checkPortValue "containerPort" cpNode errors filename
  end.

(** The [protocol] block of the loop of [validatePorts]. *)
Definition checkProtocol (protoNode : option Node) (errors : Errors)
    (filename : string) : Errors :=
  match protoNode with
  | None => errors
  | Some protoNode =>
      if negb (KindT_eqb (Kind protoNode) ScalarNode) then
        append errors (at_line filename protoNode "protocol must be string")
      else
        let prot := Value protoNode in
        if negb (String.eqb prot "TCP") && negb (String.eqb prot "UDP") then
          append errors
            (at_line filename protoNode
               ("protocol has unsupported value '" ++ prot ++ "'"))
        else errors
  end.

(** One iteration of the loop of [validatePorts]. *)
Definition validatePortEntry (portEntry : Node) (errors : Errors)
    (filename : string) : Errors :=
  if negb (KindT_eqb (Kind portEntry) MappingNode) then
    append errors (at_line filename portEntry "ports entry must be object")
  else
    let '(cpNode, errors) :=
      validateMappingField (Some portEntry) "containerPort" true errors
        filename in
    let protoNode := getMappingValue (Some portEntry) "protocol" in
    let errors := checkContainerPort cpNode errors filename in
    checkProtocol protoNode errors filename.

Definition validatePorts (portsNode : Node) (errors : Errors)
    (filename : string) : Errors :=
  if negb (KindT_eqb (Kind portsNode) SequenceNode) then
    append errors (at_line filename portsNode "ports must be array")
  else
    fold_left (fun errors portEntry =>
                 validatePortEntry portEntry errors filename)
      (Content portsNode) errors.

(** The [httpGet.path] block of [validateProbe]. *)
Definition checkPath (pathNode : option Node) (errors : Errors)
    (filename : string) : Errors :=
  match pathNode with
  | None => errors
  | Some pathNode =>
      if negb (KindT_eqb (Kind pathNode) ScalarNode) then
        append errors (at_line filename pathNode "path must be string")
      else if negb (HasPrefix (Value pathNode) "/") then
        append errors
          (at_line filename pathNode
             ("path has invalid format '" ++ Value pathNode ++ "'"))
      else errors
  end.

(** The [httpGet.port] block of [validateProbe]. *)
Definition checkProbePort (portNode : option Node) (errors : Errors)
    (filename : string) : Errors :=
  match portNode with
  | None => errors
  | Some portNode =>
      if negb (KindT_eqb (Kind portNode) ScalarNode) then
        append errors (at_line filename portNode "port must be int")
      else checkPortValue "port" portNode errors filename
  end.

Definition validateProbe (probeNode : Node) (fieldName : string)
    (errors : Errors) (filename : string) : Errors :=
  if negb (KindT_eqb (Kind probeNode) MappingNode) then
    append errors (at_line filename probeNode (fieldName ++ " must be object"))
  else
    match getMappingValue (Some probeNode) "httpGet" with
    | None => append errors (at_line filename probeNode "httpGet is required")
    | Some httpGetNode =>
        if negb (KindT_eqb (Kind httpGetNode) MappingNode) then
          append errors (at_line filename httpGetNode "httpGet must be object")
        else
          let '(pathNode, errors) :=
            validateMappingField (Some httpGetNode) "path" true errors
              filename in
          let '(portNode, errors) :=
            validateMappingField (Some httpGetNode) "port" true errors
              filename in
          let errors := checkPath pathNode errors filename in
          checkProbePort portNode errors filename
    end.

(** [^[0-9]+(Ki|Mi|Gi)$]. *)
Definition memoryUnits : list string := ["Ki"; "Mi"; "Gi"].
Definition memoryPattern : regexp.re :=
  regexp.Cat (regexp.Plus regexp.digit) (regexp.AltLits memoryUnits).

(** The [cpu] block of [checkResourceValues]. *)
Definition checkCPU (cpuNode : option Node) (errors : Errors)
    (filename : string) : Errors :=
  match cpuNode with
  | None => errors
  | Some cpuNode =>
      if negb (KindT_eqb (Kind cpuNode) ScalarNode) then
        append errors (at_line filename cpuNode "cpu must be int")
      else if negb (String.eqb (Tag cpuNode) "!!int") then
        append errors (at_line filename cpuNode "cpu must be int")
      else
        match Atoi (Value cpuNode) with
        | Some val =>
            if val <? 0
            then append errors (at_line filename cpuNode "cpu value out of range")
            else errors
        | None => errors
        end
  end.

(** The [memory] block of [checkResourceValues]. *)
Definition checkMemory (memNode : option Node) (errors : Errors)
    (filename : string) : Errors :=
  match memNode with
  | None => errors
  | Some memNode =>
      if negb (KindT_eqb (Kind memNode) ScalarNode) then
        append errors (at_line filename memNode "memory must be string")
      else
        let memVal := Value memNode in
        if negb (regexp.MatchString memoryPattern memVal) then
          append errors
            (at_line filename memNode
               ("memory has invalid format '" ++ memVal ++ "'"))
        else errors
  end.

Definition checkResourceValues (resNode : Node) (errors : Errors)
    (filename : string) : Errors :=
  let cpuNode := getMappingValue (Some resNode) "cpu" in
  let errors := checkCPU cpuNode errors filename in
  let memNode := getMappingValue (Some resNode) "memory" in
  checkMemory memNode errors filename.

(** The [limits] and [requests] blocks of [validateContainer]. *)
Definition validateResourceBlock (name : string) (block : option Node)
    (errors : Errors) (filename : string) : Errors :=
  match block with
  | None => errors
  | Some b =>
      if negb (KindT_eqb (Kind b) MappingNode) then
        append errors (at_line filename b (name ++ " must be object"))
      else checkResourceValues b errors filename
  end.

Definition imagePrefix : string := "registry.bigbrother.io/".

(** The condition of the image check of [validateContainer]. *)
Definition imageOK (img : string) : bool :=
  (String.length imagePrefix <? String.length img)%nat
  && HasPrefix img imagePrefix
  && Contains (from (String.length imagePrefix) img) ":".

(** The [name] block of [validateContainer]. *)
Definition checkName (nameNode : option Node) (errors : Errors)
    (filename : string) : Errors :=
  match nameNode with
  | None => errors
  | Some nameNode =>
      if negb (KindT_eqb (Kind nameNode) ScalarNode) then
        append errors (at_line filename nameNode "name must be string")
      else if negb (regexp.MatchString regexp.snakeCase (Value nameNode)) then
        append errors
          (at_line filename nameNode
             ("name has invalid format '" ++ Value nameNode ++ "'"))
      else errors
  end.

(** The [image] block of [validateContainer]. *)
Definition checkImage (imageNode : option Node) (errors : Errors)
    (filename : string) : Errors :=
  match imageNode with
  | None => errors
  | Some imageNode =>
      if negb (KindT_eqb (Kind imageNode) ScalarNode) then
        append errors (at_line filename imageNode "image must be string")
      else
        let img := Value imageNode in
        if negb (imageOK img) then
          append errors
            (at_line filename imageNode
               ("image has invalid format '" ++ img ++ "'"))
        else errors
  end.

(** The [resources] block of [validateContainer]. *)
Definition checkResources (resourcesNode : option Node) (errors : Errors)
    (filename : string) : Errors :=
  match resourcesNode with
  | None => errors
  | Some resourcesNode =>
      if negb (KindT_eqb (Kind resourcesNode) MappingNode) then
        append errors
          (at_line filename resourcesNode "resources must be object")
      else
        let limitsNode := getMappingValue (Some resourcesNode) "limits" in
        let requestsNode := getMappingValue (Some resourcesNode) "requests" in
        let errors := validateResourceBlock "limits" limitsNode errors filename in
        validateResourceBlock "requests" requestsNode errors filename
  end.

(** The probe blocks of [validateContainer]. *)
Definition checkProbe (fieldName : string) (probeNode : option Node)
    (errors : Errors) (filename : string) : Errors :=
  match probeNode with
  | None => errors
  | Some n => validateProbe n fieldName errors filename
  end.

Definition validateContainer (containerNode : Node) (errors : Errors)
    (filename : string) : Errors :=
  if negb (KindT_eqb (Kind containerNode) MappingNode) then
    append errors (at_line filename containerNode "container must be object")
  else
    let c := Some containerNode in
    let '(nameNode, errors) :=
      validateMappingField c "name" true errors filename in
    let '(imageNode, errors) :=
      validateMappingField c "image" true errors filename in
    let portsNode := getMappingValue c "ports" in
    let readinessNode := getMappingValue c "readinessProbe" in
    let livenessNode := getMappingValue c "livenessProbe" in
    let '(resourcesNode, errors) :=
      validateMappingField c "resources" true errors filename in
    let errors := checkName nameNode errors filename in
    let errors := checkImage imageNode errors filename in
    let errors :=
      match portsNode with
      | None => errors
      | Some portsNode => validatePorts portsNode errors filename
      end in
    let errors := checkProbe "readinessProbe" readinessNode errors filename in
    let errors := checkProbe "livenessProbe" livenessNode errors filename in
    checkResources resourcesNode errors filename.

(** The [os] block of [validateSpec]. *)
Definition validateOS (osNode : Node) (errors : Errors) (filename : string)
    : Errors :=
  let '(osName, errors) :=
    if KindT_eqb (Kind osNode) ScalarNode then (Value osNode, errors)
    else if KindT_eqb (Kind osNode) MappingNode then
      match getMappingValue (Some osNode) "name" with
      | None =>
          ("", append errors (at_line filename osNode "os.name is required"))
      | Some nameNode =>
          if negb (KindT_eqb (Kind nameNode) ScalarNode) then
            ("", append errors (at_line filename nameNode "os.name must be string"))
          else (Value nameNode, errors)
      end
    else ("", append errors (at_line filename osNode "os must be string or object"))
  in
  if negb (String.eqb osName "") then
    if negb (String.eqb osName "linux") && negb (String.eqb osName "windows")
    then
      let line :=
        if KindT_eqb (Kind osNode) MappingNode then
          match getMappingValue (Some osNode) "name" with
          | Some nameNode => Line nameNode
          | None => Line osNode
          end
        else Line osNode in
      append errors
        (filename ++ ":" ++ Itoa line ++ " os has unsupported value '" ++
         osName ++ "'")
    else errors
  else errors.

Definition validateSpec (specNode : option Node) (errors : Errors)
    (filename : string) : Errors :=
  match specNode with
  | None => errors
  | Some spec =>
      if negb (KindT_eqb (Kind spec) MappingNode) then
        append errors (at_line filename spec "spec must be object")
      else
        let errors :=
          match getMappingValue specNode "os" with
          | None => errors
          | Some osNode => validateOS osNode errors filename
          end in
        match getMappingValue specNode "containers" with
        | None => append errors (filename ++ ": containers is required")
        | Some containersNode =>
            if negb (KindT_eqb (Kind containersNode) SequenceNode) then
              append errors
                (at_line filename containersNode "containers must be array")
            else
              let errors :=
                if (List.length (Content containersNode) =? 0)%nat
                then append errors
                       (at_line filename containersNode
                          "containers must not be empty")
                else errors in
              fold_left (fun errors cNode =>
                           validateContainer cNode errors filename)
                (Content containersNode) errors
        end
  end.

Definition validateDocument (doc : Node) (filename : string)
    (errors : Errors) : Errors :=
  if negb (KindT_eqb (Kind doc) MappingNode) then
    append errors
      (at_line filename doc "top-level document must be a mapping (object)")
  else
    let d := Some doc in
    let '(apiVersionNode, errors) :=
      validateMappingField d "apiVersion" true errors filename in
    let '(kindNode, errors) :=
      validateMappingField d "kind" true errors filename in
    let '(metaNode, errors) :=
      validateMappingField d "metadata" true errors filename in
    let '(specNode, errors) :=
      validateMappingField d "spec" true errors filename in
    let errors := validateAPIVersion apiVersionNode errors filename in
    let errors := validateKind kindNode errors filename in
    let errors := validateMetadata metaNode errors filename in
    validateSpec specNode errors filename.

(** The errors that [main] collects from the parsed [root]. *)
Definition collect (filename : string) (root : Node) : Errors :=
  if (List.length (Content root) =? 0)%nat then
    [filename ++ ": YAML content is empty or invalid"]
  else
    fold_left (fun errors doc => validateDocument doc filename errors)
      (Content root) [].

(** [main] after reading the file: the lines written to the error stream
    and the exit status, for a stream of documents [docs] that parses. *)
Definition main (filename : string) (docs : list Node) : list string * Z :=
  let errors := collect filename (Unmarshal docs) in
  if (0 <? List.length errors)%nat then (errors, 1) else ([], 0).

End Part001.

(** ** The single-document validator, src/main.go *)

Module MainGo.

Import strings strconv.

(** The closure [addError] of [main]. *)
Definition addError (filename : string) (errors : Errors) (line : Z)
    (msg : string) : Errors :=
  append errors (filename ++ ":" ++ Itoa line ++ " " ++ msg).

(** The loop of the closure [findMapKey]: the key is compared by its
    [Value] alone, whatever its kind.  As in [Part001.lookup], the entries
    come in pairs. *)
Fixpoint find (content : list Node) (key : string) : option (Node * Node) :=
  match content with
  | k :: v :: rest =>
      if String.eqb (Value k) key then Some (k, v) else find rest key
  | _ => None
  end.

Definition findMapKey (mapNode : option Node) (key : string)
    : option (Node * Node) :=
  match mapNode with
  | None => None
  | Some n =>
      if negb (KindT_eqb (Kind n) MappingNode) then None
      else find (Content n) key
  end.

(** The value that [findMapKey] finds in a node, as the schema's accessor. *)
Definition get (n : Node) (key : string) : option Node :=
  option_map snd (findMapKey (Some n) key).

(** The [range] loop of [containsColonAfterPrefix]: the byte index of the
    first colon, or [colonIndex]'s initial -1. *)
Fixpoint firstColon (rest : string) (i : Z) : Z :=
  match rest with
  | EmptyString => -1
  | String ch rest' =>
      if Ascii.eqb ch ":" then i else firstColon rest' (i + 1)
  end.

Definition containsColonAfterPrefix (s prefix : string) : bool :=
  if len s <=? len prefix then false
  else
    let rest := from (String.length prefix) s in
    let colonIndex := firstColon rest 0 in
    if (colonIndex <=? 0) || (colonIndex =? len rest - 1) then false
    else true.

Definition imagePrefix : string := "registry.bigbrother.io/".

(** The line of a "... is required" message: the key's line when the key
    exists, the enclosing node's line otherwise. *)
Definition keyLine (parent : Node) (kv : option (Node * Node)) : Z :=
  match kv with
  | Some (k, _) => Line k
  | None => Line parent
  end.

(** The port check of [main] (containerPort) and of [validateProbe]
    (httpGet.port); [what] is the field's name in the messages. *)
Definition checkPort (what : string) (v : Node) (filename : string)
    (errors : Errors) : Errors :=
  let errors :=
    if negb (String.eqb (Tag v) "!!int") then
      match Atoi (Value v) with
      | None =>
          addError filename errors (Line v)
            (what ++ " must be an integer between 1 and 65535")
      | Some _ => errors
      end
    else errors in
  match Atoi (Value v) with
  | Some portNum =>
      if (portNum <? 1) || (portNum >? 65535)
      then addError filename errors (Line v)
             (what ++ " must be between 1 and 65535")
      else errors
  | None => errors
  end.

(** The [path] block of [validateProbe]. *)
Definition checkProbePath (filename : string) (errors : Errors)
    (probeName : string) (httpGetNode : Node) : Errors :=
  let path := findMapKey (Some httpGetNode) "path" in
  let pathRequired :=
    addError filename errors (keyLine httpGetNode path)
      (probeName ++ ".httpGet.path is required") in
  match path with
  | None => pathRequired
  | Some (_, pathVal) =>
      if String.eqb (Value pathVal) "" then pathRequired
      else if (String.length (Value pathVal) =? 0)%nat
              || negb (HasPrefix (Value pathVal) "/") then
        addError filename errors (Line pathVal)
          (probeName ++ ".httpGet.path must start with '/'")
      else errors
  end.

(** The [port] block of [validateProbe]. *)
Definition checkProbePort (filename : string) (errors : Errors)
    (probeName : string) (httpGetNode : Node) : Errors :=
  let port := findMapKey (Some httpGetNode) "port" in
  match port with
  | None =>
      addError filename errors (keyLine httpGetNode port)
        (probeName ++ ".httpGet.port is required")
  | Some (_, portVal) =>
      checkPort (probeName ++ ".httpGet.port") portVal filename errors
  end.

Definition validateProbe (filename : string) (errors : Errors)
    (probeName : string) (probeNode : Node) : Errors :=
  if negb (KindT_eqb (Kind probeNode) MappingNode) then
    addError filename errors (Line probeNode) (probeName ++ " must be a mapping")
  else
    match findMapKey (Some probeNode) "httpGet" with
    | None => errors
    | Some (_, httpGetNode) =>
        if negb (KindT_eqb (Kind httpGetNode) MappingNode) then
          addError filename errors (Line httpGetNode)
            (probeName ++ ".httpGet must be a mapping")
        else
          let errors := checkProbePath filename errors probeName httpGetNode in
          checkProbePort filename errors probeName httpGetNode
    end.

(** [^[0-9]+(?:Ki|Mi|Gi|Ti|Pi|Ei|K|M|G|T|P|E)$]. *)
Definition memoryUnits : list string :=
  ["Ki"; "Mi"; "Gi"; "Ti"; "Pi"; "Ei"; "K"; "M"; "G"; "T"; "P"; "E"].
Definition memoryPattern : regexp.re :=
  regexp.Cat (regexp.Plus regexp.digit) (regexp.AltLits memoryUnits).

(** The [cpu] block of the loop of [checkResourceValues]. *)
Definition checkCPU (filename : string) (errors : Errors)
    (resNode : Node) (resType : string) : Errors :=
  let cpu := findMapKey (Some resNode) "cpu" in
  let cpuRequired :=
    addError filename errors (keyLine resNode cpu)
      ("resources." ++ resType ++ ".cpu is required") in
  match cpu with
  | None => cpuRequired
  | Some (_, cpuVal) =>
      if String.eqb (Value cpuVal) "" then cpuRequired
      else
        match Atoi (Value cpuVal) with
        | None =>
            addError filename errors (Line cpuVal)
              ("resources." ++ resType ++
               ".cpu must be a non-negative integer")
        | Some i =>
            if i <? 0 then
              addError filename errors (Line cpuVal)
                ("resources." ++ resType ++
                 ".cpu must be a non-negative integer")
            else errors
        end
  end.

(** The [memory] block of the loop of [checkResourceValues]. *)
Definition checkMemory (filename : string) (errors : Errors)
    (resNode : Node) (resType : string) : Errors :=
  let mem := findMapKey (Some resNode) "memory" in
  let memRequired :=
    addError filename errors (keyLine resNode mem)
      ("resources." ++ resType ++ ".memory is required") in
  match mem with
  | None => memRequired
  | Some (_, memVal) =>
      if String.eqb (Value memVal) "" then memRequired
      else if negb (regexp.MatchString memoryPattern (Value memVal)) then
        addError filename errors (Line memVal)
          ("resources." ++ resType ++
           ".memory must be in format <number><unit> (e.g., 123Mi or 1Gi)")
      else errors
  end.

(** One iteration of the loop of [checkResourceValues] over
    ["limits"; "requests"]. *)
Definition checkResourceType (filename : string) (errors : Errors)
    (resourcesNode : Node) (resType : string) : Errors :=
  match findMapKey (Some resourcesNode) resType with
  | None =>
      addError filename errors (Line resourcesNode)
        ("resources." ++ resType ++ " is required")
  | Some (_, resNode) =>
      if negb (KindT_eqb (Kind resNode) MappingNode) then
        addError filename errors (Line resNode)
          ("resources." ++ resType ++ " must be a mapping")
      else
        let errors := checkCPU filename errors resNode resType in
        checkMemory filename errors resNode resType
  end.

Definition checkResourceValues (filename : string) (errors : Errors)
    (resourcesNode : Node) : Errors :=
  if negb (KindT_eqb (Kind resourcesNode) MappingNode) then
    addError filename errors (Line resourcesNode) "resources must be a mapping"
  else
    fold_left (fun errors resType =>
                 checkResourceType filename errors resourcesNode resType)
      ["limits"; "requests"] errors.

(** The [protocol] block of the loop of [main] over the items of [ports]. *)
Definition checkProtocol (filename : string) (errors : Errors)
    (proto : option (Node * Node)) : Errors :=
  match proto with
  | Some (_, protoVal) =>
      if negb (String.eqb (Value protoVal) "TCP")
         && negb (String.eqb (Value protoVal) "UDP")
      then addError filename errors (Line protoVal)
             "protocol must be either TCP or UDP"
      else errors
  | None => errors
  end.

(** One iteration of the loop of [main] over the items of [ports]. *)
Definition validatePortItem (filename : string) (errors : Errors)
    (portItem : Node) : Errors :=
  if negb (KindT_eqb (Kind portItem) MappingNode) then
    addError filename errors (Line portItem)
      "port must be a mapping (with containerPort and protocol)"
  else
    let cp := findMapKey (Some portItem) "containerPort" in
    let errors :=
      match cp with
      | None =>
          addError filename errors (keyLine portItem cp)
            "containerPort is required"
      | Some (_, cpVal) => checkPort "containerPort" cpVal filename errors
      end in
    checkProtocol filename errors (findMapKey (Some portItem) "protocol").

(** The image check of [main]. *)
Definition imageOK (img : string) : bool :=
  negb ((len img <? len imagePrefix)
        || negb (String.eqb (upto (String.length imagePrefix) img) imagePrefix)
        || negb (containsColonAfterPrefix img imagePrefix)).

(** The [name] block of the loop of [main] over the containers. *)
Definition checkName (filename : string) (errors : Errors)
    (container : Node) : Errors :=
  let name := findMapKey (Some container) "name" in
  let nameRequired :=
    addError filename errors (keyLine container name)
      "container name is required" in
  match name with
  | None => nameRequired
  | Some (_, nameVal) =>
      if String.eqb (Value nameVal) "" then nameRequired
      else if negb (regexp.MatchString regexp.snakeCase (Value nameVal)) then
        addError filename errors (Line nameVal)
          "container name must be snake_case (lowercase with underscores)"
      else errors
  end.

(** The [image] block of the loop of [main] over the containers. *)
Definition checkImage (filename : string) (errors : Errors)
    (container : Node) : Errors :=
  let image := findMapKey (Some container) "image" in
  let imageRequired :=
    addError filename errors (keyLine container image) "image is required" in
  match image with
  | None => imageRequired
  | Some (_, imageVal) =>
      if String.eqb (Value imageVal) "" then imageRequired
      else if negb (imageOK (Value imageVal)) then
        addError filename errors (Line imageVal)
          "image must start with 'registry.bigbrother.io/' and contain a tag (use ':')"
      else errors
  end.

(** The [ports] block of the loop of [main] over the containers. *)
Definition checkPorts (filename : string) (errors : Errors)
    (container : Node) : Errors :=
  match findMapKey (Some container) "ports" with
  | Some (_, portsVal) =>
      if negb (KindT_eqb (Kind portsVal) SequenceNode) then
        addError filename errors (Line portsVal) "ports must be a list"
      else
        fold_left (fun errors portItem =>
                     validatePortItem filename errors portItem)
          (Content portsVal) errors
  | None => errors
  end.

(** The probe blocks of the loop of [main] over the containers. *)
Definition checkProbe (filename : string) (errors : Errors)
    (probeName : string) (container : Node) : Errors :=
  match findMapKey (Some container) probeName with
  | Some (_, probeNode) => validateProbe filename errors probeName probeNode
  | None => errors
  end.

(** One iteration of the loop of [main] over the containers. *)
Definition validateContainerItem (filename : string) (errors : Errors)
    (container : Node) : Errors :=
  if negb (KindT_eqb (Kind container) MappingNode) then
    addError filename errors (Line container) "container must be a mapping object"
  else
    let errors := checkName filename errors container in
    let errors := checkImage filename errors container in
    let errors := checkPorts filename errors container in
    let errors := checkProbe filename errors "readinessProbe" container in
    let errors := checkProbe filename errors "livenessProbe" container in
    match findMapKey (Some container) "resources" with
    | Some (_, resNode) => checkResourceValues filename errors resNode
    | None => errors
    end.

(** The [spec.os] block of [main]: the value's text is compared, whatever
    the kind of the node. *)
Definition checkOS (filename : string) (errors : Errors)
    (specNode : Node) : Errors :=
  match findMapKey (Some specNode) "os" with
  | Some (_, osVal) =>
      if negb (String.eqb (Value osVal) "linux")
         && negb (String.eqb (Value osVal) "windows")
      then addError filename errors (Line osVal)
             "spec.os must be 'linux' or 'windows'"
      else errors
  | None => errors
  end.

(** The [spec] block of [main]. *)
Definition validateSpec (filename : string) (errors : Errors)
    (rootMap : Node) : Errors :=
  match findMapKey (Some rootMap) "spec" with
  | None => addError filename errors 1 "spec.containers is required"
  | Some (_, specNode) =>
      if negb (KindT_eqb (Kind specNode) MappingNode) then
        addError filename errors (Line specNode) "spec.containers is required"
      else
        let errors := checkOS filename errors specNode in
        match findMapKey (Some specNode) "containers" with
        | None =>
            addError filename errors (Line specNode)
              "spec.containers is required"
        | Some (_, containersNode) =>
            if negb (KindT_eqb (Kind containersNode) SequenceNode) then
              addError filename errors (Line containersNode)
                "spec.containers must be a sequence (list)"
            else if (List.length (Content containersNode) =? 0)%nat then
              addError filename errors (Line containersNode)
                "spec.containers must have at least one container"
            else
              fold_left (fun errors container =>
                           validateContainerItem filename errors container)
                (Content containersNode) errors
        end
  end.

(** The [metadata] block of [main]. *)
Definition validateMetadata (filename : string) (errors : Errors)
    (rootMap : Node) : Errors :=
  match findMapKey (Some rootMap) "metadata" with
  | None => addError filename errors 1 "metadata.name is required"
  | Some (_, metadataNode) =>
      if negb (KindT_eqb (Kind metadataNode) MappingNode) then
        addError filename errors (Line metadataNode) "metadata.name is required"
      else
        match findMapKey (Some metadataNode) "name" with
        | None =>
            addError filename errors (Line metadataNode)
              "metadata.name is required"
        | Some (_, nameNode) =>
            if String.eqb (Value nameNode) "" then
              addError filename errors (Line metadataNode)
                "metadata.name is required"
            else errors
        end
  end.

(** The walk of [main] over the root mapping, from [var errors []string]
    to the end of the [spec] block. *)
Definition validate (filename : string) (rootMap : Node) : Errors :=
  let errors : Errors := [] in
  let errors :=
    match findMapKey (Some rootMap) "apiVersion" with
    | None => addError filename errors 1 "apiVersion is required"
    | Some _ => errors
    end in
  let errors :=
    match findMapKey (Some rootMap) "kind" with
    | None => addError filename errors 1 "kind is required"
    | Some _ => errors
    end in
  let errors := validateMetadata filename errors rootMap in
  validateSpec filename errors rootMap.

(** [main] after reading the file: the lines written to the error stream
    and the exit status, for a stream of documents [docs] that parses. *)
Definition main (filename : string) (docs : list Node) : list string * Z :=
  let root := Unmarshal docs in
  let rootMap :=
    if KindT_eqb (Kind root) DocumentNode
       && (0 <? List.length (Content root))%nat
    then match Content root with d :: _ => d | [] => root end
    else root in
  if negb (KindT_eqb (Kind rootMap) MappingNode) then
    ([filename ++ ":1 YAML content is not a mapping"], 1)
  else
    let errors := validate filename rootMap in
    if (0 <? List.length errors)%nat then (errors, 1) else ([], 0).

End MainGo.

(** ** The reduced validator, src/unnamed/part_000 *)

Module Part000.

Import strings strconv.

(** The inner loop of [validateProbe] over the entries of [httpGet]: every
    scalar [port] entry is looked at, and a text that is not a number (a
    named port) is no error. *)
Fixpoint portLoop (content : list Node) (filename : string)
    (errs : Errors) : Errors :=
  match content with
  | k :: v :: rest =>
      let errs :=
        if String.eqb (Value k) "port" && KindT_eqb (Kind v) ScalarNode then
          let portStr := Value v in
          if negb (String.eqb portStr "") then
            match Atoi portStr with
            | Some port =>
                if (port <? 1) || (port >? 65535) then
                  append errs
                    (filename ++ ":" ++ Itoa (Line v) ++
                     " port value out of range")
                else errs
            | None => errs
            end
          else errs
        else errs in
      portLoop rest filename errs
  | _ => errs
  end.

(** The outer loop of [validateProbe] over the entries of the probe. *)
Fixpoint httpGetLoop (content : list Node) (filename : string)
    (errs : Errors) : Errors :=
  match content with
  | keyNode :: valNode :: rest =>
      let errs :=
        if String.eqb (Value keyNode) "httpGet"
           && KindT_eqb (Kind valNode) MappingNode
        then portLoop (Content valNode) filename errs
        else errs in
      httpGetLoop rest filename errs
  | _ => errs
  end.

Definition validateProbe (filename : string) (errs : Errors)
    (probeNode : option Node) : Errors :=
  match probeNode with
  | None => errs
  | Some p =>
      if negb (KindT_eqb (Kind p) MappingNode) then errs
      else httpGetLoop (Content p) filename errs
  end.

(** The inner loop of [checkResourceValues] over the entries of
    [requests]: a scalar [cpu] with the string tag is reported. *)
Fixpoint cpuLoop (content : list Node) (filename : string)
    (errs : Errors) : Errors :=
  match content with
  | reqKey :: reqVal :: rest =>
      let errs :=
        if String.eqb (Value reqKey) "cpu"
           && KindT_eqb (Kind reqVal) ScalarNode
        then
          if String.eqb (Tag reqVal) "!!str" then
            append errs
              (filename ++ ":" ++ Itoa (Line reqVal) ++ " cpu must be int")
          else errs
        else errs in
      cpuLoop rest filename errs
  | _ => errs
  end.

(** The outer loop of [checkResourceValues] over the entries of
    [resources]. *)
Fixpoint requestsLoop (content : list Node) (filename : string)
    (errs : Errors) : Errors :=
  match content with
  | keyNode :: valNode :: rest =>
      let errs :=
        if String.eqb (Value keyNode) "requests"
           && KindT_eqb (Kind valNode) MappingNode
        then cpuLoop (Content valNode) filename errs
        else errs in
      requestsLoop rest filename errs
  | _ => errs
  end.

Definition checkResourceValues (filename : string) (errs : Errors)
    (resourcesNode : option Node) : Errors :=
  match resourcesNode with
  | None => errs
  | Some r =>
      if negb (KindT_eqb (Kind r) MappingNode) then errs
      else requestsLoop (Content r) filename errs
  end.

(** The loop of [main] that looks for [spec]: it stops at the first key
    whose text is [spec]. *)
Fixpoint findSpec (content : list Node) : option Node :=
  match content with
  | keyNode :: valNode :: rest =>
      if String.eqb (Value keyNode) "spec" then Some valNode
      else findSpec rest
  | _ => None
  end.

(** The first loop of [main] over the entries of [spec]: every scalar
    [os]. *)
Fixpoint osLoop (content : list Node) (filename : string)
    (errs : Errors) : Errors :=
  match content with
  | keyNode :: valNode :: rest =>
      let errs :=
        if String.eqb (Value keyNode) "os"
           && KindT_eqb (Kind valNode) ScalarNode
        then
          if negb (String.eqb (Value valNode) "linux")
             && negb (String.eqb (Value valNode) "windows")
          then
            append errs
              (filename ++ ":" ++ Itoa (Line valNode) ++
               " os has unsupported value '" ++ Value valNode ++ "'")
          else errs
        else errs in
      osLoop rest filename errs
  | _ => errs
  end.

(** The loop of [main] over the entries of one container: the readiness
    probe and the resources. *)
Fixpoint containerLoop (content : list Node) (filename : string)
    (errs : Errors) : Errors :=
  match content with
  | cKey :: cVal :: rest =>
      let errs :=
        if String.eqb (Value cKey) "readinessProbe"
        then validateProbe filename errs (Some cVal)
        else errs in
      let errs :=
        if String.eqb (Value cKey) "resources"
        then checkResourceValues filename errs (Some cVal)
        else errs in
      containerLoop rest filename errs
  | _ => errs
  end.

(** The loop of [main] over the list of containers; an entry that is no
    mapping is passed over. *)
Definition containerList (containers : list Node) (filename : string)
    (errs : Errors) : Errors :=
  fold_left (fun errs containerNode =>
               if negb (KindT_eqb (Kind containerNode) MappingNode) then errs
               else containerLoop (Content containerNode) filename errs)
    containers errs.

(** The second loop of [main] over the entries of [spec]: every sequence
    [containers]. *)
Fixpoint containersLoop (content : list Node) (filename : string)
    (errs : Errors) : Errors :=
  match content with
  | keyNode :: valNode :: rest =>
      let errs :=
        if String.eqb (Value keyNode) "containers"
           && KindT_eqb (Kind valNode) SequenceNode
        then containerList (Content valNode) filename errs
        else errs in
      containersLoop rest filename errs
  | _ => errs
  end.

(** The walk of [main] over the root mapping [doc], from [var errs
    []string] on. *)
Definition validate (filename : string) (doc : Node) : Errors :=
  match findSpec (Content doc) with
  | Some specNode =>
      if KindT_eqb (Kind specNode) MappingNode then
        let errs := osLoop (Content specNode) filename [] in
        containersLoop (Content specNode) filename errs
      else []
  | None => []
  end.

(** [main] after reading the file: the lines written to the error stream
    and the exit status, for a stream of documents [docs] that parses. *)
Definition main (filename : string) (docs : list Node) : list string * Z :=
  let root := Unmarshal docs in
  let doc :=
    if KindT_eqb (Kind root) DocumentNode
       && (0 <? List.length (Content root))%nat
    then match Content root with d :: _ => d | [] => root end
    else root in
  if negb (KindT_eqb (Kind doc) MappingNode) then
    ([filename ++ ": root YAML node is not a mapping"], 1)
  else
    let errs := validate filename doc in
    if (0 <? List.length errs)%nat then (errs, 1) else ([], 0).

End Part000.

(** ** Nodes as the parser builds them

    Constructors for the nodes of concrete manifests: plain and quoted
    scalars with the tag the parser resolves for them, mappings from a flat
    list of keys and values, and sequences. *)

Module Build.

Definition str (line : Z) (v : string) : Node :=
  mkNode ScalarNode "!!str" v line [].

Definition int (line : Z) (v : string) : Node :=
  mkNode ScalarNode "!!int" v line [].

Definition map (line : Z) (content : list Node) : Node :=
  mkNode MappingNode "!!map" "" line content.

Definition seq (line : Z) (items : list Node) : Node :=
  mkNode SequenceNode "!!seq" "" line items.

(** A manifest with one container; [image], [memory] and the port entry
    vary.
<<
 1  apiVersion: v1
 2  kind: Pod
 3  metadata:
 4    name: web
 5  spec:
 6    os: linux
 7    containers:
 8      - name: web_server
 9        image: <image>
10        ports:
11          - <port entry>
13        readinessProbe:
14          httpGet:
15            path: /ready
16            port: 8080
17        resources:
18          limits:
19            cpu: 2
20            memory: <memory>
21          requests:
22            cpu: 1
23            memory: 256Mi
>> *)
Definition probe (line : Z) : Node :=
  map (line + 1)
    [str (line + 1) "httpGet";
     map (line + 2)
       [str (line + 2) "path"; str (line + 2) "/ready";
        str (line + 3) "port"; int (line + 3) "8080"]].

Definition container (image memory : string) (portEntry : Node) : Node :=
  map 8
    [str 8 "name"; str 8 "web_server";
     str 9 "image"; str 9 image;
     str 10 "ports"; seq 11 [portEntry];
     str 13 "readinessProbe"; probe 13;
     str 17 "resources";
     map 18
       [str 18 "limits";
        map 19 [str 19 "cpu"; int 19 "2";
                str 20 "memory"; str 20 memory];
        str 21 "requests";
        map 22 [str 22 "cpu"; int 22 "1";
                str 23 "memory"; str 23 "256Mi"]]].

Definition metadata : Node := map 4 [str 4 "name"; str 4 "web"].

Definition spec (image memory : string) (portEntry : Node) : Node :=
  map 6
    [str 6 "os"; str 6 "linux";
     str 7 "containers"; seq 8 [container image memory portEntry]].

Definition pod (image memory : string) (portEntry : Node) : Node :=
  map 1
    [str 1 "apiVersion"; str 1 "v1";
     str 2 "kind"; str 2 "Pod";
     str 3 "metadata"; metadata;
     str 5 "spec"; spec image memory portEntry].

(** The mapping [n] with the entry [field: v] put in front of its entries. *)
Definition withField (field : string) (v : Node) (n : Node) : Node :=
  mkNode (Kind n) (Tag n) (Value n) (Line n)
    (str (Line n) field :: v :: Content n).

(** [- containerPort: <v>], with the scalar [v]. *)
Definition portEntry (v : Node) : Node :=
  map 11 [str 11 "containerPort"; v].

Definition goodImage : string := "registry.bigbrother.io/app:latest".

(** A manifest with no violation. *)
Definition goodPod : Node := pod goodImage "512Mi" (portEntry (int 11 "80")).

(** [goodPod] without its [metadata] entry. *)
Definition podWithoutMetadata : Node :=
  map 1
    [str 1 "apiVersion"; str 1 "v1";
     str 2 "kind"; str 2 "Pod";
     str 5 "spec"; spec goodImage "512Mi" (portEntry (int 11 "80"))].

End Build.

(** ** The schema, as the specification words it

    The rules of the specification's sections on scalar checkers and section
    validators, as decidable predicates on nodes.  They are written from the
    specification and compared with the validators below.  The node accessor
    [get] is the one of the validator the schema is compared with, and a
    [Variant] fixes the points that the specification leaves to the variants
    of the validator. *)

Module Schema.

Import strings strconv.

Definition isScalar (n : Node) : bool := KindT_eqb (Kind n) ScalarNode.
Definition isMapping (n : Node) : bool := KindT_eqb (Kind n) MappingNode.
Definition isSequence (n : Node) : bool := KindT_eqb (Kind n) SequenceNode.

(** A required field: present, and its value passes [rule]. *)
Definition required (field : option Node) (rule : Node -> bool) : bool :=
  match field with
  | Some n => rule n
  | None => false
  end.

(** An optional field: its value passes [rule] if it is present. *)
Definition optional (field : option Node) (rule : Node -> bool) : bool :=
  match field with
  | Some n => rule n
  | None => true
  end.

(** Integer-in-range: a scalar with the integer tag whose value [v]
    satisfies [lo <= v], and [v <= hi] when there is an upper bound. *)
Definition integerInRange (lo : Z) (hi : option Z) (n : Node) : bool :=
  isScalar n && String.eqb (Tag n) "!!int" &&
  match Atoi (Value n) with
  | Some v =>
      (lo <=? v) && match hi with Some h => v <=? h | None => true end
  | None => false
  end.

(** The unit vocabularies: binary prefixes and decimal units. *)
Definition binaryUnits : list string := ["Ki"; "Mi"; "Gi"; "Ti"; "Pi"; "Ei"].
Definition decimalUnits : list string := ["K"; "M"; "G"; "T"; "P"; "E"].

(** The text matches [^[0-9]+(<unit>)$]: one or more digits, then a unit
    of [units]. *)
Definition quantityText (units : list string) (s : string) : Prop :=
  exists ds u, s = ds ++ u /\ ds <> "" /\ allDigits ds /\ In u units.

(** Quantity-with-unit, decided with the pattern [^[0-9]+(<unit>)$]. *)
Definition quantityWithUnit (units : list string) (n : Node) : bool :=
  isScalar n &&
  regexp.MatchString
    (regexp.Cat (regexp.Plus regexp.digit) (regexp.AltLits units)) (Value n).

(** [rest] holds a colon that is neither its first nor its last
    character. *)
Definition colonInside (rest : string) : Prop :=
  exists a b, rest = a ++ ":" ++ b /\ a <> "" /\ b <> "".

(** The text starts with [prefix], and what follows holds a colon that is
    neither its first nor its last character. *)
Definition taggedText (prefix s : string) : Prop :=
  exists rest, s = prefix ++ rest /\ colonInside rest.

(** The search for a colon that is neither first nor last, after the
    first character. *)
Fixpoint colonInsideFrom (s : string) : bool :=
  match s with
  | EmptyString => false
  | String c s' =>
      (Ascii.eqb c ":" && negb (String.eqb s' "")) || colonInsideFrom s'
  end.

Definition colonInsideb (rest : string) : bool :=
  match rest with
  | EmptyString => false
  | String _ s' => colonInsideFrom s'
  end.

(** Prefixed-tagged-reference. *)
Definition prefixedTaggedReference (prefix : string) (n : Node) : bool :=
  isScalar n && HasPrefix (Value n) prefix &&
  colonInsideb (from (String.length prefix) (Value n)).

(** Identifier: the text fully matches [^[a-z0-9]+(_[a-z0-9]+)*$]. *)
Definition identifier (n : Node) : bool :=
  isScalar n && regexp.MatchString regexp.snakeCase (Value n).

(** Enum: the text is exactly one of [allowed]. *)
Definition enum (allowed : list string) (n : Node) : bool :=
  isScalar n && existsb (String.eqb (Value n)) allowed.

(** A scalar that equals a fixed accepted value. *)
Definition fixedValue (v : string) (n : Node) : bool :=
  isScalar n && String.eqb (Value n) v.

(** The text of a probe path: non-empty, starts with a slash. *)
Definition pathText (v : Node) : bool :=
  negb (String.eqb (Value v) "") && HasPrefix (Value v) "/".

(** The text of a port converts to a value in 1..65535. *)
Definition portValue (v : Node) : bool :=
  match Atoi (Value v) with
  | Some x => (1 <=? x) && (x <=? 65535)
  | None => false
  end.

(** The two accepted platform names. *)
Definition supportedOS (name : string) : Prop :=
  name = "linux" \/ name = "windows".

(** The search for the first colon, after a first character that is no
    colon: something must follow the colon. *)
Fixpoint firstColonInsideFrom (s : string) : bool :=
  match s with
  | EmptyString => false
  | String c s' =>
      if Ascii.eqb c ":" then negb (String.eqb s' "")
      else firstColonInsideFrom s'
  end.

(** The first colon of [rest] is neither its first nor its last
    character. *)
Definition firstColonInsideb (rest : string) : bool :=
  match rest with
  | EmptyString => false
  | String c s' => negb (Ascii.eqb c ":") && firstColonInsideFrom s'
  end.

(** The points on which the variants of the validator differ: the unit
    vocabulary of the memory rule; whether [os] may be an object with a
    [name]; whether a container must have [resources]; whether [limits]
    and [requests], and [cpu] and [memory] within them, are required; and
    whether the colon of the image rule must be the first colon. *)
Record Variant : Set := mkVariant
  { units : list string;
    osObject : bool;
    resourcesRequired : bool;
    quantitiesRequired : bool;
    firstColon : bool }.

(** A field that is required or optional, according to the variant. *)
Definition field (isRequired : bool) (value : option Node)
    (rule : Node -> bool) : bool :=
  if isRequired then required value rule else optional value rule.

(** Every key and every value of a mapping's entries is a scalar. *)
Fixpoint scalarEntries (content : list Node) : bool :=
  match content with
  | k :: v :: rest => isScalar k && isScalar v && scalarEntries rest
  | _ => true
  end.

Section Rules.

Variable get : Node -> string -> option Node.
Variable variant : Variant.

(** metadata: required [name] (non-empty scalar), optional [namespace]
    (scalar), optional [labels] (mapping of scalars to scalars). *)
Definition metadata (n : Node) : bool :=
  isMapping n &&
  required (get n "name")
    (fun v => isScalar v && negb (String.eqb (Value v) "")) &&
  optional (get n "namespace") isScalar &&
  optional (get n "labels")
    (fun l => isMapping l && scalarEntries (Content l)).

(** [os]: a bare scalar or, where the variant has the object form, a
    mapping with a required [name]; the resolved name is one of the two
    platform names. *)
Definition os (n : Node) : bool :=
  enum ["linux"; "windows"] n ||
  (osObject variant && isMapping n &&
   required (get n "name") (enum ["linux"; "windows"])).

(** A port entry: a mapping with required [containerPort] in 1..65535
    and optional [protocol]. *)
Definition port (n : Node) : bool :=
  isMapping n &&
  required (get n "containerPort") (integerInRange 1 (Some 65535)) &&
  optional (get n "protocol") (enum ["TCP"; "UDP"]).

(** A probe: a mapping with a required [httpGet] mapping, which has a
    required [path] (non-empty, starts with a slash) and a required
    [port] in 1..65535. *)
Definition pathRule (n : Node) : bool :=
  required (get n "path") (fun v => isScalar v && pathText v).

Definition portRule (n : Node) : bool :=
  required (get n "port") (integerInRange 1 (Some 65535)).

Definition httpGet (n : Node) : bool :=
  isMapping n && pathRule n && portRule n.

Definition probe (n : Node) : bool :=
  isMapping n && required (get n "httpGet") httpGet.

(** Resource quantities: [cpu] a non-negative integer, [memory] a
    quantity with a unit. *)
Definition quantities (n : Node) : bool :=
  isMapping n &&
  field (quantitiesRequired variant) (get n "cpu") (integerInRange 0 None) &&
  field (quantitiesRequired variant) (get n "memory")
    (quantityWithUnit (units variant)).

(** The resources section: a mapping with [limits] and/or [requests]. *)
Definition resources (n : Node) : bool :=
  isMapping n &&
  field (quantitiesRequired variant) (get n "limits") quantities &&
  field (quantitiesRequired variant) (get n "requests") quantities.

(** The image rule: Prefixed-tagged-reference with the registry prefix;
    where the variant looks at the first colon only, that colon is the one
    that is neither first nor last. *)
Definition image (n : Node) : bool :=
  prefixedTaggedReference "registry.bigbrother.io/" n &&
  (negb (firstColon variant) ||
   firstColonInsideb
     (from (String.length "registry.bigbrother.io/") (Value n))).

(** A container entry. *)
Definition container (n : Node) : bool :=
  isMapping n &&
  required (get n "name") identifier &&
  required (get n "image") image &&
  optional (get n "ports")
    (fun p => isSequence p && forallb port (Content p)) &&
  optional (get n "readinessProbe") probe &&
  optional (get n "livenessProbe") probe &&
  field (resourcesRequired variant) (get n "resources") resources.

(** spec: optional [os], required non-empty sequence [containers]. *)
Definition spec (n : Node) : bool :=
  isMapping n &&
  optional (get n "os") os &&
  required (get n "containers")
    (fun c => isSequence c
              && negb (List.length (Content c) =? 0)%nat
              && forallb container (Content c)).

(** The top-level document. *)
Definition document (n : Node) : bool :=
  isMapping n &&
  required (get n "apiVersion") (fixedValue "v1") &&
  required (get n "kind") (fixedValue "Pod") &&
  required (get n "metadata") metadata &&
  required (get n "spec") spec.

End Rules.

(** The schema as the specification states it: binary-prefix units, [os]
    as a scalar or an object, [resources] required as in the stricter
    variant. *)
Definition asSpecified : Variant :=
  mkVariant binaryUnits true true false false.

(** The schema of the full validator: the units Ki, Mi and Gi. *)
Definition fullValidator : Variant :=
  mkVariant ["Ki"; "Mi"; "Gi"] true true false false.

(** The schema of [main.go]: binary and decimal units, [os] as a scalar
    only, [resources] optional but complete when present, the first colon
    of the image decides. *)
Definition mainGo : Variant :=
  mkVariant (binaryUnits ++ decimalUnits)%list false false true true.

End Schema.

(** ** The entries of a mapping

    What the properties below say about the flat list of a mapping's keys
    and values. *)

Module Entries.

(** The keys of a flat list of entries: every other node, from the first. *)
Fixpoint keys (content : list Node) : list Node :=
  match content with
  | k :: _ :: rest => k :: keys rest
  | _ => []
  end.

(** The values of a flat list of entries. *)
Fixpoint values (content : list Node) : list Node :=
  match content with
  | _ :: v :: rest => v :: values rest
  | _ => []
  end.

(** Every key is a scalar, as in a manifest without complex keys or alias
    keys. *)
Definition scalarKeys (content : list Node) : bool :=
  forallb (fun k => KindT_eqb (Kind k) ScalarNode) (keys content).

(** The nodes of the entries that are no scalars, keys and values alike. *)
Definition nonScalars (content : list Node) : list Node :=
  filter (fun n => negb (KindT_eqb (Kind n) ScalarNode))
    (flat_map (fun kv => [fst kv; snd kv])
       (combine (keys content) (values content))).

(** A run of lowercase letters and digits. *)
Definition lowerAlnumChar (c : ascii) : bool :=
  regexp.inRange "a" "z" c || regexp.inRange "0" "9" c.

Definition segment (s : string) : Prop :=
  s <> "" /\
  forall c, In c (list_ascii_of_string s) -> lowerAlnumChar c = true.

(** Segments joined by single underscores: the first segment, then each
    further segment after an underscore. *)
Fixpoint joined (segments : list string) : string :=
  match segments with
  | [] => ""
  | seg :: rest => "_" ++ seg ++ joined rest
  end.

Definition snakeText (s : string) : Prop :=
  exists first rest,
    s = first ++ joined rest /\ segment first /\ Forall segment rest.

End Entries.

(** ** A document without one of its required fields

    The nodes that the full validator hands to its validators, the fields
    each validator requires of its node, and the relation between a node
    that lacks one required field, somewhere inside, and the node with the
    field put back. *)

Module Omission.

(** The nodes with a validator of their own: the document, [metadata],
    [spec], an [os] object, a container, the list [ports], a port entry
    and a probe under its field name. *)
Inductive Level : Set :=
| Document
| Metadata
| Spec
| OS
| Container
| Ports
| Port
| Probe (fieldName : string).

(** The validator that the full validator runs on a node of a level. *)
Definition run (filename : string) (l : Level) (n : Node) (errors : Errors)
    : Errors :=
  match l with
  | Document => Part001.validateDocument n filename errors
  | Metadata => Part001.validateMetadata (Some n) errors filename
  | Spec => Part001.validateSpec (Some n) errors filename
  | OS => Part001.validateOS n errors filename
  | Container => Part001.validateContainer n errors filename
  | Ports => Part001.validatePorts n errors filename
  | Port => Part001.validatePortEntry n errors filename
  | Probe fieldName => Part001.validateProbe n fieldName errors filename
  end.

(** The fields that the validator of a level requires of its node. *)
Definition requiredFields (l : Level) : list string :=
  match l with
  | Document => ["apiVersion"; "kind"; "metadata"; "spec"]
  | Metadata => ["name"]
  | Spec => ["containers"]
  | OS => ["name"]
  | Container => ["name"; "image"; "resources"]
  | Ports => []
  | Port => ["containerPort"]
  | Probe _ => ["httpGet"]
  end.

(** The line that the validator of a level writes for a required field
    that its node [n] lacks. *)
Definition presence (filename : string) (l : Level) (n : Node)
    (field : string) : string :=
  match l with
  | OS => Part001.at_line filename n "os.name is required"
  | Probe _ => Part001.at_line filename n (field ++ " is required")
  | _ => filename ++ ": " ++ field ++ " is required"
  end.

(** The level of the value of the entry [key], where the validator of the
    level [l] hands that value to a validator. *)
Definition child (l : Level) (key : string) : option Level :=
  match l with
  | Document =>
      if String.eqb key "metadata" then Some Metadata
      else if String.eqb key "spec" then Some Spec
      else None
  | Spec => if String.eqb key "os" then Some OS else None
  | Container =>
      if String.eqb key "ports" then Some Ports
      else if String.eqb key "readinessProbe" then Some (Probe "readinessProbe")
      else if String.eqb key "livenessProbe" then Some (Probe "livenessProbe")
      else None
  | _ => None
  end.

(** The mapping [parent] with the entries [pre], then the key [k] with the
    value [x], then the entries [post]. *)
Definition inField (parent : Node) (pre : list Node) (k : Node)
    (post : list Node) (x : Node) : Node :=
  mkNode (Kind parent) (Tag parent) (Value parent) (Line parent)
    (pre ++ k :: x :: post)%list.

(** The sequence [parent] with the items [pre], then [x], then [post]. *)
Definition inItem (parent : Node) (pre post : list Node) (x : Node) : Node :=
  mkNode (Kind parent) (Tag parent) (Value parent) (Line parent)
    (pre ++ x :: post)%list.

(** [k] is the key that [getMappingValue] stops at for [key] after the
    entries [pre]. *)
Definition entryOf (key : string) (pre : list Node) (k : Node) : Prop :=
  Nat.even (List.length pre) = true /\
  Part001.lookup pre key = None /\
  Kind k = ScalarNode /\ Value k = key.

(** [omits filename l n whole msg]: the node [n] of level [l] is [whole]
    without one required field, of [n] itself or of a node inside [n] that
    a validator reaches, and [msg] is the line for that field. *)
Inductive omits (filename : string)
    : Level -> Node -> Node -> string -> Prop :=
| omits_field l n field v :
    Kind n = MappingNode ->
    Part001.getMappingValue (Some n) field = None ->
    In field (requiredFields l) ->
    omits filename l n (Build.withField field v n)
      (presence filename l n field)
| omits_httpGet_field fieldName p pre k post h field v :
    Kind p = MappingNode ->
    entryOf "httpGet" pre k ->
    Kind h = MappingNode ->
    Part001.getMappingValue (Some h) field = None ->
    In field ["path"; "port"] ->
    omits filename (Probe fieldName)
      (inField p pre k post h)
      (inField p pre k post (Build.withField field v h))
      (filename ++ ": " ++ field ++ " is required")
| omits_in_field l key l' parent pre k post n whole msg :
    child l key = Some l' ->
    Kind parent = MappingNode ->
    entryOf key pre k ->
    omits filename l' n whole msg ->
    omits filename l
      (inField parent pre k post n) (inField parent pre k post whole) msg
| omits_in_containers spec pre k post cs cpre cpost n whole msg :
    Kind spec = MappingNode ->
    entryOf "containers" pre k ->
    Kind cs = SequenceNode ->
    omits filename Container n whole msg ->
    omits filename Spec
      (inField spec pre k post (inItem cs cpre cpost n))
      (inField spec pre k post (inItem cs cpre cpost whole)) msg
| omits_in_ports ports pre post n whole msg :
    Kind ports = SequenceNode ->
    omits filename Port n whole msg ->
    omits filename Ports
      (inItem ports pre post n) (inItem ports pre post whole) msg.

End Omission.

(** * Properties *)

(** ** Strings *)

Section StringFacts.

Import strings.

Lemma string_app_inv_head (a b c : string) : a ++ b = a ++ c -> b = c.
Proof.
  induction a as [|x a IH]; simpl; intros H; [exact H|].
  injection H as H. now apply IH.
Qed.

Lemma string_app_eq_nil (a b : string) : a ++ b = "" -> a = "" /\ b = "".
Proof. destruct a; simpl; intros H; [now split | discriminate]. Qed.

Lemma string_length_app (a b : string) :
  String.length (a ++ b) = (String.length a + String.length b)%nat.
Proof. induction a as [|x a IH]; simpl; [reflexivity | now rewrite IH]. Qed.

Lemma HasPrefix_app (p r : string) : HasPrefix (p ++ r) p = true.
Proof.
  induction p as [|x p IH]; simpl; [reflexivity|].
  now rewrite Ascii.eqb_refl, IH.
Qed.

Lemma HasPrefix_spec (s p : string) :
  HasPrefix s p = true <-> exists r, s = p ++ r.
Proof.
  split.
  - revert s. induction p as [|x p IH]; intros s H.
    + now exists s.
    + destruct s as [|c s]; simpl in H; [discriminate|].
      apply andb_prop in H as [Hc Hs].
      apply Ascii.eqb_eq in Hc. subst c.
      destruct (IH _ Hs) as [r ->]. now exists r.
  - intros [r ->]. apply HasPrefix_app.
Qed.

Lemma from_app (p r : string) : from (String.length p) (p ++ r) = r.
Proof. induction p as [|x p IH]; simpl; [reflexivity | exact IH]. Qed.

Lemma upto_app (p r : string) : upto (String.length p) (p ++ r) = p.
Proof. induction p as [|x p IH]; simpl; [reflexivity | now rewrite IH]. Qed.

Lemma upto_from (n : nat) (s : string) : upto n s ++ from n s = s.
Proof.
  revert s. induction n as [|n IH]; intros s; [reflexivity|].
  destruct s as [|c s]; simpl; [reflexivity | now rewrite IH].
Qed.

(** [s[:n] == p] for [n = len(p) <= len(s)] says that [p] is a prefix. *)
Lemma upto_eq_prefix (s p : string) :
  upto (String.length p) s = p <-> exists r, s = p ++ r.
Proof.
  split.
  - intros H. exists (from (String.length p) s).
    rewrite <- H at 1. symmetry. apply upto_from.
  - intros [r ->]. apply upto_app.
Qed.

Lemma Contains_colon (s : string) :
  Contains s ":" = true <-> exists a b, s = a ++ ":" ++ b.
Proof.
  split.
  - induction s as [|c s IH]; simpl; intros H; [discriminate|].
    apply orb_prop in H as [H | H].
    + rewrite andb_true_r in H. apply Ascii.eqb_eq in H. subst c.
      now exists "", s.
    + destruct (IH H) as (a & b & ->). now exists (String c a), b.
  - intros (a & b & ->). induction a as [|x a IH]; simpl.
    + reflexivity.
    + simpl in IH. rewrite IH. apply orb_true_r.
Qed.

End StringFacts.

(** ** Regular expressions: the matcher decides the language *)

Section RegexpFacts.

Import regexp.

Lemma lang_nil_nullable (r : re) (s : string) :
  lang r s -> s = "" -> nullable r = true.
Proof.
  induction 1; intros E; simpl; try reflexivity; try discriminate.
  - apply string_app_eq_nil in E as [-> ->].
    now rewrite IHlang1, IHlang2.
  - now rewrite IHlang.
  - rewrite IHlang by assumption. apply orb_true_r.
Qed.

Lemma nullable_lang_nil (r : re) : nullable r = true -> lang r "".
Proof.
  induction r; simpl; intros H; try discriminate.
  - constructor.
  - apply andb_prop in H as [H1 H2].
    change "" with ("" ++ ""). constructor; auto.
  - apply orb_prop in H as [H | H].
    + apply lang_Alt_l; auto.
    + apply lang_Alt_r; auto.
  - constructor.
Qed.

Lemma deriv_sound (c : ascii) (r : re) :
  forall s, lang (deriv c r) s -> lang r (String c s).
Proof.
  induction r; simpl; intros s H.
  - inversion H.
  - inversion H.
  - destruct (inRange lo hi c) eqn:E; inversion H; subst. now constructor.
  - assert (Hcat : forall t, lang (Cat (deriv c r1) r2) t ->
                             lang (Cat r1 r2) (String c t)).
    { intros t Ht. inversion Ht; subst.
      change (String c (s1 ++ s2)) with (String c s1 ++ s2).
      constructor; auto. }
    destruct (nullable r1) eqn:E.
    + inversion H; subst; [now apply Hcat|].
      change (String c s) with ("" ++ String c s).
      constructor; [now apply nullable_lang_nil | auto].
    + now apply Hcat.
  - inversion H; subst.
    + apply lang_Alt_l; auto.
    + apply lang_Alt_r; auto.
  - inversion H; subst.
    change (String c (s1 ++ s2)) with (String c s1 ++ s2).
    apply lang_Star_cons; auto.
Qed.

Lemma deriv_complete (r : re) (t : string) :
  lang r t -> forall c s, t = String c s -> lang (deriv c r) s.
Proof.
  induction 1; intros x u E; simpl; try discriminate.
  - injection E as E1 E2. subst. rewrite H. constructor.
  - destruct s1 as [|y s1]; simpl in E.
    + subst s2. rewrite (lang_nil_nullable _ _ H eq_refl).
      apply lang_Alt_r. now apply IHlang2.
    + injection E as E1 E2. subst.
      assert (Hc : lang (Cat (deriv x r1) r2) (s1 ++ s2)).
      { constructor; auto. }
      destruct (nullable r1); [now apply lang_Alt_l | exact Hc].
  - apply lang_Alt_l. now apply IHlang.
  - apply lang_Alt_r. now apply IHlang.
  - destruct s1 as [|y s1]; simpl in E.
    + now apply IHlang2.
    + injection E as E1 E2. subst. constructor; auto.
Qed.

Theorem MatchString_lang (r : re) (s : string) :
  MatchString r s = true <-> lang r s.
Proof.
  revert r. induction s as [|c s IH]; intros r; simpl.
  - split; [apply nullable_lang_nil | intros H; now apply lang_nil_nullable with ""].
  - rewrite IH. split; [apply deriv_sound|].
    intros H. now apply deriv_complete with (String c s).
Qed.

Lemma lang_Lit (u s : string) : lang (Lit u) s <-> s = u.
Proof.
  revert s. induction u as [|c u IH]; intros s; simpl.
  - split; [intros H; now inversion H | intros ->; constructor].
  - split.
    + intros H. inversion H; subst.
      match goal with
      | [ H1 : lang (Chr _) _, H2 : lang (Lit _) _ |- _ ] =>
          inversion H1; subst; apply IH in H2; subst
      end.
      unfold inRange in *.
      match goal with
      | [ Hr : _ && _ = true |- _ ] => apply andb_prop in Hr as [Ha Hb]
      end.
      apply Nat.leb_le in Ha, Hb.
      assert (E : nat_of_ascii c0 = nat_of_ascii c) by lia.
      apply (f_equal ascii_of_nat) in E.
      rewrite !ascii_nat_embedding in E. now subst.
    + intros ->. change (String c u) with (String c "" ++ u).
      constructor; [|now apply IH].
      constructor. unfold inRange. now rewrite Nat.leb_refl.
Qed.

Lemma lang_AltLits (l : list string) (s : string) :
  lang (AltLits l) s <-> In s l.
Proof.
  induction l as [|u l IH]; simpl.
  - split; [intros H; inversion H | tauto].
  - split.
    + intros H. inversion H; subst.
      * left. symmetry. now apply lang_Lit.
      * right. now apply IH.
    + intros [<- | H].
      * apply lang_Alt_l. now apply lang_Lit.
      * apply lang_Alt_r. now apply IH.
Qed.

Lemma digit_isDigit (c : ascii) : inRange "0" "9" c = strconv.isDigit c.
Proof. reflexivity. Qed.

Lemma lang_Star_digit (s : string) : lang (Star digit) s <-> strconv.allDigits s.
Proof.
  split.
  - intros H. remember (Star digit) as r eqn:E.
    induction H; try discriminate.
    + intros x [].
    + injection E as ->. specialize (IHlang2 eq_refl).
      inversion H; subst. intros x [<- | Hx]; [|now apply IHlang2].
      now rewrite <- digit_isDigit.
  - induction s as [|c s IH]; intros H.
    + constructor.
    + change (String c s) with (String c "" ++ s).
      apply lang_Star_cons.
      * constructor. rewrite digit_isDigit. apply H. now left.
      * apply IH. intros x Hx. apply H. now right.
Qed.

Lemma lang_Plus_digit (s : string) :
  lang (Plus digit) s <-> s <> "" /\ strconv.allDigits s.
Proof.
  split.
  - intros H. inversion H; subst.
    match goal with
    | [ H1 : lang digit _, H2 : lang (Star digit) _ |- _ ] =>
        inversion H1; subst; apply lang_Star_digit in H2
    end.
    split; [discriminate|].
    intros x [<- | Hx]; [now rewrite <- digit_isDigit | auto].
  - intros [Hne H]. destruct s as [|c s]; [congruence|].
    change (String c s) with (String c "" ++ s). constructor.
    + constructor. rewrite digit_isDigit. apply H. now left.
    + apply lang_Star_digit. intros x Hx. apply H. now right.
Qed.

(** The memory patterns accept exactly the texts of the specification's
    quantity rule, for the pattern's own unit list. *)
Theorem quantity_pattern (units : list string) (s : string) :
  MatchString (Cat (Plus digit) (AltLits units)) s = true <->
  Schema.quantityText units s.
Proof.
  rewrite MatchString_lang. unfold Schema.quantityText. split.
  - intros H. inversion H; subst.
    match goal with
    | [ H1 : lang (Plus digit) _, H2 : lang (AltLits _) _ |- _ ] =>
        apply lang_Plus_digit in H1 as [Hne Hd]; apply lang_AltLits in H2
    end.
    now exists s1, s2.
  - intros (ds & u & -> & Hne & Hd & Hu).
    constructor; [now apply lang_Plus_digit | now apply lang_AltLits].
Qed.

End RegexpFacts.

(** ** The slice of errors only grows

    Every validator appends to the slice it is given and never reads it:
    its result is the given slice followed by what it reports on an empty
    slice. *)

Local Open Scope list_scope.

Lemma framed_delta (g : Errors -> Errors) :
  framed g -> exists d, forall errors, g errors = errors ++ d.
Proof. intros H. exists (g []). exact H. Qed.

Lemma framed_fold {A : Type} (step : Errors -> A -> Errors) (l : list A) :
  (forall x, framed (fun errors => step errors x)) ->
  framed (fun errors => fold_left step l errors).
Proof.
  intros Hstep. induction l as [|x l IH]; intros errors; simpl.
  - now rewrite app_nil_r.
  - rewrite IH. rewrite (IH (step [] x)). rewrite (Hstep x errors).
    now rewrite app_assoc.
Qed.

Lemma app_eq_self (errors d : Errors) : errors ++ d = errors -> d = [].
Proof.
  intros H. apply (app_inv_head errors). now rewrite app_nil_r.
Qed.

Lemma append_neq (errors : Errors) (msg : string) : append errors msg <> errors.
Proof.
  unfold append. intros H. apply app_eq_self in H. discriminate.
Qed.

(** Replaces the calls of a framed validator [g] by "the slice, then a fixed
    list". *)
Ltac use_framed L :=
  let d := fresh "d" in
  let H := fresh "Hd" in
  destruct (framed_delta _ L) as [d H]; cbv beta in H; rewrite ?H; clear H.

Ltac finish_framed :=
  unfold append; simpl; rewrite <- ?app_assoc; simpl; reflexivity.

Ltac split_if :=
  repeat match goal with
         | |- context [if ?b then _ else _] => destruct b
         end.

Section Part001Frames.

Import Part001.
Variable filename : string.

Lemma validateAPIVersion_framed node :
  framed (fun errors => validateAPIVersion node errors filename).
Proof.
  intros errors. unfold validateAPIVersion.
  destruct node; split_if; try finish_framed; now rewrite app_nil_r.
Qed.

Lemma validateKind_framed node :
  framed (fun errors => validateKind node errors filename).
Proof.
  intros errors. unfold validateKind.
  destruct node; split_if; try finish_framed; now rewrite app_nil_r.
Qed.

Lemma validateLabels_framed content :
  framed (fun errors => validateLabels content errors filename).
Proof.
  assert (H : forall n (c : list Node), (List.length c <= n)%nat ->
            framed (fun errors => validateLabels c errors filename)).
  { induction n as [|n IH]; intros c Hn errors.
    - destruct c; [simpl; now rewrite app_nil_r | simpl in Hn; lia].
    - destruct c as [|k [|v rest]]; simpl; try now rewrite app_nil_r.
      assert (Hr : (List.length rest <= n)%nat) by (simpl in Hn; lia).
      specialize (IH rest Hr). use_framed IH.
      split_if; finish_framed. }
  apply (H (List.length content)). lia.
Qed.

Lemma validateMetadata_framed metaNode :
  framed (fun errors => validateMetadata metaNode errors filename).
Proof.
  intros errors. unfold validateMetadata, validateMappingField.
  destruct metaNode as [meta|]; [|now rewrite app_nil_r].
  destruct (negb (KindT_eqb (Kind meta) MappingNode)); [finish_framed|].
  destruct (getMappingValue (Some meta) "name") as [nameNode|];
    destruct (getMappingValue (Some meta) "namespace") as [nsNode|];
    destruct (getMappingValue (Some meta) "labels") as [labelsNode|];
    try use_framed (validateLabels_framed (Content labelsNode));
    split_if; try finish_framed; now rewrite app_nil_r.
Qed.

Lemma checkPortValue_framed field n :
  framed (fun errors => checkPortValue field n errors filename).
Proof.
  intros errors. unfold checkPortValue.
  destruct (strconv.Atoi (Value n)); split_if; try finish_framed;
    now rewrite app_nil_r.
Qed.

Lemma checkContainerPort_framed cpNode :
  framed (fun errors => checkContainerPort cpNode errors filename).
Proof.
  intros errors. unfold checkContainerPort.
  destruct cpNode as [cp|]; [|now rewrite app_nil_r].
  use_framed (checkPortValue_framed "containerPort" cp).
  split_if; finish_framed.
Qed.

Lemma checkProtocol_framed protoNode :
  framed (fun errors => checkProtocol protoNode errors filename).
Proof.
  intros errors. unfold checkProtocol.
  destruct protoNode; split_if; try finish_framed; now rewrite app_nil_r.
Qed.

Lemma validatePortEntry_framed portEntry :
  framed (fun errors => validatePortEntry portEntry errors filename).
Proof.
  intros errors. unfold validatePortEntry, validateMappingField.
  destruct (negb (KindT_eqb (Kind portEntry) MappingNode)); [finish_framed|].
  use_framed (checkProtocol_framed (getMappingValue (Some portEntry) "protocol")).
  use_framed (checkContainerPort_framed
                (getMappingValue (Some portEntry) "containerPort")).
  destruct (getMappingValue (Some portEntry) "containerPort"); finish_framed.
Qed.

Lemma validatePorts_framed portsNode :
  framed (fun errors => validatePorts portsNode errors filename).
Proof.
  intros errors. unfold validatePorts.
  destruct (negb (KindT_eqb (Kind portsNode) SequenceNode)); [finish_framed|].
  apply (framed_fold
           (fun errors portEntry => validatePortEntry portEntry errors filename)).
  intros x. apply validatePortEntry_framed.
Qed.

Lemma checkPath_framed pathNode :
  framed (fun errors => checkPath pathNode errors filename).
Proof.
  intros errors. unfold checkPath.
  destruct pathNode; split_if; try finish_framed; now rewrite app_nil_r.
Qed.

Lemma checkProbePort_framed portNode :
  framed (fun errors => checkProbePort portNode errors filename).
Proof.
  intros errors. unfold checkProbePort.
  destruct portNode as [p|]; [|now rewrite app_nil_r].
  use_framed (checkPortValue_framed "port" p).
  split_if; finish_framed.
Qed.

Lemma validateProbe_framed probeNode fieldName :
  framed (fun errors => validateProbe probeNode fieldName errors filename).
Proof.
  intros errors. unfold validateProbe, validateMappingField.
  destruct (negb (KindT_eqb (Kind probeNode) MappingNode)); [finish_framed|].
  destruct (getMappingValue (Some probeNode) "httpGet") as [h|];
    [|finish_framed].
  destruct (negb (KindT_eqb (Kind h) MappingNode)); [finish_framed|].
  use_framed (checkProbePort_framed (getMappingValue (Some h) "port")).
  use_framed (checkPath_framed (getMappingValue (Some h) "path")).
  destruct (getMappingValue (Some h) "path");
    destruct (getMappingValue (Some h) "port"); finish_framed.
Qed.

Lemma checkProbe_framed fieldName probeNode :
  framed (fun errors => checkProbe fieldName probeNode errors filename).
Proof.
  intros errors. unfold checkProbe.
  destruct probeNode; [apply validateProbe_framed | now rewrite app_nil_r].
Qed.

Lemma checkCPU_framed cpuNode :
  framed (fun errors => checkCPU cpuNode errors filename).
Proof.
  intros errors. unfold checkCPU.
  destruct cpuNode as [n|]; [|now rewrite app_nil_r].
  destruct (strconv.Atoi (Value n)); split_if; try finish_framed;
    now rewrite app_nil_r.
Qed.

Lemma checkMemory_framed memNode :
  framed (fun errors => checkMemory memNode errors filename).
Proof.
  intros errors. unfold checkMemory.
  destruct memNode; split_if; try finish_framed; now rewrite app_nil_r.
Qed.

Lemma checkResourceValues_framed resNode :
  framed (fun errors => checkResourceValues resNode errors filename).
Proof.
  intros errors. unfold checkResourceValues.
  use_framed (checkMemory_framed (getMappingValue (Some resNode) "memory")).
  use_framed (checkCPU_framed (getMappingValue (Some resNode) "cpu")).
  finish_framed.
Qed.

Lemma validateResourceBlock_framed name block :
  framed (fun errors => validateResourceBlock name block errors filename).
Proof.
  intros errors. unfold validateResourceBlock.
  destruct block as [b|]; [|now rewrite app_nil_r].
  use_framed (checkResourceValues_framed b).
  split_if; finish_framed.
Qed.

Lemma checkResources_framed resourcesNode :
  framed (fun errors => checkResources resourcesNode errors filename).
Proof.
  intros errors. unfold checkResources.
  destruct resourcesNode as [r|]; [|now rewrite app_nil_r].
  use_framed (validateResourceBlock_framed "requests"
                (getMappingValue (Some r) "requests")).
  use_framed (validateResourceBlock_framed "limits"
                (getMappingValue (Some r) "limits")).
  split_if; finish_framed.
Qed.

Lemma checkName_framed nameNode :
  framed (fun errors => checkName nameNode errors filename).
Proof.
  intros errors. unfold checkName.
  destruct nameNode; split_if; try finish_framed; now rewrite app_nil_r.
Qed.

Lemma checkImage_framed imageNode :
  framed (fun errors => checkImage imageNode errors filename).
Proof.
  intros errors. unfold checkImage.
  destruct imageNode; split_if; try finish_framed; now rewrite app_nil_r.
Qed.

(** The [ports] block of [validateContainer]. *)
Lemma portsBlock_framed (portsNode : option Node) :
  framed (fun errors =>
            match portsNode with
            | None => errors
            | Some p => validatePorts p errors filename
            end).
Proof.
  intros errors. destruct portsNode;
    [apply validatePorts_framed | now rewrite app_nil_r].
Qed.

Lemma validateContainer_framed containerNode :
  framed (fun errors => validateContainer containerNode errors filename).
Proof.
  intros errors. unfold validateContainer, validateMappingField.
  destruct (negb (KindT_eqb (Kind containerNode) MappingNode));
    [finish_framed|].
  set (c := Some containerNode).
  use_framed (checkResources_framed (getMappingValue c "resources")).
  use_framed (checkProbe_framed "livenessProbe"
                (getMappingValue c "livenessProbe")).
  use_framed (checkProbe_framed "readinessProbe"
                (getMappingValue c "readinessProbe")).
  use_framed (portsBlock_framed (getMappingValue c "ports")).
  use_framed (checkImage_framed (getMappingValue c "image")).
  use_framed (checkName_framed (getMappingValue c "name")).
  destruct (getMappingValue c "name"), (getMappingValue c "image"),
    (getMappingValue c "resources"); finish_framed.
Qed.

Lemma validateOS_framed osNode :
  framed (fun errors => validateOS osNode errors filename).
Proof.
  intros errors. unfold validateOS.
  destruct (KindT_eqb (Kind osNode) ScalarNode).
  - split_if; try finish_framed; now rewrite app_nil_r.
  - destruct (KindT_eqb (Kind osNode) MappingNode).
    + destruct (getMappingValue (Some osNode) "name") as [n|].
      * destruct (negb (KindT_eqb (Kind n) ScalarNode));
          split_if; try finish_framed; now rewrite app_nil_r.
      * split_if; try finish_framed; now rewrite app_nil_r.
    + split_if; try finish_framed; now rewrite app_nil_r.
Qed.

Lemma validateSpec_framed specNode :
  framed (fun errors => validateSpec specNode errors filename).
Proof.
  intros errors. unfold validateSpec.
  destruct specNode as [spec|]; [|now rewrite app_nil_r].
  destruct (negb (KindT_eqb (Kind spec) MappingNode)); [finish_framed|].
  assert (Hos : framed (fun errors =>
                          match getMappingValue (Some spec) "os" with
                          | None => errors
                          | Some osNode => validateOS osNode errors filename
                          end)).
  { intros e. destruct (getMappingValue (Some spec) "os");
      [apply validateOS_framed | now rewrite app_nil_r]. }
  use_framed Hos.
  destruct (getMappingValue (Some spec) "containers") as [cs|];
    [|finish_framed].
  destruct (negb (KindT_eqb (Kind cs) SequenceNode)); [finish_framed|].
  use_framed (framed_fold
                (fun errors cNode => validateContainer cNode errors filename)
                (Content cs) validateContainer_framed).
  split_if; finish_framed.
Qed.

Lemma validateDocument_framed doc :
  framed (fun errors => validateDocument doc filename errors).
Proof.
  intros errors. unfold validateDocument, validateMappingField.
  destruct (negb (KindT_eqb (Kind doc) MappingNode)); [finish_framed|].
  set (d := Some doc).
  use_framed (validateSpec_framed (getMappingValue d "spec")).
  use_framed (validateMetadata_framed (getMappingValue d "metadata")).
  use_framed (validateKind_framed (getMappingValue d "kind")).
  use_framed (validateAPIVersion_framed (getMappingValue d "apiVersion")).
  destruct (getMappingValue d "apiVersion"), (getMappingValue d "kind"),
    (getMappingValue d "metadata"), (getMappingValue d "spec");
    finish_framed.
Qed.

End Part001Frames.

(** ** Port values *)

Section PortFacts.

Import strconv.
Variable filename : string.

Lemma KindT_eqb_eq (a b : KindT) : KindT_eqb a b = true <-> a = b.
Proof. destruct a, b; simpl; split; intros H; congruence. Qed.

Lemma Part001_validatePortEntry_present entry cp errors :
  Kind entry = MappingNode ->
  Part001.getMappingValue (Some entry) "containerPort" = Some cp ->
  Part001.validatePortEntry entry errors filename
  = Part001.checkProtocol
      (Part001.getMappingValue (Some entry) "protocol")
      (Part001.checkContainerPort (Some cp) errors filename) filename.
Proof.
  intros Hk Hcp. unfold Part001.validatePortEntry, Part001.validateMappingField.
  rewrite Hk, Hcp. reflexivity.
Qed.

Lemma MainGo_validatePortItem_present entry key cp errors :
  Kind entry = MappingNode ->
  MainGo.findMapKey (Some entry) "containerPort" = Some (key, cp) ->
  MainGo.validatePortItem filename errors entry
  = MainGo.checkProtocol filename
      (MainGo.checkPort "containerPort" cp filename errors)
      (MainGo.findMapKey (Some entry) "protocol").
Proof.
  intros Hk Hcp. unfold MainGo.validatePortItem.
  rewrite Hk, Hcp. reflexivity.
Qed.

(** The range test of both validators, on a converted value. *)
Lemma out_of_range_false (v : Z) :
  1 <= v <= 65535 -> (v <? 1) || (v >? 65535) = false.
Proof.
  intros H. apply orb_false_iff. split; [apply Z.ltb_ge; lia|].
  rewrite Z.gtb_ltb. apply Z.ltb_ge. lia.
Qed.

Lemma out_of_range_true (v : Z) :
  v < 1 \/ 65535 < v -> (v <? 1) || (v >? 65535) = true.
Proof.
  intros H. apply orb_true_iff. rewrite Z.gtb_ltb, !Z.ltb_lt. lia.
Qed.

Lemma eqb_neq_false (a b : string) : a <> b -> String.eqb a b = false.
Proof. intros H. now apply String.eqb_neq. Qed.

Lemma Part001_checkPortValue_not_int field n errors :
  Tag n <> "!!int"%string ->
  Part001.checkPortValue field n errors filename
  = errors ++ [Part001.at_line filename n (field ++ " must be int")].
Proof.
  intros H. unfold Part001.checkPortValue.
  now rewrite (eqb_neq_false _ _ H).
Qed.

Lemma Part001_checkPortValue_int field n errors :
  Tag n = "!!int"%string ->
  Part001.checkPortValue field n errors filename
  = match Atoi (Value n) with
    | Some v =>
        if (v <? 1) || (v >? 65535)
        then errors ++
             [Part001.at_line filename n (field ++ " value out of range")]
        else errors
    | None => errors
    end.
Proof.
  intros H. unfold Part001.checkPortValue. rewrite H. reflexivity.
Qed.

Lemma MainGo_checkPort_converts what n errors v :
  Atoi (Value n) = Some v ->
  MainGo.checkPort what n filename errors
  = if (v <? 1) || (v >? 65535)
    then MainGo.addError filename errors (Line n)
           (what ++ " must be between 1 and 65535")
    else errors.
Proof.
  intros H. unfold MainGo.checkPort. rewrite H.
  destruct (negb (Tag n =? "!!int")%string); reflexivity.
Qed.

Lemma MainGo_checkPort_fails what n errors :
  Atoi (Value n) = None ->
  MainGo.checkPort what n filename errors
  = if (Tag n =? "!!int")%string then errors
    else MainGo.addError filename errors (Line n)
           (what ++ " must be an integer between 1 and 65535").
Proof.
  intros H. unfold MainGo.checkPort. rewrite H.
  destruct (Tag n =? "!!int")%string; reflexivity.
Qed.

End PortFacts.

(** C1 (amended).  In the full validator a scalar [containerPort] whose tag
    is not the integer tag (a quoted ["80"] has the string tag) gets the
    diagnostic "containerPort must be int", whatever its text; one with the
    integer tag gets none when its text converts to a value in 1..65535,
    and none either when its text does not convert.  In [main.go] the tag
    matters only when the text does not convert: a text that converts gets
    no diagnostic when the value is in 1..65535 and the out-of-range
    diagnostic alone when it is not, whatever the tag; a text that does not
    convert gets "must be an integer" when the tag is not the integer tag
    and nothing when it is. *)
Theorem containerPort_kind (filename : string) (entry cp : Node)
    (errors : Errors) :
  Kind entry = MappingNode ->
  Kind cp = ScalarNode ->
  (Part001.getMappingValue (Some entry) "containerPort" = Some cp ->
   let proto := Part001.getMappingValue (Some entry) "protocol" in
   (Tag cp <> "!!int"%string ->
    Part001.validatePortEntry entry errors filename
    = Part001.checkProtocol proto
        (append errors
           (Part001.at_line filename cp "containerPort must be int"))
        filename) /\
   (Tag cp = "!!int"%string ->
    (forall v, strconv.Atoi (Value cp) = Some v -> 1 <= v <= 65535 ->
     Part001.validatePortEntry entry errors filename
     = Part001.checkProtocol proto errors filename) /\
    (strconv.Atoi (Value cp) = None ->
     Part001.validatePortEntry entry errors filename
     = Part001.checkProtocol proto errors filename))) /\
  (forall key,
   MainGo.findMapKey (Some entry) "containerPort" = Some (key, cp) ->
   let proto := MainGo.findMapKey (Some entry) "protocol" in
   (forall v, strconv.Atoi (Value cp) = Some v -> 1 <= v <= 65535 ->
    MainGo.validatePortItem filename errors entry
    = MainGo.checkProtocol filename errors proto) /\
   (forall v, strconv.Atoi (Value cp) = Some v -> v < 1 \/ 65535 < v ->
    MainGo.validatePortItem filename errors entry
    = MainGo.checkProtocol filename
        (MainGo.addError filename errors (Line cp)
           "containerPort must be between 1 and 65535")
        proto) /\
   (Tag cp <> "!!int"%string -> strconv.Atoi (Value cp) = None ->
    MainGo.validatePortItem filename errors entry
    = MainGo.checkProtocol filename
        (MainGo.addError filename errors (Line cp)
           "containerPort must be an integer between 1 and 65535")
        proto) /\
   (Tag cp = "!!int"%string -> strconv.Atoi (Value cp) = None ->
    MainGo.validatePortItem filename errors entry
    = MainGo.checkProtocol filename errors proto)).
Proof.
  intros He Hcp. split.
  - intros Hget proto. subst proto.
    rewrite (Part001_validatePortEntry_present filename entry cp errors He Hget).
    unfold Part001.checkContainerPort. rewrite Hcp. simpl. split.
    + intros Htag. now rewrite Part001_checkPortValue_not_int.
    + intros Htag. rewrite Part001_checkPortValue_int by exact Htag. split.
      * intros v Hv Hr. rewrite Hv. now rewrite out_of_range_false.
      * intros Hv. now rewrite Hv.
  - intros key Hget proto. subst proto.
    rewrite (MainGo_validatePortItem_present filename entry key cp errors He Hget).
    split; [|split; [|split]].
    + intros v Hv Hr. rewrite (MainGo_checkPort_converts filename _ _ _ v Hv).
      now rewrite out_of_range_false.
    + intros v Hv Hr. rewrite (MainGo_checkPort_converts filename _ _ _ v Hv).
      now rewrite out_of_range_true.
    + intros Htag Hv. rewrite (MainGo_checkPort_fails filename _ _ _ Hv).
      now rewrite (eqb_neq_false _ _ Htag).
    + intros Htag Hv. rewrite (MainGo_checkPort_fails filename _ _ _ Hv).
      now rewrite Htag.
Qed.

(** A quoted ["80"] in the full validator, a plain [80] in both, and a
    quoted ["70000"] in [main.go], which gets the out-of-range line and no
    line about its tag. *)
Lemma containerPort_kind_witness :
  Part001.validatePortEntry (Build.portEntry (Build.str 11 "80")) [] "pod.yaml"
  = ["pod.yaml:11 containerPort must be int"%string] /\
  Part001.validatePortEntry (Build.portEntry (Build.int 11 "80")) [] "pod.yaml"
  = [] /\
  MainGo.validatePortItem "pod.yaml" [] (Build.portEntry (Build.int 11 "80"))
  = [] /\
  MainGo.validatePortItem "pod.yaml" [] (Build.portEntry (Build.str 11 "70000"))
  = ["pod.yaml:11 containerPort must be between 1 and 65535"%string].
Proof.
  pose (Q := fun s =>
          containerPort_kind "pod.yaml" (Build.portEntry (Build.str 11 s))
            (Build.str 11 s) [] eq_refl eq_refl).
  pose (P := fun s =>
          containerPort_kind "pod.yaml" (Build.portEntry (Build.int 11 s))
            (Build.int 11 s) [] eq_refl eq_refl).
  pose (key := Build.str 11 "containerPort").
  refine (conj _ (conj _ (conj _ _))).
  - apply (proj1 (proj1 (Q "80"%string) eq_refl)).
    simpl. discriminate.
  - apply (proj1 (proj2 (proj1 (P "80"%string) eq_refl) eq_refl) 80 eq_refl).
    lia.
  - apply (proj1 (proj2 (P "80"%string) key eq_refl) 80 eq_refl).
    lia.
  - apply (proj1 (proj2 (proj2 (Q "70000"%string) key eq_refl))
             70000 eq_refl).
    lia.
Defined.

(** C1, as stated, fails on [main.go]: a quoted ["80"] has the string tag,
    and neither its port entry nor a whole manifest around it gets a
    diagnostic. *)
Lemma containerPort_quoted_accepted_by_main_go :
  let cp := Build.str 11 "80" in
  Kind cp = ScalarNode /\
  Tag cp = "!!str"%string /\
  MainGo.findMapKey (Some (Build.portEntry cp)) "containerPort"
  = Some (Build.str 11 "containerPort", cp) /\
  MainGo.validatePortItem "pod.yaml" [] (Build.portEntry cp) = [] /\
  MainGo.validate "pod.yaml"
    (Build.pod Build.goodImage "512Mi" (Build.portEntry cp)) = [].
Proof. repeat split. Qed.

(** C8 does not hold of the code.  With the integer tag, a [containerPort]
    whose text [strconv.Atoi] converts is checked as the claim says: a
    value below 1 or above 65535 (0 and 65536 are the nearest such values)
    gets exactly one out-of-range diagnostic, and a value from 1 to 65535,
    the bounds included, gets none.  But a text that [strconv.Atoi] does
    not convert gets no diagnostic at all, in the full validator and in
    [main.go], whatever the number it stands for. *)
Theorem containerPort_range (filename : string) (entry cp : Node)
    (errors : Errors) :
  Kind entry = MappingNode ->
  Kind cp = ScalarNode ->
  Tag cp = "!!int"%string ->
  (Part001.getMappingValue (Some entry) "containerPort" = Some cp ->
   let proto := Part001.getMappingValue (Some entry) "protocol" in
   (forall v, strconv.Atoi (Value cp) = Some v ->
    (v < 1 \/ 65535 < v ->
     Part001.validatePortEntry entry errors filename
     = Part001.checkProtocol proto
         (append errors
            (Part001.at_line filename cp "containerPort value out of range"))
         filename) /\
    (1 <= v <= 65535 ->
     Part001.validatePortEntry entry errors filename
     = Part001.checkProtocol proto errors filename)) /\
   (strconv.Atoi (Value cp) = None ->
    Part001.validatePortEntry entry errors filename
    = Part001.checkProtocol proto errors filename)) /\
  (forall key,
   MainGo.findMapKey (Some entry) "containerPort" = Some (key, cp) ->
   let proto := MainGo.findMapKey (Some entry) "protocol" in
   (forall v, strconv.Atoi (Value cp) = Some v ->
    (v < 1 \/ 65535 < v ->
     MainGo.validatePortItem filename errors entry
     = MainGo.checkProtocol filename
         (MainGo.addError filename errors (Line cp)
            "containerPort must be between 1 and 65535")
         proto) /\
    (1 <= v <= 65535 ->
     MainGo.validatePortItem filename errors entry
     = MainGo.checkProtocol filename errors proto)) /\
   (strconv.Atoi (Value cp) = None ->
    MainGo.validatePortItem filename errors entry
    = MainGo.checkProtocol filename errors proto)).
Proof.
  intros He Hcp Htag. split.
  - intros Hget proto. subst proto.
    rewrite (Part001_validatePortEntry_present filename entry cp errors He Hget).
    unfold Part001.checkContainerPort. rewrite Hcp. simpl.
    rewrite Part001_checkPortValue_int by exact Htag. split.
    + intros v Hv. rewrite Hv. split; intros Hr.
      * now rewrite out_of_range_true.
      * now rewrite out_of_range_false.
    + intros Hv. now rewrite Hv.
  - intros key Hget proto. subst proto.
    rewrite (MainGo_validatePortItem_present filename entry key cp errors He Hget).
    split.
    + intros v Hv. rewrite (MainGo_checkPort_converts filename _ _ _ v Hv).
      split; intros Hr.
      * now rewrite out_of_range_true.
      * now rewrite out_of_range_false.
    + intros Hv. rewrite (MainGo_checkPort_fails filename _ _ _ Hv).
      now rewrite Htag.
Qed.

(** The four boundary values written in decimal, and 65536 written
    [0x10000], in both validators. *)
Lemma containerPort_range_witness :
  let entry v := Build.portEntry (Build.int 11 v) in
  (Part001.validatePortEntry (entry "0") [] "pod.yaml"
   = ["pod.yaml:11 containerPort value out of range"%string] /\
   Part001.validatePortEntry (entry "65536") [] "pod.yaml"
   = ["pod.yaml:11 containerPort value out of range"%string] /\
   Part001.validatePortEntry (entry "1") [] "pod.yaml" = [] /\
   Part001.validatePortEntry (entry "65535") [] "pod.yaml" = [] /\
   Part001.validatePortEntry (entry "0x10000") [] "pod.yaml" = []) /\
  (MainGo.validatePortItem "pod.yaml" [] (entry "0")
   = ["pod.yaml:11 containerPort must be between 1 and 65535"%string] /\
   MainGo.validatePortItem "pod.yaml" [] (entry "65536")
   = ["pod.yaml:11 containerPort must be between 1 and 65535"%string] /\
   MainGo.validatePortItem "pod.yaml" [] (entry "1") = [] /\
   MainGo.validatePortItem "pod.yaml" [] (entry "65535") = [] /\
   MainGo.validatePortItem "pod.yaml" [] (entry "0x10000") = []).
Proof.
  intros entry.
  pose (T := fun s =>
          containerPort_range "pod.yaml" (entry s) (Build.int 11 s) []
            eq_refl eq_refl eq_refl).
  pose (key := Build.str 11 "containerPort").
  refine (conj (conj _ (conj _ (conj _ (conj _ _))))
               (conj _ (conj _ (conj _ (conj _ _))))).
  - apply (proj1 (proj1 (proj1 (T "0"%string) eq_refl) 0 eq_refl)). lia.
  - apply (proj1 (proj1 (proj1 (T "65536"%string) eq_refl) 65536 eq_refl)).
    lia.
  - apply (proj2 (proj1 (proj1 (T "1"%string) eq_refl) 1 eq_refl)). lia.
  - apply (proj2 (proj1 (proj1 (T "65535"%string) eq_refl) 65535 eq_refl)).
    lia.
  - apply (proj2 (proj1 (T "0x10000"%string) eq_refl)). reflexivity.
  - apply (proj1 (proj1 (proj2 (T "0"%string) key eq_refl) 0 eq_refl)). lia.
  - apply (proj1 (proj1 (proj2 (T "65536"%string) key eq_refl) 65536 eq_refl)).
    lia.
  - apply (proj2 (proj1 (proj2 (T "1"%string) key eq_refl) 1 eq_refl)). lia.
  - apply (proj2 (proj1 (proj2 (T "65535"%string) key eq_refl) 65535 eq_refl)).
    lia.
  - apply (proj2 (proj2 (T "0x10000"%string) key eq_refl)). reflexivity.
Defined.

(** The input on which C8 fails: [containerPort: 0x10000] is a plain scalar
    that the parser tags as an integer, its value is 65536, and neither
    validator reports it, in the port entry or in a whole manifest; the
    same holds of [0x0], whose value is 0. *)
Lemma containerPort_range_hexadecimal_unchecked :
  let cp := Build.int 11 "0x10000" in
  let zero := Build.int 11 "0x0" in
  Tag cp = "!!int"%string /\
  strconv.hexLiteral (Value cp) = Some 65536 /\
  strconv.hexLiteral (Value zero) = Some 0 /\
  strconv.Atoi (Value cp) = None /\
  strconv.Atoi (Value zero) = None /\
  Part001.validatePortEntry (Build.portEntry cp) [] "pod.yaml" = [] /\
  Part001.validatePortEntry (Build.portEntry zero) [] "pod.yaml" = [] /\
  MainGo.validatePortItem "pod.yaml" [] (Build.portEntry cp) = [] /\
  MainGo.validatePortItem "pod.yaml" [] (Build.portEntry zero) = [] /\
  Part001.validateDocument
    (Build.pod Build.goodImage "512Mi" (Build.portEntry cp)) "pod.yaml" [] = [] /\
  MainGo.validate "pod.yaml"
    (Build.pod Build.goodImage "512Mi" (Build.portEntry cp)) = [].
Proof. repeat split. Qed.

Section ConversionFailure.

Import strconv.
Variables (filename : string) (n : Node) (errors : Errors).
Hypothesis fails : Atoi (Value n) = None.

Lemma Part001_at_line_inj (a b : string) :
  Part001.at_line filename n a = Part001.at_line filename n b -> a = b.
Proof.
  unfold Part001.at_line. intros H.
  apply string_app_inv_head in H. injection H as H.
  apply string_app_inv_head in H. now injection H.
Qed.

Lemma Part001_checkPortValue_fails field :
  exists d,
    Part001.checkPortValue field n errors filename = errors ++ d /\
    ~ In (Part001.at_line filename n (field ++ " value out of range")) d.
Proof.
  unfold Part001.checkPortValue. rewrite fails.
  destruct (negb (Tag n =? "!!int")%string).
  - eexists. split; [reflexivity|].
    intros [H | []]. apply Part001_at_line_inj in H.
    apply string_app_inv_head in H. discriminate.
  - exists []. split; [now rewrite app_nil_r | intros []].
Qed.

Lemma MainGo_checkPort_fails_no_range what :
  exists d,
    MainGo.checkPort what n filename errors = errors ++ d /\
    ~ In (filename ++ ":" ++ Itoa (Line n) ++ " " ++ what
          ++ " must be between 1 and 65535")%string d.
Proof.
  rewrite (MainGo_checkPort_fails filename _ _ _ fails).
  destruct (Tag n =? "!!int")%string.
  - exists []. split; [now rewrite app_nil_r | intros []].
  - eexists. split; [reflexivity|].
    intros [H | []].
    apply string_app_inv_head in H. injection H as H.
    apply string_app_inv_head in H. injection H as H.
    apply string_app_inv_head in H. discriminate.
Qed.

End ConversionFailure.

(** C10.  A port value whose text [strconv.Atoi] does not convert gets no
    out-of-range diagnostic: in the full validator ([containerPort] and
    [httpGet.port]) and in [main.go] the only diagnostic it can get is the
    one for a tag other than the integer tag, so a scalar with the integer
    tag (a literal beyond the range of [int]) is passed over in silence; in
    the reduced validator a [port] entry that does not convert, such as a
    named port, adds nothing. *)
Theorem port_not_converted_skips_range (filename : string) (n : Node)
    (errors : Errors) :
  strconv.Atoi (Value n) = None ->
  (exists d,
     Part001.checkContainerPort (Some n) errors filename = errors ++ d /\
     ~ In (Part001.at_line filename n "containerPort value out of range") d) /\
  (exists d,
     Part001.checkProbePort (Some n) errors filename = errors ++ d /\
     ~ In (Part001.at_line filename n "port value out of range") d) /\
  (forall what, exists d,
     MainGo.checkPort what n filename errors = errors ++ d /\
     ~ In (filename ++ ":" ++ strconv.Itoa (Line n) ++ " " ++ what
           ++ " must be between 1 and 65535")%string d) /\
  (Kind n = ScalarNode -> Tag n = "!!int"%string ->
   Part001.checkContainerPort (Some n) errors filename = errors /\
   Part001.checkProbePort (Some n) errors filename = errors /\
   forall what, MainGo.checkPort what n filename errors = errors) /\
  (forall key rest,
     Part000.portLoop (key :: n :: rest) filename errors
     = Part000.portLoop rest filename errors).
Proof.
  intros Hv. split; [|split; [|split; [|split]]].
  - unfold Part001.checkContainerPort.
    destruct (negb (KindT_eqb (Kind n) ScalarNode)).
    + eexists. split; [reflexivity|].
      intros [H | []]. apply Part001_at_line_inj in H. discriminate.
    + apply (Part001_checkPortValue_fails filename n errors Hv "containerPort").
  - unfold Part001.checkProbePort.
    destruct (negb (KindT_eqb (Kind n) ScalarNode)).
    + eexists. split; [reflexivity|].
      intros [H | []]. apply Part001_at_line_inj in H. discriminate.
    + apply (Part001_checkPortValue_fails filename n errors Hv "port").
  - intros what. now apply MainGo_checkPort_fails_no_range.
  - intros Hk Ht. refine (conj _ (conj _ _)).
    + unfold Part001.checkContainerPort. rewrite Hk. simpl.
      rewrite Part001_checkPortValue_int by assumption. now rewrite Hv.
    + unfold Part001.checkProbePort. rewrite Hk. simpl.
      rewrite Part001_checkPortValue_int by assumption. now rewrite Hv.
    + intros what. rewrite (MainGo_checkPort_fails filename _ _ _ Hv).
      now rewrite Ht.
  - intros key rest. simpl. rewrite Hv.
    destruct ((Value key =? "port")%string && KindT_eqb (Kind n) ScalarNode);
      [|reflexivity].
    destruct (negb (Value n =? "")%string); reflexivity.
Qed.

(** An integer-tagged literal beyond [int], and a named port. *)
Lemma port_not_converted_skips_range_witness :
  let big := Build.int 16 "18446744073709551615" in
  let named := Build.str 16 "http" in
  strconv.Atoi (Value big) = None /\
  Part001.checkContainerPort (Some big) [] "pod.yaml" = [] /\
  Part001.checkProbePort (Some big) [] "pod.yaml" = [] /\
  MainGo.checkPort "containerPort" big "pod.yaml" [] = [] /\
  Part000.portLoop [Build.str 16 "port"; named] "pod.yaml" [] = [].
Proof.
  intros big named.
  pose (T := port_not_converted_skips_range "pod.yaml" big [] eq_refl).
  pose (U := port_not_converted_skips_range "pod.yaml" named [] eq_refl).
  destruct T as (_ & _ & _ & T4 & _).
  destruct (T4 eq_refl eq_refl) as (Ta & Tb & Tc).
  destruct U as (_ & _ & _ & _ & U5).
  refine (conj eq_refl (conj Ta (conj Tb (conj (Tc _) _)))).
  exact (U5 (Build.str 16 "port") []).
Defined.

(** ** Image references *)

Section ImageFacts.

Import strings.

Lemma Contains_cons (c : ascii) (s : string) :
  Contains (String c s) ":" = Ascii.eqb c ":" || Contains s ":".
Proof. simpl. now rewrite andb_true_r. Qed.

Lemma firstColon_spec (s : string) (i : Z) :
  (colonFree s /\ MainGo.firstColon s i = -1) \/
  (exists a b, s = (a ++ ":" ++ b)%string /\ colonFree a /\
               MainGo.firstColon s i = i + len a).
Proof.
  revert i. induction s as [|c s IH]; intros i.
  - left. split; reflexivity.
  - cbn [MainGo.firstColon]. unfold colonFree. rewrite Contains_cons.
    destruct (Ascii.eqb c ":") eqn:E.
    + right. apply Ascii.eqb_eq in E. subst c.
      exists ""%string, s. repeat split. unfold len. simpl. lia.
    + destruct (IH (i + 1)) as [[Hf Hi] | (a & b & -> & Hf & Hi)].
      * left. split; [exact Hf | exact Hi].
      * right. exists (String c a), b. split; [reflexivity|]. split.
        -- rewrite Contains_cons, E. exact Hf.
        -- rewrite Hi. unfold len. simpl String.length. lia.
Qed.

Lemma firstColon_app (a b : string) (i : Z) :
  colonFree a -> MainGo.firstColon (a ++ ":" ++ b)%string i = i + len a.
Proof.
  revert i. induction a as [|c a IH]; intros i Hf.
  - unfold len. simpl. lia.
  - unfold colonFree in Hf. rewrite Contains_cons in Hf.
    apply orb_false_iff in Hf as [Hc Hf].
    cbn [String.append MainGo.firstColon]. rewrite Hc, IH by exact Hf.
    unfold len. simpl String.length. lia.
Qed.

Lemma len_app (a b : string) : len (a ++ b)%string = len a + len b.
Proof. unfold len. rewrite string_length_app. lia. Qed.

Lemma len_nonneg (a : string) : 0 <= len a.
Proof. unfold len. lia. Qed.

(** The text after the prefix passes [containsColonAfterPrefix] exactly
    when its first colon has a non-empty text on either side. *)
Lemma containsColonAfterPrefix_spec (prefix rest : string) :
  MainGo.containsColonAfterPrefix (prefix ++ rest)%string prefix = true <->
  exists a b, rest = (a ++ ":" ++ b)%string /\ colonFree a /\
              a <> ""%string /\ b <> ""%string.
Proof.
  unfold MainGo.containsColonAfterPrefix.
  rewrite from_app, len_app.
  pose proof (len_nonneg rest) as Hr.
  split.
  - intros H.
    destruct (len prefix + len rest <=? len prefix); [discriminate|].
    destruct (firstColon_spec rest 0) as [[Hf Hi] | (a & b & E & Hf & Hi)];
      rewrite Hi in H; [discriminate|].
    subst rest. rewrite !len_app in H. change (len ":") with 1 in H.
    destruct (0 + len a <=? 0) eqn:E1; [discriminate|].
    destruct (0 + len a =? len a + (1 + len b) - 1) eqn:E2; [discriminate|].
    apply Z.leb_gt in E1. apply Z.eqb_neq in E2.
    exists a, b. repeat split; try assumption.
    + intros ->. change (len "") with 0 in E1. lia.
    + intros ->. apply E2. change (len "") with 0. lia.
  - intros (a & b & -> & Hf & Hna & Hnb).
    rewrite (firstColon_app a b 0 Hf). rewrite !len_app.
    change (len ":") with 1.
    assert (Ha : 0 < len a).
    { destruct a; [congruence|]. unfold len. simpl String.length. lia. }
    assert (Hb : 0 < len b).
    { destruct b; [congruence|]. unfold len. simpl String.length. lia. }
    pose proof (len_nonneg prefix) as Hp.
    replace (len prefix + (len a + (1 + len b)) <=? len prefix) with false
      by (symmetry; apply Z.leb_gt; lia).
    replace (0 + len a <=? 0) with false by (symmetry; apply Z.leb_gt; lia).
    replace (0 + len a =? len a + (1 + len b) - 1) with false
      by (symmetry; apply Z.eqb_neq; lia).
    reflexivity.
Qed.

(** The image check of [main.go]. *)
Lemma MainGo_imageOK_spec (img : string) :
  MainGo.imageOK img = true <->
  exists a b,
    img = (MainGo.imagePrefix ++ a ++ ":" ++ b)%string /\
    colonFree a /\ a <> ""%string /\ b <> ""%string.
Proof.
  unfold MainGo.imageOK. rewrite negb_true_iff, !orb_false_iff.
  rewrite !negb_false_iff, String.eqb_eq, upto_eq_prefix. split.
  - intros [[_ [rest ->]] H].
    apply containsColonAfterPrefix_spec in H as (a & b & -> & H).
    now exists a, b.
  - intros (a & b & -> & H). split; [split|].
    + apply Z.ltb_ge. rewrite len_app. pose proof (len_nonneg (a ++ ":" ++ b)).
      lia.
    + now exists (a ++ ":" ++ b)%string.
    + apply containsColonAfterPrefix_spec. now exists a, b.
Qed.

(** The image check of the full validator: any colon after the prefix. *)
Lemma Part001_imageOK_spec (img : string) :
  Part001.imageOK img = true <->
  exists a b, img = (Part001.imagePrefix ++ a ++ ":" ++ b)%string.
Proof.
  unfold Part001.imageOK. rewrite !andb_true_iff, HasPrefix_spec. split.
  - intros [[_ [rest ->]] H]. rewrite from_app in H.
    apply Contains_colon in H as (a & b & ->). now exists a, b.
  - intros (a & b & ->). split; [split|].
    + apply Nat.ltb_lt. rewrite !string_length_app. simpl. lia.
    + now exists (a ++ ":" ++ b)%string.
    + rewrite from_app. apply Contains_colon. now exists a, b.
Qed.

(** The decision procedure of the specification's rule. *)
Lemma colonInsideFrom_spec (s : string) :
  Schema.colonInsideFrom s = true <->
  exists a b, s = (a ++ ":" ++ b)%string /\ b <> ""%string.
Proof.
  induction s as [|c s IH]; simpl.
  - split; [discriminate|]. intros (a & b & E & _). destruct a; discriminate.
  - rewrite orb_true_iff, andb_true_iff, negb_true_iff, IH. split.
    + intros [[Hc Hs] | (a & b & -> & Hb)].
      * apply Ascii.eqb_eq in Hc. subst c. exists ""%string, s. split; [reflexivity|].
        intros ->. discriminate.
      * now exists (String c a), b.
    + intros (a & b & E & Hb). destruct a as [|x a]; simpl in E.
      * injection E as -> ->. left. split; [reflexivity|].
        now apply String.eqb_neq.
      * injection E as -> ->. right. now exists a, b.
Qed.

Lemma colonInsideb_spec (rest : string) :
  Schema.colonInsideb rest = true <-> Schema.colonInside rest.
Proof.
  unfold Schema.colonInside. destruct rest as [|c s]; simpl.
  - split; [discriminate|]. intros (a & b & E & _). destruct a; discriminate.
  - rewrite colonInsideFrom_spec. split.
    + intros (a & b & -> & Hb). exists (String c a), b. repeat split; auto.
      discriminate.
    + intros (a & b & E & Ha & Hb). destruct a as [|x a]; [congruence|].
      simpl in E. injection E as -> ->. now exists a, b.
Qed.

Lemma taggedText_decide (prefix s : string) :
  HasPrefix s prefix && Schema.colonInsideb (from (String.length prefix) s)
  = true <-> Schema.taggedText prefix s.
Proof.
  rewrite andb_true_iff, HasPrefix_spec. unfold Schema.taggedText. split.
  - intros [[rest ->] H]. rewrite from_app in H. exists rest.
    split; [reflexivity | now apply colonInsideb_spec].
  - intros (rest & -> & H). split; [now exists rest|].
    rewrite from_app. now apply colonInsideb_spec.
Qed.

End ImageFacts.

Lemma append_eq_self_iff (errors : Errors) (msg : string) (P : Prop) :
  ~ P -> (append errors msg = errors <-> P).
Proof.
  intros HP. split; [intros H; now apply append_neq in H | tauto].
Qed.

Lemma self_eq_iff (errors : Errors) (P : Prop) : P -> (errors = errors <-> P).
Proof. tauto. Qed.

Lemma decide_errors (b : bool) (P : Prop) (errors : Errors) (msg : string) :
  (b = true <-> P) ->
  ((if b then errors else append errors msg) = errors <-> P).
Proof.
  intros H. destruct b.
  - apply self_eq_iff. now apply H.
  - apply append_eq_self_iff. intros HP. apply H in HP. discriminate.
Qed.

Lemma not_true_false (b : bool) (P : Prop) :
  (b = true <-> P) -> b = false -> ~ P.
Proof. intros H E HP. apply H in HP. congruence. Qed.

(** C5 (amended).  In the full validator a scalar [image] passes exactly
    when it starts with the registry prefix and a colon occurs anywhere
    after the prefix, also as the first or the last character.  In
    [main.go] it passes exactly when it starts with the prefix and the
    first colon after the prefix is neither the first nor the last character
    of what follows the prefix.  In every other case one diagnostic is
    appended. *)
Theorem image_reference (filename : string) (errors : Errors) (n : Node) :
  Kind n = ScalarNode ->
  let prefix := "registry.bigbrother.io/"%string in
  (Part001.checkImage (Some n) errors filename = errors <->
   exists a b, Value n = (prefix ++ a ++ ":" ++ b)%string) /\
  ((~ exists a b, Value n = (prefix ++ a ++ ":" ++ b)%string) ->
   Part001.checkImage (Some n) errors filename
   = append errors
       (Part001.at_line filename n
          ("image has invalid format '" ++ Value n ++ "'"))) /\
  (forall container key,
   Kind container = MappingNode ->
   MainGo.findMapKey (Some container) "image" = Some (key, n) ->
   let passes :=
     exists a b,
       Value n = (prefix ++ a ++ ":" ++ b)%string /\
       strings.colonFree a /\ a <> ""%string /\ b <> ""%string in
   (MainGo.checkImage filename errors container = errors <-> passes) /\
   (~ passes ->
    exists line msg,
      MainGo.checkImage filename errors container
      = MainGo.addError filename errors line msg)).
Proof.
  intros Hk prefix. split; [|split].
  - unfold Part001.checkImage. rewrite Hk. simpl negb. cbv iota.
    destruct (Part001.imageOK (Value n)) eqn:E; simpl negb; cbv iota.
    + apply self_eq_iff. now apply Part001_imageOK_spec.
    + apply append_eq_self_iff.
      apply (not_true_false _ _ (Part001_imageOK_spec (Value n)) E).
  - intros Hn. unfold Part001.checkImage. rewrite Hk. simpl negb. cbv iota.
    destruct (Part001.imageOK (Value n)) eqn:E; [|reflexivity].
    exfalso. apply Hn. now apply Part001_imageOK_spec.
  - intros container key Hc Hget passes. unfold MainGo.checkImage.
    rewrite Hget. cbv zeta iota beta.
    destruct (Value n =? "")%string eqn:Ee.
    + apply String.eqb_eq in Ee.
      assert (Hn : ~ passes).
      { intros (a & b & E & _). rewrite Ee in E. discriminate. }
      split; [now apply append_eq_self_iff|].
      intros _. eexists _, _. reflexivity.
    + destruct (MainGo.imageOK (Value n)) eqn:E; simpl negb; cbv iota.
      * assert (Hp : passes) by now apply MainGo_imageOK_spec.
        split; [now apply self_eq_iff | tauto].
      * assert (Hn : ~ passes)
          by apply (not_true_false _ _ (MainGo_imageOK_spec (Value n)) E).
        split; [now apply append_eq_self_iff|].
        intros _. eexists _, _. reflexivity.
Qed.

(** [registry.bigbrother.io/app:latest] passes in both validators. *)
Lemma image_reference_witness :
  let image := Build.str 9 Build.goodImage in
  let container :=
    Build.container Build.goodImage "512Mi" (Build.portEntry (Build.int 11 "80")) in
  Part001.checkImage (Some image) [] "pod.yaml" = [] /\
  MainGo.checkImage "pod.yaml" [] container = [].
Proof.
  intros image container.
  pose (T := image_reference "pod.yaml" [] image eq_refl).
  destruct T as (T1 & _ & T3). split.
  - apply T1. now exists "app"%string, "latest"%string.
  - apply (T3 container (Build.str 9 "image") eq_refl eq_refl).
    exists "app"%string, "latest"%string. repeat split; discriminate.
Defined.

(** C5, as stated, fails in both validators.  The full validator accepts an
    image whose only colon is the last character, which the claim rejects;
    [main.go] rejects an image that has a colon in the middle, which the
    claim accepts, because an earlier colon comes right after the prefix. *)
Lemma image_reference_counterexample :
  let prefix := "registry.bigbrother.io/"%string in
  (Part001.checkImage (Some (Build.str 9 "registry.bigbrother.io/app:")) []
     "pod.yaml" = [] /\
   ~ Schema.taggedText prefix "registry.bigbrother.io/app:") /\
  (let container :=
     Build.container "registry.bigbrother.io/:app:latest" "512Mi"
       (Build.portEntry (Build.int 11 "80")) in
   MainGo.checkImage "pod.yaml" [] container
   = ["pod.yaml:9 image must start with 'registry.bigbrother.io/' and contain a tag (use ':')"%string] /\
   Schema.taggedText prefix "registry.bigbrother.io/:app:latest").
Proof.
  intros prefix. split; split.
  - reflexivity.
  - apply (not_true_false _ _ (taggedText_decide prefix _)). reflexivity.
  - reflexivity.
  - apply taggedText_decide. reflexivity.
Qed.

(** ** Memory quantities *)

(** C6 (amended).  A scalar [memory] passes exactly when its text is one or
    more digits followed by a unit of the validator's own vocabulary: Ki, Mi
    or Gi in the full validator; Ki, Mi, Gi, Ti, Pi, Ei, K, M, G, T, P or E
    in [main.go].  Every other text gets one diagnostic.  [512Mi] passes in
    both, [512] and [512mi] fail in both. *)
Theorem memory_quantity (filename : string) (errors : Errors) (n : Node) :
  Kind n = ScalarNode ->
  let invalid :=
    append errors
      (Part001.at_line filename n
         ("memory has invalid format '" ++ Value n ++ "'")) in
  (Part001.checkMemory (Some n) errors filename = errors <->
   Schema.quantityText ["Ki"; "Mi"; "Gi"]%string (Value n)) /\
  (~ Schema.quantityText ["Ki"; "Mi"; "Gi"]%string (Value n) ->
   Part001.checkMemory (Some n) errors filename = invalid) /\
  (Value n = "512Mi"%string ->
   Part001.checkMemory (Some n) errors filename = errors) /\
  (Value n = "512"%string \/ Value n = "512mi"%string ->
   Part001.checkMemory (Some n) errors filename = invalid) /\
  (forall res key resType,
   MainGo.findMapKey (Some res) "memory" = Some (key, n) ->
   let passes :=
     Schema.quantityText (Schema.binaryUnits ++ Schema.decimalUnits) (Value n) in
   let invalid :=
     MainGo.addError filename errors (Line n)
       ("resources." ++ resType ++
        ".memory must be in format <number><unit> (e.g., 123Mi or 1Gi)") in
   (MainGo.checkMemory filename errors res resType = errors <-> passes) /\
   (~ passes ->
    exists line msg,
      MainGo.checkMemory filename errors res resType
      = MainGo.addError filename errors line msg) /\
   (Value n = "512Mi"%string ->
    MainGo.checkMemory filename errors res resType = errors) /\
   (Value n = "512"%string \/ Value n = "512mi"%string ->
    MainGo.checkMemory filename errors res resType = invalid)).
Proof.
  intros Hk invalid.
  assert (P1 : Part001.checkMemory (Some n) errors filename
               = if regexp.MatchString Part001.memoryPattern (Value n)
                 then errors else invalid).
  { unfold Part001.checkMemory. rewrite Hk. simpl negb. cbv iota.
    destruct (regexp.MatchString Part001.memoryPattern (Value n)); reflexivity. }
  pose proof (quantity_pattern Part001.memoryUnits (Value n)) as Q1.
  fold Part001.memoryPattern in Q1.
  change Part001.memoryUnits with ["Ki"; "Mi"; "Gi"]%string in Q1.
  split; [|split; [|split; [|split]]].
  - rewrite P1. now apply decide_errors.
  - intros Hn. rewrite P1.
    destruct (regexp.MatchString Part001.memoryPattern (Value n));
      [|reflexivity].
    exfalso. apply Hn. now apply Q1.
  - intros E. rewrite P1, E. reflexivity.
  - intros [E | E]; rewrite P1, E; reflexivity.
  - intros res key resType Hget passes invalid'.
    assert (P2 : MainGo.checkMemory filename errors res resType
                 = if (Value n =? "")%string
                   then MainGo.addError filename errors (Line key)
                          ("resources." ++ resType ++ ".memory is required")
                   else if regexp.MatchString MainGo.memoryPattern (Value n)
                        then errors else invalid').
    { unfold MainGo.checkMemory. rewrite Hget. cbv zeta iota beta.
      destruct (Value n =? "")%string; [reflexivity|].
      destruct (regexp.MatchString MainGo.memoryPattern (Value n)); reflexivity. }
    pose proof (quantity_pattern MainGo.memoryUnits (Value n)) as Q2.
    fold MainGo.memoryPattern in Q2.
    change MainGo.memoryUnits
      with (Schema.binaryUnits ++ Schema.decimalUnits) in Q2.
    fold passes in Q2.
    split; [|split; [|split]].
    + rewrite P2. destruct (Value n =? "")%string eqn:Ee.
      * apply append_eq_self_iff. apply String.eqb_eq in Ee.
        apply (not_true_false _ _ Q2). now rewrite Ee.
      * now apply decide_errors.
    + intros Hn. rewrite P2. destruct (Value n =? "")%string.
      * eexists _, _. reflexivity.
      * destruct (regexp.MatchString MainGo.memoryPattern (Value n)).
        -- exfalso. apply Hn. now apply Q2.
        -- eexists _, _. reflexivity.
    + intros E. rewrite P2, E. reflexivity.
    + intros [E | E]; rewrite P2, E; reflexivity.
Qed.

(** [512Mi], [512] and [512mi] in both validators. *)
Lemma memory_quantity_witness :
  let block v := Build.map 19 [Build.str 20 "memory"; Build.str 20 v] in
  (Part001.checkMemory (Some (Build.str 20 "512Mi")) [] "pod.yaml" = [] /\
   Part001.checkMemory (Some (Build.str 20 "512")) [] "pod.yaml"
   = ["pod.yaml:20 memory has invalid format '512'"%string] /\
   Part001.checkMemory (Some (Build.str 20 "512mi")) [] "pod.yaml"
   = ["pod.yaml:20 memory has invalid format '512mi'"%string]) /\
  (MainGo.checkMemory "pod.yaml" [] (block "512Mi") "limits" = [] /\
   MainGo.checkMemory "pod.yaml" [] (block "512") "limits"
   = ["pod.yaml:20 resources.limits.memory must be in format <number><unit> (e.g., 123Mi or 1Gi)"%string] /\
   MainGo.checkMemory "pod.yaml" [] (block "512mi") "limits"
   = ["pod.yaml:20 resources.limits.memory must be in format <number><unit> (e.g., 123Mi or 1Gi)"%string]).
Proof.
  intros block.
  pose (T := fun v => memory_quantity "pod.yaml" [] (Build.str 20 v) eq_refl).
  pose (key := Build.str 20 "memory").
  refine (conj (conj _ (conj _ _)) (conj _ (conj _ _))).
  - destruct (T "512Mi"%string) as (_ & _ & H & _). exact (H eq_refl).
  - destruct (T "512"%string) as (_ & _ & _ & H & _). exact (H (or_introl eq_refl)).
  - destruct (T "512mi"%string) as (_ & _ & _ & H & _). exact (H (or_intror eq_refl)).
  - destruct (T "512Mi"%string) as (_ & _ & _ & _ & H).
    destruct (H (block "512Mi"%string) key "limits"%string eq_refl) as (_ & _ & H' & _).
    exact (H' eq_refl).
  - destruct (T "512"%string) as (_ & _ & _ & _ & H).
    destruct (H (block "512"%string) key "limits"%string eq_refl) as (_ & _ & _ & H').
    exact (H' (or_introl eq_refl)).
  - destruct (T "512mi"%string) as (_ & _ & _ & _ & H).
    destruct (H (block "512mi"%string) key "limits"%string eq_refl) as (_ & _ & _ & H').
    exact (H' (or_intror eq_refl)).
Defined.

(** C6, as stated, fails in the full validator: [1Ti] is digits followed by
    a unit of the binary-prefix vocabulary, and it gets a diagnostic. *)
Lemma memory_quantity_counterexample :
  Schema.quantityText Schema.binaryUnits "1Ti" /\
  Part001.checkMemory (Some (Build.str 20 "1Ti")) [] "pod.yaml"
  = ["pod.yaml:20 memory has invalid format '1Ti'"%string].
Proof.
  split; [|reflexivity].
  exists "1"%string, "Ti"%string. repeat split.
  - discriminate.
  - intros c [<- | []]. reflexivity.
  - simpl. tauto.
Qed.

(** ** The [os] field *)

Lemma supportedOS_decide (name : string) :
  negb (name =? "linux")%string && negb (name =? "windows")%string = false
  <-> Schema.supportedOS name.
Proof.
  unfold Schema.supportedOS.
  rewrite andb_false_iff, !negb_false_iff, !String.eqb_eq. tauto.
Qed.

Lemma unsupportedOS_decide (name : string) :
  ~ Schema.supportedOS name ->
  negb (name =? "linux")%string && negb (name =? "windows")%string = true.
Proof.
  intros H.
  destruct (negb (name =? "linux")%string && negb (name =? "windows")%string)
    eqn:E; [reflexivity|].
  now apply supportedOS_decide in E.
Qed.

(** C9 (amended).  In the full validator [os] may be a bare scalar or a
    mapping with a [name]: a mapping without [name] gets "os.name is
    required", and a non-empty resolved name gets a diagnostic exactly when
    it is neither [linux] nor [windows].  In [main.go] only the text of the
    [os] value is compared, so a diagnostic is emitted exactly when that text
    is neither [linux] nor [windows], which is the case of every mapping. *)
Theorem os_field (filename : string) (errors : Errors) (n : Node) :
  let unsupported line name :=
    (filename ++ ":" ++ strconv.Itoa line ++ " os has unsupported value '"
     ++ name ++ "'")%string in
  (Kind n = ScalarNode -> Value n <> ""%string ->
   (Schema.supportedOS (Value n) ->
    Part001.validateOS n errors filename = errors) /\
   (~ Schema.supportedOS (Value n) ->
    Part001.validateOS n errors filename
    = append errors (unsupported (Line n) (Value n)))) /\
  (Kind n = MappingNode ->
   (Part001.getMappingValue (Some n) "name" = None ->
    Part001.validateOS n errors filename
    = append errors (Part001.at_line filename n "os.name is required")) /\
   (forall name,
    Part001.getMappingValue (Some n) "name" = Some name ->
    Kind name = ScalarNode -> Value name <> ""%string ->
    (Schema.supportedOS (Value name) ->
     Part001.validateOS n errors filename = errors) /\
    (~ Schema.supportedOS (Value name) ->
     Part001.validateOS n errors filename
     = append errors (unsupported (Line name) (Value name))))) /\
  (forall spec key,
   MainGo.findMapKey (Some spec) "os" = Some (key, n) ->
   (Schema.supportedOS (Value n) -> MainGo.checkOS filename errors spec = errors) /\
   (~ Schema.supportedOS (Value n) ->
    MainGo.checkOS filename errors spec
    = MainGo.addError filename errors (Line n)
        "spec.os must be 'linux' or 'windows'")).
Proof.
  intros unsupported. split; [|split].
  - intros Hk Hne. unfold Part001.validateOS. rewrite Hk. simpl KindT_eqb.
    cbv iota beta. rewrite (eqb_neq_false _ _ Hne). simpl negb. cbv iota.
    split; intros H.
    + apply supportedOS_decide in H. now rewrite H.
    + now rewrite (unsupportedOS_decide _ H).
  - intros Hk. split.
    + intros Hget. unfold Part001.validateOS. rewrite Hk, Hget. reflexivity.
    + intros name Hget Hkn Hne. unfold Part001.validateOS.
      rewrite Hk, Hget, Hkn. simpl KindT_eqb. simpl negb. cbv iota beta.
      rewrite (eqb_neq_false _ _ Hne). simpl negb. cbv iota.
      split; intros H.
      * apply supportedOS_decide in H. now rewrite H.
      * now rewrite (unsupportedOS_decide _ H).
  - intros spec key Hget. unfold MainGo.checkOS. rewrite Hget.
    split; intros H.
    + apply supportedOS_decide in H. now rewrite H.
    + now rewrite (unsupportedOS_decide _ H).
Qed.

(** [os: linux], [os: {name: windows}], [os: {}] and [os: plan9]. *)
Lemma os_field_witness :
  let name v := Build.map 6 [Build.str 6 "name"; Build.str 6 v] in
  Part001.validateOS (Build.str 6 "linux") [] "pod.yaml" = [] /\
  Part001.validateOS (name "windows"%string) [] "pod.yaml" = [] /\
  Part001.validateOS (Build.map 6 []) [] "pod.yaml"
  = ["pod.yaml:6 os.name is required"%string] /\
  Part001.validateOS (Build.str 6 "plan9") [] "pod.yaml"
  = ["pod.yaml:6 os has unsupported value 'plan9'"%string] /\
  MainGo.checkOS "pod.yaml" []
    (Build.map 5 [Build.str 6 "os"; Build.str 6 "plan9"])
  = ["pod.yaml:6 spec.os must be 'linux' or 'windows'"%string].
Proof.
  intros name.
  pose (T := os_field "pod.yaml" []).
  refine (conj _ (conj _ (conj _ (conj _ _)))).
  - refine (proj1 (proj1 (T (Build.str 6 "linux")) eq_refl _) _).
    + discriminate.
    + now left.
  - refine (proj1 (proj2 (proj1 (proj2 (T (name "windows"%string))) eq_refl)
                     (Build.str 6 "windows") eq_refl eq_refl _) _).
    + discriminate.
    + now right.
  - exact (proj1 (proj1 (proj2 (T (Build.map 6 []))) eq_refl) eq_refl).
  - refine (proj2 (proj1 (T (Build.str 6 "plan9")) eq_refl _) _).
    + discriminate.
    + intros [H | H]; discriminate.
  - refine (proj2 (proj2 (proj2 (T (Build.str 6 "plan9")))
                     (Build.map 5 [Build.str 6 "os"; Build.str 6 "plan9"])
                     (Build.str 6 "os") eq_refl) _).
    intros [H | H]; discriminate.
Defined.

(** C9, as stated, fails on [main.go]: [os] given as a mapping with the
    name [linux] gets a diagnostic. *)
Lemma os_field_counterexample :
  let os := Build.map 6 [Build.str 6 "name"; Build.str 6 "linux"] in
  let spec := Build.map 5 [Build.str 6 "os"; os] in
  Kind os = MappingNode /\
  MainGo.findMapKey (Some os) "name"
  = Some (Build.str 6 "name", Build.str 6 "linux") /\
  MainGo.checkOS "pod.yaml" [] spec
  = ["pod.yaml:6 spec.os must be 'linux' or 'windows'"%string].
Proof. repeat split. Qed.

(** ** Probes *)

Section ProbeFacts.

Import strconv strings.
Variable filename : string.

Lemma KindT_neq (a b : KindT) : a <> b -> KindT_eqb a b = false.
Proof.
  intros H. destruct (KindT_eqb a b) eqn:E; [|reflexivity].
  now apply KindT_eqb_eq in E.
Qed.

Lemma in_range_decide (v : Z) :
  (v <? 1) || (v >? 65535) = negb ((1 <=? v) && (v <=? 65535)).
Proof.
  rewrite Z.gtb_ltb.
  destruct (Z.ltb_spec v 1), (Z.leb_spec 1 v), (Z.ltb_spec 65535 v),
    (Z.leb_spec v 65535); simpl; try reflexivity; lia.
Qed.

(** The diagnostics of the full validator about [httpGet.path]: the
    missing-field message or the message of [checkPath]. *)
Lemma Part001_path_diagnostics (h : Node) :
  List.length
    (snd (Part001.validateMappingField (Some h) "path" true [] filename)
     ++ Part001.checkPath (Part001.getMappingValue (Some h) "path") [] filename)
  = if Schema.pathRule Part001.get h then 0%nat else 1%nat.
Proof.
  unfold Part001.validateMappingField, Schema.pathRule, Part001.get,
    Part001.checkPath, Schema.required, Schema.isScalar, Schema.pathText.
  destruct (Part001.getMappingValue (Some h) "path") as [v|]; [|reflexivity].
  destruct (KindT_eqb (Kind v) ScalarNode); [|reflexivity]. simpl negb.
  cbv iota. destruct (Value v) as [|c s]; [reflexivity|].
  simpl. rewrite andb_true_r. destruct (Ascii.eqb c "/"); reflexivity.
Qed.

Lemma Part001_port_diagnostics (h : Node) :
  (forall port, Part001.getMappingValue (Some h) "port" = Some port ->
                Kind port = ScalarNode -> Tag port = "!!int"%string ->
                Atoi (Value port) <> None) ->
  List.length
    (snd (Part001.validateMappingField (Some h) "port" true [] filename)
     ++ Part001.checkProbePort (Part001.getMappingValue (Some h) "port") []
          filename)
  = if Schema.portRule Part001.get h then 0%nat else 1%nat.
Proof.
  intros Hconv.
  unfold Part001.validateMappingField, Schema.portRule, Part001.get,
    Part001.checkProbePort, Schema.required, Schema.integerInRange,
    Schema.isScalar, Part001.checkPortValue.
  destruct (Part001.getMappingValue (Some h) "port") as [v|]; [|reflexivity].
  specialize (Hconv v eq_refl).
  destruct (KindT_eqb (Kind v) ScalarNode) eqn:Ek; [|reflexivity].
  apply KindT_eqb_eq in Ek. specialize (Hconv Ek).
  simpl negb. cbv iota.
  destruct (Tag v =? "!!int")%string eqn:Et; [|reflexivity].
  apply String.eqb_eq in Et. specialize (Hconv Et).
  destruct (Atoi (Value v)) as [x|]; [|congruence].
  simpl. rewrite in_range_decide.
  destruct ((1 <=? x) && (x <=? 65535)); reflexivity.
Qed.

Lemma Part001_validateProbe_httpGet (p h : Node) fieldName errors :
  Kind p = MappingNode ->
  Part001.getMappingValue (Some p) "httpGet" = Some h ->
  Kind h = MappingNode ->
  Part001.validateProbe p fieldName errors filename
  = errors
    ++ snd (Part001.validateMappingField (Some h) "path" true [] filename)
    ++ snd (Part001.validateMappingField (Some h) "port" true [] filename)
    ++ Part001.checkPath (Part001.getMappingValue (Some h) "path") [] filename
    ++ Part001.checkProbePort (Part001.getMappingValue (Some h) "port") []
         filename.
Proof.
  intros Hp Hh Hk. unfold Part001.validateProbe, Part001.validateMappingField.
  rewrite Hp, Hh, Hk. simpl negb. cbv iota.
  use_framed (checkProbePort_framed filename
                (Part001.getMappingValue (Some h) "port")).
  use_framed (checkPath_framed filename
                (Part001.getMappingValue (Some h) "path")).
  destruct (Part001.getMappingValue (Some h) "path"),
    (Part001.getMappingValue (Some h) "port"); finish_framed.
Qed.

Lemma MainGo_path_diagnostics (h : Node) errors probeName :
  exists d,
    MainGo.checkProbePath filename errors probeName h = errors ++ d /\
    List.length d
    = if Schema.required (MainGo.get h "path") Schema.pathText
      then 0%nat else 1%nat.
Proof.
  unfold MainGo.checkProbePath, MainGo.get, Schema.required, Schema.pathText.
  destruct (MainGo.findMapKey (Some h) "path") as [[k v]|]; simpl option_map;
    cbv zeta iota beta.
  - simpl snd. destruct (Value v =? "")%string eqn:Ee; simpl negb.
    + eexists. split; reflexivity.
    + destruct (Value v) as [|c s]; [discriminate|]. simpl.
      rewrite andb_true_r. destruct (Ascii.eqb c "/"); simpl.
      * exists []. split; [now rewrite app_nil_r | reflexivity].
      * eexists. split; reflexivity.
  - eexists. split; reflexivity.
Qed.

Lemma MainGo_port_diagnostics (h : Node) errors probeName :
  (forall port, MainGo.get h "port" = Some port ->
                Tag port = "!!int"%string -> Atoi (Value port) <> None) ->
  exists d,
    MainGo.checkProbePort filename errors probeName h = errors ++ d /\
    List.length d
    = if Schema.required (MainGo.get h "port") Schema.portValue
      then 0%nat else 1%nat.
Proof.
  intros Hconv.
  unfold MainGo.checkProbePort, MainGo.get, Schema.required, Schema.portValue
    in *.
  destruct (MainGo.findMapKey (Some h) "port") as [[k v]|]; simpl option_map in *;
    cbv zeta iota beta.
  - simpl snd in *. specialize (Hconv v eq_refl).
    destruct (Atoi (Value v)) as [x|] eqn:Ea.
    + rewrite (MainGo_checkPort_converts filename _ _ _ x Ea).
      rewrite in_range_decide. destruct ((1 <=? x) && (x <=? 65535)); simpl.
      * exists []. split; [now rewrite app_nil_r | reflexivity].
      * eexists. split; reflexivity.
    + rewrite (MainGo_checkPort_fails filename _ _ _ Ea).
      destruct (Tag v =? "!!int")%string eqn:Et.
      * apply String.eqb_eq in Et. now specialize (Hconv Et).
      * eexists. split; reflexivity.
  - eexists. split; reflexivity.
Qed.

End ProbeFacts.

(** C7 (amended).  A probe that is present is checked as follows.  In the
    full validator a probe that is not a mapping, that has no [httpGet], or
    whose [httpGet] is not a mapping gets exactly one diagnostic; otherwise
    it gets one diagnostic for [path] unless [path] is a scalar that starts
    with a slash, and one for [port] unless [port] is a scalar with the
    integer tag whose value is in 1..65535.  In [main.go] a probe without
    [httpGet] gets no diagnostic; otherwise the same holds, with the rules
    of [main.go]: [path] is present, non-empty and starts with a slash, and
    [port] is present and its text converts to a value in 1..65535.  Ports
    with the integer tag whose text does not convert are left aside. *)
Theorem probe_rules (filename : string) (errors : Errors)
    (probeName : string) (p : Node) :
  let count (b : bool) := if b then 0%nat else 1%nat in
  ((Kind p <> MappingNode ->
    Part001.validateProbe p probeName errors filename
    = append errors
        (Part001.at_line filename p (probeName ++ " must be object"))) /\
   (Kind p = MappingNode ->
    (Part001.get p "httpGet" = None ->
     Part001.validateProbe p probeName errors filename
     = append errors (Part001.at_line filename p "httpGet is required")) /\
    (forall h, Part001.get p "httpGet" = Some h ->
     (Kind h <> MappingNode ->
      Part001.validateProbe p probeName errors filename
      = append errors (Part001.at_line filename h "httpGet must be object")) /\
     (Kind h = MappingNode ->
      (forall port, Part001.get h "port" = Some port ->
                    Kind port = ScalarNode -> Tag port = "!!int"%string ->
                    strconv.Atoi (Value port) <> None) ->
      exists d,
        Part001.validateProbe p probeName errors filename = errors ++ d /\
        List.length d
        = (count (Schema.pathRule Part001.get h)
           + count (Schema.portRule Part001.get h))%nat)))) /\
  ((Kind p <> MappingNode ->
    MainGo.validateProbe filename errors probeName p
    = MainGo.addError filename errors (Line p)
        (probeName ++ " must be a mapping")) /\
   (Kind p = MappingNode ->
    (MainGo.get p "httpGet" = None ->
     MainGo.validateProbe filename errors probeName p = errors) /\
    (forall h, MainGo.get p "httpGet" = Some h ->
     (Kind h <> MappingNode ->
      MainGo.validateProbe filename errors probeName p
      = MainGo.addError filename errors (Line h)
          (probeName ++ ".httpGet must be a mapping")) /\
     (Kind h = MappingNode ->
      (forall port, MainGo.get h "port" = Some port ->
                    Tag port = "!!int"%string ->
                    strconv.Atoi (Value port) <> None) ->
      exists d,
        MainGo.validateProbe filename errors probeName p = errors ++ d /\
        List.length d
        = (count (Schema.required (MainGo.get h "path") Schema.pathText)
           + count (Schema.required (MainGo.get h "port") Schema.portValue))%nat)))).
Proof.
  intros count. subst count. cbv beta. split.
  - split.
    + intros Hk. unfold Part001.validateProbe. now rewrite (KindT_neq _ _ Hk).
    + intros Hk. split.
      * intros Hget. unfold Part001.validateProbe.
        unfold Part001.get in Hget. now rewrite Hk, Hget.
      * intros h Hget. unfold Part001.get in Hget. split.
        -- intros Hh. unfold Part001.validateProbe.
           now rewrite Hk, Hget, (KindT_neq _ _ Hh).
        -- intros Hh Hconv.
           rewrite (Part001_validateProbe_httpGet filename p h probeName errors
                      Hk Hget Hh).
           eexists. split; [reflexivity|].
           rewrite <- (Part001_path_diagnostics filename h).
           rewrite <- (Part001_port_diagnostics filename h Hconv).
           rewrite !length_app. lia.
  - split.
    + intros Hk. unfold MainGo.validateProbe. now rewrite (KindT_neq _ _ Hk).
    + intros Hk. unfold MainGo.get at 1 2. split.
      * intros Hget. unfold MainGo.validateProbe. rewrite Hk. simpl negb.
        cbv iota. destruct (MainGo.findMapKey (Some p) "httpGet");
          [discriminate | reflexivity].
      * intros h Hget.
        destruct (MainGo.findMapKey (Some p) "httpGet") as [[k h']|] eqn:Ef;
          [|discriminate].
        simpl in Hget. injection Hget as ->.
        unfold MainGo.validateProbe. rewrite Hk, Ef. simpl negb. cbv iota.
        split.
        -- intros Hh. now rewrite (KindT_neq _ _ Hh).
        -- intros Hh Hconv. rewrite Hh. simpl negb. cbv iota zeta.
           destruct (MainGo_path_diagnostics filename h errors probeName)
             as (d1 & E1 & L1).
           rewrite E1.
           destruct (MainGo_port_diagnostics filename h (errors ++ d1)
                       probeName Hconv) as (d2 & E2 & L2).
           rewrite E2. exists (d1 ++ d2). split; [now rewrite app_assoc|].
           rewrite length_app, L1, L2. reflexivity.
Qed.

(** A well-formed probe, a probe that is a scalar, and a probe whose path
    has no leading slash and whose port is 0. *)
Lemma probe_rules_witness :
  let httpGet path port :=
    Build.map 15 [Build.str 15 "path"; Build.str 15 path;
                  Build.str 16 "port"; Build.int 16 port] in
  let probe path port :=
    Build.map 14 [Build.str 14 "httpGet"; httpGet path port] in
  Part001.validateProbe (probe "/ready" "8080")%string "readinessProbe" []
    "pod.yaml" = [] /\
  MainGo.validateProbe "pod.yaml" [] "readinessProbe"
    (probe "/ready" "8080")%string = [] /\
  Part001.validateProbe (Build.str 13 "none") "readinessProbe" [] "pod.yaml"
  = ["pod.yaml:13 readinessProbe must be object"%string] /\
  List.length
    (Part001.validateProbe (probe "ready" "0")%string "readinessProbe" []
       "pod.yaml") = 2%nat.
Proof.
  intros httpGet probe.
  pose (T := fun p => probe_rules "pod.yaml" [] "readinessProbe" p).
  assert (C1 : forall path port p,
             Part001.get (httpGet path port) "port" = Some p ->
             Kind p = ScalarNode -> Tag p = "!!int"%string ->
             strconv.Atoi port <> None ->
             strconv.Atoi (Value p) <> None).
  { intros path port p H _ _ Hp. cbv in H. injection H as <-. exact Hp. }
  assert (C2 : forall path port p,
             MainGo.get (httpGet path port) "port" = Some p ->
             Tag p = "!!int"%string ->
             strconv.Atoi port <> None ->
             strconv.Atoi (Value p) <> None).
  { intros path port p H _ Hp. cbv in H. injection H as <-. exact Hp. }
  refine (conj _ (conj _ (conj _ _))).
  - destruct (proj2 (proj2 (proj2 (proj1 (T (probe "/ready" "8080")%string))
                              eq_refl)
                       (httpGet "/ready" "8080")%string eq_refl)
                eq_refl
                (fun p H K G => C1 _ _ p H K G ltac:(discriminate)))
      as (d & E & L).
    destruct d; [exact E | discriminate L].
  - destruct (proj2 (proj2 (proj2 (proj2 (T (probe "/ready" "8080")%string))
                              eq_refl)
                       (httpGet "/ready" "8080")%string eq_refl)
                eq_refl
                (fun p H G => C2 _ _ p H G ltac:(discriminate)))
      as (d & E & L).
    destruct d; [exact E | discriminate L].
  - refine (proj1 (proj1 (T (Build.str 13 "none"))) _). discriminate.
  - destruct (proj2 (proj2 (proj2 (proj1 (T (probe "ready" "0")%string))
                              eq_refl)
                       (httpGet "ready" "0")%string eq_refl)
                eq_refl
                (fun p H K G => C1 _ _ p H K G ltac:(discriminate)))
      as (d & E & L).
    rewrite E. exact L.
Defined.

(** C7, as stated, fails on [main.go]: a probe without [httpGet] gets no
    diagnostic. *)
Lemma probe_rules_counterexample :
  let probe :=
    Build.map 14
      [Build.str 14 "tcpSocket";
       Build.map 15 [Build.str 15 "port"; Build.int 15 "8080"]] in
  Kind probe = MappingNode /\
  MainGo.findMapKey (Some probe) "httpGet" = None /\
  MainGo.validateProbe "pod.yaml" [] "livenessProbe" probe = [].
Proof. repeat split. Qed.

(** ** A missing required field *)

Section MissingField.

Import Part001.
Variable filename : string.

Lemma get_withField (field : string) (v n : Node) (key : string) :
  Kind n = MappingNode ->
  getMappingValue (Some (Build.withField field v n)) key
  = if (field =? key)%string then Some v else getMappingValue (Some n) key.
Proof.
  intros Hk. unfold getMappingValue, Build.withField. simpl. rewrite Hk.
  reflexivity.
Qed.

(** From "the slice followed by these lists is the slice" to "these lists
    are empty". *)
Ltac nil_parts H :=
  lazymatch type of H with
  | ?e = ?e => clear H
  | _ =>
      apply app_eq_self in H; simpl in H;
      repeat match type of H with
             | _ ++ _ = [] =>
                 let H1 := fresh "Hn" in
                 apply app_eq_nil in H as [H1 H]; try subst
             | _ :: _ = [] => discriminate H
             end; try subst
  end.

Lemma missing_top_level (field : string) (v n : Node) (errors : Errors) :
  In field ["apiVersion"; "kind"; "metadata"; "spec"]%string ->
  getMappingValue (Some n) field = None ->
  validateDocument (Build.withField field v n) filename errors = errors ->
  validateDocument n filename errors
  = append errors (filename ++ ": " ++ field ++ " is required")%string.
Proof.
  intros Hf Hnone. unfold validateDocument, validateMappingField.
  change (Kind (Build.withField field v n)) with (Kind n).
  destruct (KindT_eqb (Kind n) MappingNode) eqn:Hk; simpl negb; cbv iota;
    [|intros H; now apply append_neq in H].
  apply KindT_eqb_eq in Hk.
  rewrite !(get_withField field v n _ Hk).
  simpl in Hf.
  destruct Hf as [<- | [<- | [<- | [<- | []]]]]; simpl String.eqb; cbv iota;
    rewrite Hnone;
    use_framed (validateSpec_framed filename (getMappingValue (Some n) "spec"));
    use_framed (validateMetadata_framed filename
                  (getMappingValue (Some n) "metadata"));
    use_framed (validateKind_framed filename (getMappingValue (Some n) "kind"));
    use_framed (validateAPIVersion_framed filename
                  (getMappingValue (Some n) "apiVersion"));
    use_framed (validateSpec_framed filename (Some v));
    use_framed (validateMetadata_framed filename (Some v));
    use_framed (validateKind_framed filename (Some v));
    use_framed (validateAPIVersion_framed filename (Some v));
    unfold validateSpec, validateMetadata, validateKind, validateAPIVersion;
    repeat match goal with
           | |- context [getMappingValue (Some n) ?k] =>
               destruct (getMappingValue (Some n) k)
           end;
    unfold append; intros H; rewrite <- ?app_assoc in H; nil_parts H.
  all: try (simpl; rewrite ?app_nil_r; reflexivity).
Qed.

(** Closes a goal "the patched node passes -> the node gets one message"
    once both sides are lists built with [++]. *)
Ltac close_missing :=
  unfold append; intros H; rewrite <- ?app_assoc in H; nil_parts H;
  simpl; rewrite ?app_nil_r; reflexivity.

Lemma missing_metadata_name (v n : Node) (errors : Errors) :
  getMappingValue (Some n) "name" = None ->
  validateMetadata (Some (Build.withField "name" v n)) errors filename = errors ->
  validateMetadata (Some n) errors filename
  = append errors (filename ++ ": name is required")%string.
Proof.
  intros Hnone. unfold validateMetadata, validateMappingField.
  change (Kind (Build.withField "name" v n)) with (Kind n).
  destruct (KindT_eqb (Kind n) MappingNode) eqn:Hk; simpl negb; cbv iota;
    [|intros H; now apply append_neq in H].
  apply KindT_eqb_eq in Hk.
  rewrite !(get_withField "name" v n _ Hk). simpl String.eqb. cbv iota.
  rewrite Hnone.
  destruct (getMappingValue (Some n) "namespace") as [ns|];
    destruct (getMappingValue (Some n) "labels") as [labels|];
    try use_framed (validateLabels_framed filename (Content labels));
    split_if; close_missing.
Qed.

Lemma missing_containers (v n : Node) (errors : Errors) :
  getMappingValue (Some n) "containers" = None ->
  validateSpec (Some (Build.withField "containers" v n)) errors filename
  = errors ->
  validateSpec (Some n) errors filename
  = append errors (filename ++ ": containers is required")%string.
Proof.
  intros Hnone. unfold validateSpec.
  change (Kind (Build.withField "containers" v n)) with (Kind n).
  destruct (KindT_eqb (Kind n) MappingNode) eqn:Hk; simpl negb; cbv iota;
    [|intros H; now apply append_neq in H].
  apply KindT_eqb_eq in Hk.
  rewrite !(get_withField "containers" v n _ Hk). simpl String.eqb. cbv iota.
  rewrite Hnone.
  use_framed (framed_fold
                (fun errors cNode => validateContainer cNode errors filename)
                (Content v) (validateContainer_framed filename)).
  destruct (getMappingValue (Some n) "os") as [os|];
    try use_framed (validateOS_framed filename os);
    split_if; close_missing.
Qed.

Lemma missing_container_field (field : string) (v n : Node) (errors : Errors) :
  In field ["name"; "image"; "resources"]%string ->
  getMappingValue (Some n) field = None ->
  validateContainer (Build.withField field v n) errors filename = errors ->
  validateContainer n errors filename
  = append errors (filename ++ ": " ++ field ++ " is required")%string.
Proof.
  intros Hf Hnone. unfold validateContainer, validateMappingField.
  change (Kind (Build.withField field v n)) with (Kind n).
  destruct (KindT_eqb (Kind n) MappingNode) eqn:Hk; simpl negb; cbv iota;
    [|intros H; now apply append_neq in H].
  apply KindT_eqb_eq in Hk.
  rewrite !(get_withField field v n _ Hk).
  simpl in Hf.
  destruct Hf as [<- | [<- | [<- | []]]]; simpl String.eqb; cbv iota;
    rewrite Hnone;
    use_framed (checkResources_framed filename
                  (getMappingValue (Some n) "resources"));
    use_framed (checkProbe_framed filename "livenessProbe"
                  (getMappingValue (Some n) "livenessProbe"));
    use_framed (checkProbe_framed filename "readinessProbe"
                  (getMappingValue (Some n) "readinessProbe"));
    use_framed (portsBlock_framed filename (getMappingValue (Some n) "ports"));
    use_framed (checkImage_framed filename (getMappingValue (Some n) "image"));
    use_framed (checkName_framed filename (getMappingValue (Some n) "name"));
    use_framed (checkResources_framed filename (Some v));
    use_framed (checkImage_framed filename (Some v));
    use_framed (checkName_framed filename (Some v));
    unfold checkResources, checkImage, checkName;
    repeat match goal with
           | |- context [getMappingValue (Some n) ?k] =>
               destruct (getMappingValue (Some n) k)
           end;
    close_missing.
Qed.

Lemma missing_containerPort (v n : Node) (errors : Errors) :
  getMappingValue (Some n) "containerPort" = None ->
  validatePortEntry (Build.withField "containerPort" v n) errors filename
  = errors ->
  validatePortEntry n errors filename
  = append errors (filename ++ ": containerPort is required")%string.
Proof.
  intros Hnone. unfold validatePortEntry, validateMappingField.
  change (Kind (Build.withField "containerPort" v n)) with (Kind n).
  destruct (KindT_eqb (Kind n) MappingNode) eqn:Hk; simpl negb; cbv iota;
    [|intros H; now apply append_neq in H].
  apply KindT_eqb_eq in Hk.
  rewrite !(get_withField "containerPort" v n _ Hk). simpl String.eqb.
  cbv iota. rewrite Hnone.
  use_framed (checkProtocol_framed filename
                (getMappingValue (Some n) "protocol")).
  use_framed (checkContainerPort_framed filename (Some v)).
  unfold checkContainerPort. close_missing.
Qed.

Lemma missing_httpGet (v n : Node) (fieldName : string) (errors : Errors) :
  getMappingValue (Some n) "httpGet" = None ->
  validateProbe (Build.withField "httpGet" v n) fieldName errors filename
  = errors ->
  validateProbe n fieldName errors filename
  = append errors (at_line filename n "httpGet is required").
Proof.
  intros Hnone. unfold validateProbe.
  change (Kind (Build.withField "httpGet" v n)) with (Kind n).
  destruct (KindT_eqb (Kind n) MappingNode) eqn:Hk; simpl negb; cbv iota;
    [|intros H; now apply append_neq in H].
  rewrite Hnone. reflexivity.
Qed.

Lemma missing_httpGet_field (field : string) (v n p : Node)
    (fieldName : string) (errors : Errors) :
  In field ["path"; "port"]%string ->
  Kind p = MappingNode ->
  getMappingValue (Some p) "httpGet" = Some n ->
  getMappingValue (Some n) field = None ->
  validateProbe (Build.withField "httpGet" (Build.withField field v n) p)
    fieldName errors filename = errors ->
  validateProbe p fieldName errors filename
  = append errors (filename ++ ": " ++ field ++ " is required")%string.
Proof.
  intros Hf Hp Hget Hnone. unfold validateProbe, validateMappingField.
  change (Kind (Build.withField "httpGet" (Build.withField field v n) p))
    with (Kind p).
  rewrite Hp. simpl negb. cbv iota.
  rewrite (get_withField "httpGet" _ p _ Hp). simpl String.eqb. cbv iota.
  rewrite Hget.
  change (Kind (Build.withField field v n)) with (Kind n).
  destruct (KindT_eqb (Kind n) MappingNode) eqn:Hk; simpl negb; cbv iota;
    [|intros H; now apply append_neq in H].
  apply KindT_eqb_eq in Hk.
  rewrite !(get_withField field v n _ Hk).
  simpl in Hf.
  destruct Hf as [<- | [<- | []]]; simpl String.eqb; cbv iota;
    rewrite Hnone;
    use_framed (checkProbePort_framed filename
                  (getMappingValue (Some n) "port"));
    use_framed (checkPath_framed filename (getMappingValue (Some n) "path"));
    use_framed (checkProbePort_framed filename (Some v));
    use_framed (checkPath_framed filename (Some v));
    unfold checkProbePort, checkPath;
    repeat match goal with
           | |- context [getMappingValue (Some n) ?k] =>
               destruct (getMappingValue (Some n) k)
           end;
    close_missing.
Qed.

End MissingField.

(** ** A document that satisfies the schema gets no diagnostic *)

Lemma fold_unchanged {A : Type} (step : Errors -> A -> Errors)
    (rule : A -> bool) (l : list A) (errors : Errors) :
  (forall x e, rule x = true -> step e x = e) ->
  forallb rule l = true ->
  fold_left step l errors = errors.
Proof.
  intros Hstep. induction l as [|x l IH]; simpl; intros H; [reflexivity|].
  apply andb_prop in H as [Hx Hl]. rewrite (Hstep x errors Hx). now apply IH.
Qed.

(** Splits the conjunctions of a schema rule and names the fields that the
    rule requires or allows. *)
Ltac split_rule :=
  repeat match goal with
         | H : _ && _ = true |- _ => apply andb_prop in H as [? ?]
         | H : negb _ = true |- _ => apply negb_true_iff in H
         end.

Ltac open_fields :=
  repeat match goal with
         | H : Schema.required ?o _ = true |- _ =>
             let n := fresh "n" in
             destruct o as [n|] eqn:?; unfold Schema.required in H;
             cbv beta iota in H; [|discriminate H]
         | H : Schema.optional ?o _ = true |- _ =>
             let n := fresh "n" in
             destruct o as [n|] eqn:?; unfold Schema.optional in H;
             cbv beta iota in H
         end.

Section SchemaSound.

Import Part001.
Variable filename : string.
Let get := Part001.get.
Let variant := Schema.fullValidator.

Lemma scalar_labels (content : list Node) (errors : Errors) :
  Schema.scalarEntries content = true ->
  validateLabels content errors filename = errors.
Proof.
  assert (H : forall n (c : list Node), (List.length c <= n)%nat ->
            Schema.scalarEntries c = true ->
            validateLabels c errors filename = errors).
  { induction n as [|n IH]; intros c Hn Hc.
    - destruct c; [reflexivity | simpl in Hn; lia].
    - destruct c as [|k [|v rest]]; try reflexivity.
      simpl in Hc. split_rule. unfold Schema.isScalar in *.
      simpl. rewrite H, H1. simpl. apply IH; [simpl in Hn; lia | assumption]. }
  apply (H (List.length content)). lia.
Qed.

Lemma valid_metadata (n : Node) (errors : Errors) :
  Schema.metadata get n = true ->
  validateMetadata (Some n) errors filename = errors.
Proof.
  unfold Schema.metadata, get, Part001.get, Schema.isMapping, Schema.isScalar.
  intros H. split_rule.
  unfold validateMetadata, validateMappingField.
  rewrite H. simpl negb. cbv iota.
  open_fields; split_rule; unfold Schema.isScalar, Schema.isMapping in *;
    repeat match goal with
           | E : KindT_eqb _ _ = true |- _ => rewrite E
           | E : (_ =? _)%string = false |- _ => rewrite E
           end; simpl negb; cbv iota; try reflexivity;
    now apply scalar_labels.
Qed.

Lemma enum_os (n : Node) :
  Schema.enum ["linux"; "windows"]%string n = true ->
  Kind n = ScalarNode /\ Schema.supportedOS (Value n).
Proof.
  unfold Schema.enum, Schema.isScalar. intros H. split_rule.
  split; [now apply KindT_eqb_eq|].
  simpl in H0. rewrite orb_false_r in H0.
  apply orb_prop in H0 as [E | E]; apply String.eqb_eq in E;
    [now left | now right].
Qed.

Lemma supported_nonempty (name : string) :
  Schema.supportedOS name -> name <> ""%string.
Proof. intros [-> | ->]; discriminate. Qed.

Lemma valid_os (n : Node) (errors : Errors) :
  Schema.os get variant n = true -> validateOS n errors filename = errors.
Proof.
  unfold Schema.os. unfold variant.
  cbn [Schema.osObject Schema.fullValidator andb]. intros H. unfold validateOS.
  apply orb_prop in H as [H | H].
  - apply enum_os in H as [Hk Hv]. rewrite Hk. simpl KindT_eqb. cbv iota beta.
    rewrite (eqb_neq_false _ _ (supported_nonempty _ Hv)).
    apply supportedOS_decide in Hv. now rewrite Hv.
  - unfold Schema.isMapping, get, Part001.get in H. split_rule. open_fields.
    apply enum_os in H0 as [Hk Hv]. rewrite H, Hk.
    destruct (KindT_eqb (Kind n) ScalarNode) eqn:Es.
    + apply KindT_eqb_eq in Es. apply KindT_eqb_eq in H. congruence.
    + simpl KindT_eqb. simpl negb. cbv iota beta.
      rewrite (eqb_neq_false _ _ (supported_nonempty _ Hv)).
      apply supportedOS_decide in Hv. now rewrite Hv.
Qed.

Lemma valid_integer (lo : Z) (hi : option Z) (n : Node) :
  Schema.integerInRange lo hi n = true ->
  Kind n = ScalarNode /\ Tag n = "!!int"%string /\
  exists v, strconv.Atoi (Value n) = Some v /\ lo <= v /\
            match hi with Some h => v <= h | None => True end.
Proof.
  unfold Schema.integerInRange, Schema.isScalar. intros H. split_rule.
  apply KindT_eqb_eq in H. apply String.eqb_eq in H1.
  destruct (strconv.Atoi (Value n)) as [v|]; [|discriminate].
  split_rule. repeat split; try assumption. exists v.
  split; [reflexivity|]. split; [now apply Z.leb_le|].
  destruct hi; [now apply Z.leb_le | exact I].
Qed.

Lemma valid_port_value (field : string) (n : Node) (errors : Errors) :
  Schema.integerInRange 1 (Some 65535) n = true ->
  checkPortValue field n errors filename = errors.
Proof.
  intros H. apply valid_integer in H as (_ & Ht & v & Hv & Hlo & Hhi).
  rewrite Part001_checkPortValue_int by exact Ht. rewrite Hv.
  now rewrite out_of_range_false.
Qed.

Lemma valid_enum_protocol (n : Node) (errors : Errors) :
  Schema.enum ["TCP"; "UDP"]%string n = true ->
  checkProtocol (Some n) errors filename = errors.
Proof.
  unfold Schema.enum, Schema.isScalar, checkProtocol. intros H. split_rule.
  rewrite H. simpl negb. cbv iota. simpl in H0. rewrite orb_false_r in H0.
  apply orb_prop in H0 as [E | E]; rewrite E; simpl;
    rewrite ?andb_false_r; reflexivity.
Qed.

Lemma valid_port (n : Node) (errors : Errors) :
  Schema.port get n = true -> validatePortEntry n errors filename = errors.
Proof.
  unfold Schema.port, get, Part001.get, Schema.isMapping. intros H.
  split_rule. unfold validatePortEntry, validateMappingField.
  rewrite H. simpl negb. cbv iota. open_fields.
  - pose proof (valid_integer _ _ _ H1) as (Hk & _).
    unfold checkContainerPort. rewrite Hk. simpl negb. cbv iota.
    rewrite valid_port_value by assumption. now apply valid_enum_protocol.
  - pose proof (valid_integer _ _ _ H1) as (Hk & _).
    unfold checkContainerPort. rewrite Hk. simpl negb. cbv iota.
    now rewrite valid_port_value by assumption.
Qed.

Lemma valid_probe (n : Node) (fieldName : string) (errors : Errors) :
  Schema.probe get n = true ->
  validateProbe n fieldName errors filename = errors.
Proof.
  unfold Schema.probe, get, Part001.get, Schema.isMapping.
  intros H. split_rule. open_fields.
  unfold Schema.httpGet, Schema.pathRule, Schema.portRule, Schema.pathText,
    Schema.isMapping, Schema.isScalar in H0.
  split_rule. unfold Part001.get in *. open_fields. split_rule.
  unfold validateProbe, validateMappingField.
  repeat match goal with
         | E : getMappingValue _ _ = Some _ |- _ => rewrite E
         | E : KindT_eqb _ _ = true |- _ => rewrite E
         end.
  simpl negb. cbv iota. unfold checkPath.
  repeat match goal with
         | E : KindT_eqb _ _ = true |- _ => rewrite E
         | E : strings.HasPrefix _ _ = true |- _ => rewrite E
         end.
  simpl negb. cbv iota.
  match goal with
  | E : Schema.integerInRange _ _ ?p = true |- _ =>
      pose proof (valid_integer _ _ _ E) as (Hk & _);
      unfold checkProbePort; rewrite Hk; simpl negb; cbv iota;
      now apply valid_port_value
  end.
Qed.

Lemma valid_cpu (n : Node) (errors : Errors) :
  Schema.integerInRange 0 None n = true ->
  checkCPU (Some n) errors filename = errors.
Proof.
  intros H. apply valid_integer in H as (Hk & Ht & v & Hv & Hlo & _).
  unfold checkCPU. rewrite Hk, Ht, Hv. simpl.
  destruct (Z.ltb_spec v 0); [lia | reflexivity].
Qed.

Lemma valid_memory (n : Node) (errors : Errors) :
  Schema.quantityWithUnit (Schema.units variant) n = true ->
  checkMemory (Some n) errors filename = errors.
Proof.
  unfold Schema.quantityWithUnit, Schema.isScalar, checkMemory. intros H.
  split_rule. rewrite H. simpl negb. cbv iota.
  unfold memoryPattern. change memoryUnits with (Schema.units variant).
  now rewrite H0.
Qed.

Lemma valid_quantities (name : string) (n : Node) (errors : Errors) :
  Schema.quantities get variant n = true ->
  validateResourceBlock name (Some n) errors filename = errors.
Proof.
  unfold Schema.quantities, get, Part001.get, Schema.isMapping.
  unfold variant.
  cbn [Schema.quantitiesRequired Schema.fullValidator andb]. unfold Schema.field. intros H.
  split_rule. unfold validateResourceBlock, checkResourceValues.
  rewrite H. simpl negb. cbv iota.
  open_fields; rewrite ?valid_cpu by assumption;
    rewrite ?valid_memory by assumption; reflexivity.
Qed.

Lemma valid_resources (n : Node) (errors : Errors) :
  Schema.resources get variant n = true ->
  checkResources (Some n) errors filename = errors.
Proof.
  unfold Schema.resources, get, Part001.get, Schema.isMapping.
  unfold variant.
  cbn [Schema.quantitiesRequired Schema.fullValidator andb]. unfold Schema.field. intros H.
  split_rule. unfold checkResources. rewrite H. simpl negb. cbv iota.
  open_fields;
    rewrite ?(valid_quantities "limits") by assumption;
    rewrite ?(valid_quantities "requests") by assumption;
    reflexivity.
Qed.

Lemma valid_name (n : Node) (errors : Errors) :
  Schema.identifier n = true -> checkName (Some n) errors filename = errors.
Proof.
  unfold Schema.identifier, Schema.isScalar, checkName. intros H. split_rule.
  now rewrite H, H0.
Qed.

Lemma valid_image (n : Node) (errors : Errors) :
  Schema.image variant n = true ->
  checkImage (Some n) errors filename = errors.
Proof.
  unfold Schema.image, Schema.prefixedTaggedReference, Schema.isScalar.
  intros H. apply andb_prop in H as [H _].
  apply andb_prop in H as [H Hc]. apply andb_prop in H as [Hk Hp].
  assert (Ht : Schema.taggedText "registry.bigbrother.io/" (Value n)).
  { apply taggedText_decide. now rewrite Hp, Hc. }
  destruct Ht as (rest & E & a & b & -> & _).
  assert (Hok : imageOK (Value n) = true).
  { apply Part001_imageOK_spec. now exists a, b. }
  unfold checkImage. now rewrite Hk, Hok.
Qed.

Lemma valid_container (n : Node) (errors : Errors) :
  Schema.container get variant n = true ->
  validateContainer n errors filename = errors.
Proof.
  unfold Schema.container, Schema.isMapping, get, Part001.get.
  unfold variant.
  cbn [Schema.resourcesRequired Schema.fullValidator andb]. unfold Schema.field. intros H.
  apply andb_prop in H as [H Hres]. apply andb_prop in H as [H Hlive].
  apply andb_prop in H as [H Hready]. apply andb_prop in H as [H Hports].
  apply andb_prop in H as [H Himage]. apply andb_prop in H as [Hk Hname].
  unfold validateContainer, validateMappingField. rewrite Hk.
  simpl negb. cbv iota.
  destruct (getMappingValue (Some n) "name") as [name|];
    [|discriminate Hname].
  destruct (getMappingValue (Some n) "image") as [image|];
    [|discriminate Himage].
  destruct (getMappingValue (Some n) "resources") as [res|];
    [|discriminate Hres].
  unfold Schema.required in Hname, Himage, Hres.
  rewrite (valid_name name _ Hname), (valid_image image _ Himage).
  assert (Hp : match getMappingValue (Some n) "ports" with
               | Some p => validatePorts p errors filename
               | None => errors
               end = errors).
  { destruct (getMappingValue (Some n) "ports") as [p|]; [|reflexivity].
    unfold Schema.optional, Schema.isSequence in Hports.
    apply andb_prop in Hports as [Hs Hall].
    unfold validatePorts. rewrite Hs. simpl negb. cbv iota.
    apply (fold_unchanged _ (Schema.port Part001.get)); [|assumption].
    intros x e Hx. now apply valid_port. }
  rewrite Hp.
  assert (Hprobe : forall name,
            Schema.optional (getMappingValue (Some n) name)
              (Schema.probe Part001.get) = true ->
            checkProbe name (getMappingValue (Some n) name) errors filename
            = errors).
  { intros nm Hn. unfold checkProbe.
    destruct (getMappingValue (Some n) nm); [|reflexivity].
    now apply valid_probe. }
  rewrite (Hprobe _ Hready), (Hprobe _ Hlive).
  now apply valid_resources.
Qed.

Lemma valid_spec (n : Node) (errors : Errors) :
  Schema.spec get variant n = true ->
  validateSpec (Some n) errors filename = errors.
Proof.
  unfold Schema.spec, Schema.isMapping, Schema.isSequence, get, Part001.get.
  intros H. apply andb_prop in H as [H Hcs]. apply andb_prop in H as [Hk Hos].
  unfold validateSpec. rewrite Hk. simpl negb. cbv iota.
  assert (Ho : match getMappingValue (Some n) "os" with
               | Some osNode => validateOS osNode errors filename
               | None => errors
               end = errors).
  { destruct (getMappingValue (Some n) "os"); [|reflexivity].
    now apply valid_os. }
  rewrite Ho.
  destruct (getMappingValue (Some n) "containers") as [c|];
    [|discriminate Hcs].
  unfold Schema.required in Hcs.
  apply andb_prop in Hcs as [H Hall]. apply andb_prop in H as [Hs Hne].
  apply negb_true_iff in Hne. rewrite Hs, Hne. simpl negb. cbv iota.
  apply (fold_unchanged _
           (Schema.container Part001.get Schema.fullValidator));
    [|assumption].
  intros x e Hx. now apply valid_container.
Qed.

Lemma valid_fixed (v : string) (n : Node) :
  Schema.fixedValue v n = true -> Kind n = ScalarNode /\ Value n = v.
Proof.
  unfold Schema.fixedValue, Schema.isScalar. intros H. split_rule.
  split; [now apply KindT_eqb_eq | now apply String.eqb_eq].
Qed.

Lemma valid_document (n : Node) (errors : Errors) :
  Schema.document get variant n = true ->
  validateDocument n filename errors = errors.
Proof.
  unfold Schema.document, Schema.isMapping, get, Part001.get. intros H.
  apply andb_prop in H as [H Hspec]. apply andb_prop in H as [H Hmeta].
  apply andb_prop in H as [H Hkind]. apply andb_prop in H as [Hk Hapi].
  unfold validateDocument, validateMappingField. rewrite Hk.
  simpl negb. cbv iota.
  destruct (getMappingValue (Some n) "apiVersion") as [a|];
    [|discriminate Hapi].
  destruct (getMappingValue (Some n) "kind") as [k|]; [|discriminate Hkind].
  destruct (getMappingValue (Some n) "metadata") as [m|];
    [|discriminate Hmeta].
  destruct (getMappingValue (Some n) "spec") as [s|]; [|discriminate Hspec].
  unfold Schema.required in Hapi, Hkind, Hmeta, Hspec.
  apply valid_fixed in Hapi as [Ka Va]. apply valid_fixed in Hkind as [Kk Vk].
  unfold validateAPIVersion, validateKind. rewrite Ka, Va, Kk, Vk.
  change (negb (KindT_eqb ScalarNode ScalarNode)) with false.
  change (negb ("v1" =? "v1")%string) with false.
  change (negb ("Pod" =? "Pod")%string) with false.
  cbv iota. rewrite valid_metadata by assumption. now apply valid_spec.
Qed.

End SchemaSound.

Section SchemaSoundMainGo.

Import MainGo.
Variable filename : string.
Let get := MainGo.get.
Let variant := Schema.mainGo.

(** What [findMapKey] finds, given what the accessor returns. *)
Lemma get_found (n : Node) (key : string) (v : Node) :
  MainGo.get n key = Some v ->
  exists k, findMapKey (Some n) key = Some (k, v).
Proof.
  unfold MainGo.get. destruct (findMapKey (Some n) key) as [[k w]|];
    simpl; intros H; [|discriminate].
  injection H as ->. now exists k.
Qed.

Lemma get_none (n : Node) (key : string) :
  MainGo.get n key = None -> findMapKey (Some n) key = None.
Proof.
  unfold MainGo.get. destruct (findMapKey (Some n) key) as [[k w]|];
    simpl; intros H; [discriminate | reflexivity].
Qed.

(** Names the outcome of [findMapKey] behind a field of a schema rule. *)
Ltac found H :=
  lazymatch type of H with
  | Schema.required (MainGo.get ?n ?key) _ = true =>
      let v := fresh "v" in
      let k := fresh "k" in
      let E := fresh "E" in
      let F := fresh "F" in
      destruct (MainGo.get n key) as [v|] eqn:E;
      [apply get_found in E as [k F]; rewrite ?F;
       unfold Schema.required in H
      |discriminate H]
  | Schema.optional (MainGo.get ?n ?key) _ = true =>
      let v := fresh "v" in
      let k := fresh "k" in
      let E := fresh "E" in
      let F := fresh "F" in
      destruct (MainGo.get n key) as [v|] eqn:E;
      [apply get_found in E as [k F]; rewrite ?F;
       unfold Schema.optional in H
      |apply get_none in E; rewrite ?E; clear H]
  end.

Lemma mainGo_valid_metadata (root : Node) (errors : Errors) :
  Schema.required (get root "metadata") (Schema.metadata get) = true ->
  validateMetadata filename errors root = errors.
Proof.
  unfold get. intros H. unfold validateMetadata. found H.
  unfold Schema.metadata, Schema.isMapping in H.
  apply andb_prop in H as [H _]. apply andb_prop in H as [H _].
  apply andb_prop in H as [Hk Hname]. rewrite Hk. simpl negb. cbv iota.
  found Hname. apply andb_prop in Hname as [_ Hne].
  apply negb_true_iff in Hne. now rewrite Hne.
Qed.

Lemma mainGo_valid_os (spec : Node) (errors : Errors) :
  Schema.optional (get spec "os") (Schema.os get variant) = true ->
  checkOS filename errors spec = errors.
Proof.
  unfold get. intros H. unfold checkOS. found H; [|reflexivity].
  unfold Schema.os, variant in H.
  cbn [Schema.osObject Schema.mainGo andb] in H. rewrite orb_false_r in H.
  apply enum_os in H as [_ Hv]. apply supportedOS_decide in Hv.
  now rewrite Hv.
Qed.

Lemma mainGo_valid_port_value (what : string) (n : Node) (errors : Errors) :
  Schema.integerInRange 1 (Some 65535) n = true ->
  checkPort what n filename errors = errors.
Proof.
  intros H. apply valid_integer in H as (_ & _ & v & Hv & Hlo & Hhi).
  rewrite (MainGo_checkPort_converts filename _ _ _ v Hv).
  now rewrite out_of_range_false.
Qed.

Lemma mainGo_valid_port (n : Node) (errors : Errors) :
  Schema.port get n = true -> validatePortItem filename errors n = errors.
Proof.
  unfold Schema.port, Schema.isMapping, get. intros H.
  apply andb_prop in H as [H Hproto]. apply andb_prop in H as [Hk Hcp].
  unfold validatePortItem, checkProtocol. rewrite Hk. simpl negb. cbv iota.
  found Hcp. rewrite mainGo_valid_port_value by assumption.
  found Hproto; [|reflexivity].
  unfold Schema.enum in Hproto. apply andb_prop in Hproto as [_ He].
  simpl in He. rewrite orb_false_r in He.
  apply orb_prop in He as [E | E]; rewrite E; simpl;
    rewrite ?andb_false_r; reflexivity.
Qed.

Lemma mainGo_valid_probe (n : Node) (probeName : string) (errors : Errors) :
  Schema.probe get n = true ->
  validateProbe filename errors probeName n = errors.
Proof.
  unfold Schema.probe, Schema.isMapping, get. intros H.
  apply andb_prop in H as [Hk Hh].
  unfold validateProbe. rewrite Hk. simpl negb. cbv iota. found Hh.
  unfold Schema.httpGet, Schema.pathRule, Schema.portRule, Schema.isMapping
    in Hh.
  apply andb_prop in Hh as [H Hport]. apply andb_prop in H as [Hkh Hpath].
  rewrite Hkh. simpl negb. cbv iota zeta.
  unfold checkProbePath, checkProbePort. found Hpath. found Hport.
  unfold Schema.pathText in Hpath.
  apply andb_prop in Hpath as [_ H]. apply andb_prop in H as [Hne Hp].
  apply negb_true_iff in Hne. rewrite Hne, Hp.
  destruct (Value v0) as [|c s]; [discriminate|]. simpl.
  now apply mainGo_valid_port_value.
Qed.

Lemma mainGo_valid_cpu (res : Node) (resType : string) (errors : Errors) :
  Schema.required (get res "cpu") (Schema.integerInRange 0 None) = true ->
  checkCPU filename errors res resType = errors.
Proof.
  unfold get. intros H. unfold checkCPU. found H.
  apply valid_integer in H as (_ & _ & x & Hx & Hlo & _).
  rewrite Hx. destruct (Value v) as [|c s]; [discriminate|].
  simpl. destruct (Z.ltb_spec x 0); [lia | reflexivity].
Qed.

Lemma mainGo_valid_memory (res : Node) (resType : string) (errors : Errors) :
  Schema.required (get res "memory")
    (Schema.quantityWithUnit (Schema.units variant)) = true ->
  checkMemory filename errors res resType = errors.
Proof.
  unfold get. intros H. unfold checkMemory. found H.
  unfold Schema.quantityWithUnit in H. apply andb_prop in H as [_ Hm].
  unfold memoryPattern. change memoryUnits with (Schema.units variant).
  rewrite Hm. destruct (Value v) as [|c s]; [discriminate|]. reflexivity.
Qed.

Lemma mainGo_valid_quantities (resources : Node) (resType : string)
    (errors : Errors) :
  Schema.required (get resources resType) (Schema.quantities get variant)
  = true ->
  checkResourceType filename errors resources resType = errors.
Proof.
  unfold get. intros H. unfold checkResourceType. found H.
  unfold Schema.quantities, Schema.isMapping, variant in H.
  cbn [Schema.quantitiesRequired Schema.mainGo Schema.field] in H.
  apply andb_prop in H as [H Hmem]. apply andb_prop in H as [Hk Hcpu].
  rewrite Hk. simpl negb. cbv iota zeta.
  rewrite mainGo_valid_cpu by assumption.
  now apply mainGo_valid_memory.
Qed.

Lemma mainGo_valid_resources (n : Node) (errors : Errors) :
  Schema.resources get variant n = true ->
  checkResourceValues filename errors n = errors.
Proof.
  unfold Schema.resources, Schema.isMapping, variant.
  cbn [Schema.quantitiesRequired Schema.mainGo Schema.field]. intros H.
  apply andb_prop in H as [H Hreq]. apply andb_prop in H as [Hk Hlim].
  unfold checkResourceValues. rewrite Hk. simpl.
  rewrite mainGo_valid_quantities by assumption.
  now apply mainGo_valid_quantities.
Qed.

Lemma firstColonInsideFrom_spec (s : string) :
  Schema.firstColonInsideFrom s = true ->
  exists a b, s = (a ++ ":" ++ b)%string /\ strings.colonFree a /\
              b <> ""%string.
Proof.
  induction s as [|c s IH]; simpl; [discriminate|].
  destruct (Ascii.eqb c ":") eqn:E.
  - apply Ascii.eqb_eq in E. subst c. intros H. apply negb_true_iff in H.
    exists ""%string, s. repeat split. now apply String.eqb_neq.
  - intros H. destruct (IH H) as (a & b & -> & Hf & Hb).
    exists (String c a), b. repeat split; [|assumption].
    unfold strings.colonFree. now rewrite Contains_cons, E.
Qed.

Lemma mainGo_valid_image_text (img : string) :
  strings.HasPrefix img imagePrefix = true ->
  Schema.firstColonInsideb (strings.from (String.length imagePrefix) img)
  = true ->
  imageOK img = true.
Proof.
  intros Hp Hc. apply HasPrefix_spec in Hp as [rest ->].
  rewrite from_app in Hc. apply MainGo_imageOK_spec.
  destruct rest as [|c s]; [discriminate|]. simpl in Hc.
  apply andb_prop in Hc as [Hc Hs]. apply negb_true_iff in Hc.
  apply firstColonInsideFrom_spec in Hs as (a & b & -> & Hf & Hb).
  exists (String c a), b. repeat split; try assumption; [|discriminate].
  unfold strings.colonFree. now rewrite Contains_cons, Hc.
Qed.

Lemma mainGo_valid_image (container : Node) (errors : Errors) :
  Schema.required (get container "image") (Schema.image variant) = true ->
  checkImage filename errors container = errors.
Proof.
  unfold get. intros H. unfold checkImage. found H.
  unfold Schema.image, Schema.prefixedTaggedReference, variant in H.
  cbn [Schema.firstColon Schema.mainGo negb orb] in H.
  apply andb_prop in H as [H Hf]. apply andb_prop in H as [H _].
  apply andb_prop in H as [_ Hp].
  rewrite (mainGo_valid_image_text _ Hp Hf).
  destruct (Value v) as [|c s]; [discriminate|]. reflexivity.
Qed.

Lemma mainGo_valid_name (container : Node) (errors : Errors) :
  Schema.required (get container "name") Schema.identifier = true ->
  checkName filename errors container = errors.
Proof.
  unfold get. intros H. unfold checkName. found H.
  unfold Schema.identifier in H. apply andb_prop in H as [_ Hm].
  rewrite Hm. destruct (Value v) as [|c s]; [discriminate|]. reflexivity.
Qed.

Lemma mainGo_valid_container (n : Node) (errors : Errors) :
  Schema.container get variant n = true ->
  validateContainerItem filename errors n = errors.
Proof.
  unfold Schema.container, Schema.isMapping, variant.
  cbn [Schema.resourcesRequired Schema.mainGo Schema.field]. intros H.
  apply andb_prop in H as [H Hres]. apply andb_prop in H as [H Hlive].
  apply andb_prop in H as [H Hready]. apply andb_prop in H as [H Hports].
  apply andb_prop in H as [H Himage]. apply andb_prop in H as [Hk Hname].
  unfold validateContainerItem. rewrite Hk. simpl negb. cbv iota zeta.
  rewrite mainGo_valid_name, mainGo_valid_image by assumption.
  assert (Hp : checkPorts filename errors n = errors).
  { unfold checkPorts. unfold get in Hports. found Hports; [|reflexivity].
    unfold Schema.isSequence in Hports.
    apply andb_prop in Hports as [Hs Hall]. rewrite Hs. simpl negb. cbv iota.
    apply (fold_unchanged _ (Schema.port MainGo.get)); [|assumption].
    intros x e Hx. now apply mainGo_valid_port. }
  rewrite Hp.
  assert (Hprobe : forall name,
            Schema.optional (MainGo.get n name) (Schema.probe MainGo.get)
            = true ->
            checkProbe filename errors name n = errors).
  { intros name Hn. unfold checkProbe. found Hn; [|reflexivity].
    now apply mainGo_valid_probe. }
  rewrite (Hprobe _ Hready), (Hprobe _ Hlive).
  unfold get in Hres. found Hres; [|reflexivity].
  now apply mainGo_valid_resources.
Qed.

Lemma mainGo_valid_spec (root : Node) (errors : Errors) :
  Schema.required (get root "spec") (Schema.spec get variant) = true ->
  validateSpec filename errors root = errors.
Proof.
  unfold get. intros H. unfold validateSpec. found H.
  unfold Schema.spec, Schema.isMapping, Schema.isSequence in H.
  apply andb_prop in H as [H Hcs]. apply andb_prop in H as [Hk Hos].
  rewrite Hk. simpl negb. cbv iota zeta.
  rewrite mainGo_valid_os by assumption.
  found Hcs.
  apply andb_prop in Hcs as [H Hall]. apply andb_prop in H as [Hs Hne].
  apply negb_true_iff in Hne. rewrite Hs, Hne. simpl negb. cbv iota.
  apply (fold_unchanged _ (Schema.container MainGo.get Schema.mainGo));
    [|assumption].
  intros x e Hx. now apply mainGo_valid_container.
Qed.

Lemma mainGo_valid_document (n : Node) :
  Schema.document get variant n = true -> validate filename n = [].
Proof.
  unfold Schema.document, get. intros H.
  apply andb_prop in H as [H Hspec]. apply andb_prop in H as [H Hmeta].
  apply andb_prop in H as [H Hkind]. apply andb_prop in H as [_ Hapi].
  unfold validate. found Hapi. found Hkind.
  rewrite mainGo_valid_metadata by assumption.
  now apply mainGo_valid_spec.
Qed.

End SchemaSoundMainGo.

(** C2 (amended).  A document that satisfies the schema as the validator
    at hand applies it gets no diagnostic.  For the full validator that is
    the schema of the specification with the memory units Ki, Mi and Gi.
    For [main.go] it is the schema with binary and decimal units, [os] as a
    bare scalar, an image whose first colon after the prefix is neither
    first nor last, and a [resources] section, where there is one, that has
    [limits] and [requests], each with [cpu] and [memory]. *)
Theorem valid_document_no_diagnostics (filename : string) (n : Node) :
  (Schema.document Part001.get Schema.fullValidator n = true ->
   forall errors, Part001.validateDocument n filename errors = errors) /\
  (Schema.document MainGo.get Schema.mainGo n = true ->
   MainGo.validate filename n = []).
Proof.
  split.
  - intros H errors. now apply valid_document.
  - apply mainGo_valid_document.
Qed.

(** The manifest [Build.goodPod] satisfies both schemas. *)
Lemma valid_document_no_diagnostics_witness :
  Part001.validateDocument Build.goodPod "pod.yaml" [] = [] /\
  MainGo.validate "pod.yaml" Build.goodPod = [].
Proof.
  split.
  - exact (proj1 (valid_document_no_diagnostics "pod.yaml" Build.goodPod)
             eq_refl []).
  - exact (proj2 (valid_document_no_diagnostics "pod.yaml" Build.goodPod)
             eq_refl).
Defined.

(** C2, as stated, fails in the full validator: a manifest whose memory
    limit is [1Ti] satisfies the schema of the specification and gets a
    diagnostic. *)
Lemma valid_document_counterexample :
  let pod :=
    Build.pod Build.goodImage "1Ti" (Build.portEntry (Build.int 11 "80")) in
  Schema.document Part001.get Schema.asSpecified pod = true /\
  Part001.validateDocument pod "pod.yaml" []
  = ["pod.yaml:20 memory has invalid format '1Ti'"%string].
Proof. split; reflexivity. Qed.

(** ** Several documents in one file *)

(** The loop of [main] validates every document of [root.Content], in
    order, and appends what each reports. *)
Lemma fold_documents (filename : string) (docs : list Node) (errors : Errors) :
  fold_left (fun errors doc => Part001.validateDocument doc filename errors)
    docs errors
  = errors
    ++ List.concat
         (map (fun doc => Part001.validateDocument doc filename []) docs).
Proof.
  revert errors. induction docs as [|d docs IH]; intros errors; simpl.
  - now rewrite app_nil_r.
  - rewrite IH. rewrite (validateDocument_framed filename d errors).
    now rewrite <- app_assoc.
Qed.

Lemma collect_every_document (filename : string) (root : Node) :
  Content root <> [] ->
  Part001.collect filename root
  = List.concat
      (map (fun doc => Part001.validateDocument doc filename [])
         (Content root)).
Proof.
  intros Hne. unfold Part001.collect.
  destruct (Content root) as [|d docs]; [congruence|].
  change ((List.length (d :: docs) =? 0)%nat) with false. cbv iota.
  apply fold_documents.
Qed.

(** C4 fails on the code.  [main] reads the file with [yaml.Unmarshal],
    which decodes the first document only, so the loop over [root.Content]
    sees one document: what follows the first document of a stream has no
    effect on the output.  A valid document followed by a document without
    [metadata] gives no diagnostic and exit status 0, although the second
    document alone is reported. *)
Theorem multi_document_only_first (filename : string) (first : Node)
    (others : list Node) :
  Part001.main filename (first :: others) = Part001.main filename [first] /\
  Part001.main "pod.yaml" [Build.goodPod; Build.podWithoutMetadata] = ([], 0) /\
  Part001.main "pod.yaml" [Build.podWithoutMetadata]
  = (["pod.yaml: metadata is required"%string], 1).
Proof. repeat split. Qed.

(** * Further properties of the validators

    ** The accessors

    [getMappingValue] of the full validator and [findMapKey] of [main.go]
    walk the flat list of entries two nodes a step and stop at the first
    key that matches. *)

Section Accessors.

(** Induction over a flat list of entries, two nodes a step. *)
Lemma entries_ind {A : Type} (P : list A -> Prop) :
  P [] -> (forall x, P [x]) ->
  (forall k v rest, P rest -> P (k :: v :: rest)) ->
  forall l, P l.
Proof.
  intros Hnil Hone Hstep l.
  assert (H : P l /\ forall x, P (x :: l)).
  { induction l as [|y l [IH1 IH2]]; split; auto. }
  apply H.
Qed.

(** The condition under which [getMappingValue] stops at the key [k]. *)
Lemma lookup_test (k : Node) (key : string) :
  KindT_eqb (Kind k) ScalarNode && String.eqb (Value k) key = true <->
  Kind k = ScalarNode /\ Value k = key.
Proof.
  rewrite andb_true_iff, KindT_eqb_eq, String.eqb_eq. tauto.
Qed.

Lemma lookup_first (content : list Node) (key : string) (v : Node) :
  Part001.lookup content key = Some v <->
  exists pre k rest,
    content = pre ++ k :: v :: rest /\
    Nat.even (List.length pre) = true /\
    Kind k = ScalarNode /\ Value k = key /\
    forall k', In k' (Entries.keys pre) ->
               Kind k' = ScalarNode -> Value k' <> key.
Proof.
  split.
  - induction content as [| x | k0 v0 rest IH] using entries_ind;
      simpl; try discriminate.
    destruct (KindT_eqb (Kind k0) ScalarNode && String.eqb (Value k0) key)
      eqn:E.
    + intros [= ->]. apply lookup_test in E as [E1 E2].
      exists [], k0, rest. simpl. repeat split; auto.
    + intros H. destruct (IH H) as (pre & k & rest' & -> & Hev & Hk & Hv & Hpre).
      exists (k0 :: v0 :: pre), k, rest'. simpl. repeat split; auto.
      intros k' [<- | Hin] Hs; [|now apply Hpre].
      intros Hval. assert (T : KindT_eqb (Kind k0) ScalarNode
                               && String.eqb (Value k0) key = true)
        by now apply lookup_test.
      congruence.
  - intros (pre & k & rest & -> & Hev & Hk & Hv & Hpre).
    induction pre as [| x | k0 v0 pre IH] using entries_ind; simpl in *.
    + assert (T : KindT_eqb (Kind k) ScalarNode && String.eqb (Value k) key = true)
        by now apply lookup_test.
      now rewrite T.
    + discriminate.
    + destruct (KindT_eqb (Kind k0) ScalarNode && String.eqb (Value k0) key)
        eqn:E.
      * apply lookup_test in E as [E1 E2]. exfalso. apply (Hpre k0); auto.
      * apply IH; auto.
Qed.

Lemma lookup_none (content : list Node) (key : string) :
  Part001.lookup content key = None <->
  forall k, In k (Entries.keys content) ->
            Kind k = ScalarNode -> Value k <> key.
Proof.
  induction content as [| x | k0 v0 rest IH] using entries_ind; simpl.
  - split; [intros _ k [] | reflexivity].
  - split; [intros _ k [] | reflexivity].
  - destruct (KindT_eqb (Kind k0) ScalarNode && String.eqb (Value k0) key)
      eqn:E.
    + apply lookup_test in E as [E1 E2]. split; [discriminate|].
      intros H. exfalso. apply (H k0); auto.
    + rewrite IH. split.
      * intros H k [<- | Hin] Hs; [|now apply H].
        intros Hval. assert (T : KindT_eqb (Kind k0) ScalarNode
                                 && String.eqb (Value k0) key = true)
          by now apply lookup_test.
        congruence.
      * intros H k Hin. apply H. now right.
Qed.

Lemma find_first (content : list Node) (key : string) (k v : Node) :
  MainGo.find content key = Some (k, v) <->
  exists pre rest,
    content = pre ++ k :: v :: rest /\
    Nat.even (List.length pre) = true /\
    Value k = key /\
    forall k', In k' (Entries.keys pre) -> Value k' <> key.
Proof.
  split.
  - induction content as [| x | k0 v0 rest IH] using entries_ind;
      simpl; try discriminate.
    destruct (String.eqb (Value k0) key) eqn:E.
    + intros [= -> ->]. apply String.eqb_eq in E.
      exists [], rest. simpl. repeat split; auto.
    + intros H. destruct (IH H) as (pre & rest' & -> & Hev & Hv & Hpre).
      exists (k0 :: v0 :: pre), rest'. simpl. repeat split; auto.
      intros k' [<- | Hin]; [|now apply Hpre].
      now apply String.eqb_neq.
  - intros (pre & rest & -> & Hev & Hv & Hpre).
    induction pre as [| x | k0 v0 pre IH] using entries_ind; simpl in *.
    + apply String.eqb_eq in Hv. now rewrite Hv.
    + discriminate.
    + destruct (String.eqb (Value k0) key) eqn:E.
      * apply String.eqb_eq in E. exfalso. apply (Hpre k0); auto.
      * apply IH; auto.
Qed.

Lemma find_none (content : list Node) (key : string) :
  MainGo.find content key = None <->
  forall k, In k (Entries.keys content) -> Value k <> key.
Proof.
  induction content as [| x | k0 v0 rest IH] using entries_ind; simpl.
  - split; [intros _ k [] | reflexivity].
  - split; [intros _ k [] | reflexivity].
  - destruct (String.eqb (Value k0) key) eqn:E.
    + apply String.eqb_eq in E. split; [discriminate|].
      intros H. exfalso. apply (H k0); auto.
    + rewrite IH. split.
      * intros H k [<- | Hin]; [|now apply H]. now apply String.eqb_neq.
      * intros H k Hin. apply H. now right.
Qed.

Lemma find_lookup (content : list Node) (key : string) :
  Entries.scalarKeys content = true ->
  option_map snd (MainGo.find content key) = Part001.lookup content key.
Proof.
  unfold Entries.scalarKeys.
  induction content as [| x | k0 v0 rest IH] using entries_ind; simpl; auto.
  intros H. apply andb_prop in H as [Hk Hrest]. rewrite Hk. simpl.
  destruct (String.eqb (Value k0) key); auto.
Qed.

Lemma mapping_test (n : Node) :
  negb (KindT_eqb (Kind n) MappingNode) = false <-> Kind n = MappingNode.
Proof. rewrite negb_false_iff. apply KindT_eqb_eq. Qed.

End Accessors.

(** X1.  [getMappingValue] returns the value of the first entry whose key
    is a scalar with the text [key]: it answers [v] exactly when the node
    is a mapping and [v] follows such a key that no earlier entry
    matches. *)
Theorem getMappingValue_first_match (n : Node) (key : string) (v : Node) :
  Part001.getMappingValue (Some n) key = Some v <->
  Kind n = MappingNode /\
  exists pre k rest,
    Content n = pre ++ k :: v :: rest /\
    Nat.even (List.length pre) = true /\
    Kind k = ScalarNode /\ Value k = key /\
    forall k', In k' (Entries.keys pre) ->
               Kind k' = ScalarNode -> Value k' <> key.
Proof.
  unfold Part001.getMappingValue.
  destruct (negb (KindT_eqb (Kind n) MappingNode)) eqn:E.
  - split; [discriminate|]. intros [Hm _].
    apply mapping_test in Hm. congruence.
  - apply mapping_test in E. rewrite lookup_first. tauto.
Qed.

(** X2.  [getMappingValue] answers nil exactly when the node is no mapping
    or none of its keys is a scalar with the text [key]. *)
Theorem getMappingValue_nil (n : Node) (key : string) :
  Part001.getMappingValue (Some n) key = None <->
  Kind n <> MappingNode \/
  forall k, In k (Entries.keys (Content n)) ->
            Kind k = ScalarNode -> Value k <> key.
Proof.
  unfold Part001.getMappingValue.
  destruct (negb (KindT_eqb (Kind n) MappingNode)) eqn:E.
  - split; [|reflexivity]. intros _. left. intros Hm.
    apply mapping_test in Hm. congruence.
  - apply mapping_test in E. rewrite lookup_none. split; [now right|].
    intros [H | H]; [congruence | exact H].
Qed.

(** X3.  [findMapKey] of [main.go] returns the first entry whose key has
    the text [key], whatever the kind of the key; it answers nil exactly
    when the node is no mapping or no key has that text. *)
Theorem findMapKey_first_match (n : Node) (key : string) :
  (forall k v,
     MainGo.findMapKey (Some n) key = Some (k, v) <->
     Kind n = MappingNode /\
     exists pre rest,
       Content n = pre ++ k :: v :: rest /\
       Nat.even (List.length pre) = true /\
       Value k = key /\
       forall k', In k' (Entries.keys pre) -> Value k' <> key) /\
  (MainGo.findMapKey (Some n) key = None <->
   Kind n <> MappingNode \/
   forall k, In k (Entries.keys (Content n)) -> Value k <> key).
Proof.
  unfold MainGo.findMapKey.
  destruct (negb (KindT_eqb (Kind n) MappingNode)) eqn:E.
  - split.
    + intros k v. split; [discriminate|]. intros [Hm _].
      apply mapping_test in Hm. congruence.
    + split; [|reflexivity]. intros _. left. intros Hm.
      apply mapping_test in Hm. congruence.
  - apply mapping_test in E. split.
    + intros k v. rewrite find_first. tauto.
    + rewrite find_none. split; [now right|].
      intros [H | H]; [congruence | exact H].
Qed.

(** X4.  On a node whose keys are all scalars the two accessors find the
    same value for every key. *)
Theorem accessors_agree (n : Node) (key : string) :
  Entries.scalarKeys (Content n) = true ->
  MainGo.get n key = Part001.get n key.
Proof.
  intros H. unfold MainGo.get, Part001.get, MainGo.findMapKey,
    Part001.getMappingValue.
  destruct (negb (KindT_eqb (Kind n) MappingNode)); [reflexivity|].
  now apply find_lookup.
Qed.

Lemma accessors_agree_witness :
  Entries.scalarKeys (Content Build.goodPod) = true /\
  MainGo.get Build.goodPod "spec" = Part001.get Build.goodPod "spec".
Proof.
  split; [reflexivity|].
  apply (accessors_agree Build.goodPod "spec"). reflexivity.
Defined.

(** ** The closures of main.go only append *)

(** A loop of framed steps reports the concatenation of what each step
    reports on its own, in the order of the list. *)
Lemma fold_concat {A : Type} (step : Errors -> A -> Errors) (l : list A) :
  (forall x, framed (fun errors => step errors x)) ->
  forall errors,
    fold_left step l errors = errors ++ List.concat (map (step []) l).
Proof.
  intros Hstep. induction l as [|x l IH]; intros errors; simpl.
  - now rewrite app_nil_r.
  - rewrite IH. rewrite (Hstep x errors). now rewrite <- app_assoc.
Qed.

Section MainGoFrames.

Import MainGo.
Variable filename : string.

Lemma MainGo_checkPort_framed what v :
  framed (fun errors => checkPort what v filename errors).
Proof.
  intros errors. unfold checkPort, addError.
  destruct (strconv.Atoi (Value v)); split_if; try finish_framed;
    now rewrite app_nil_r.
Qed.

Lemma MainGo_checkProbePath_framed probeName h :
  framed (fun errors => checkProbePath filename errors probeName h).
Proof.
  intros errors. unfold checkProbePath, keyLine, addError.
  destruct (findMapKey (Some h) "path") as [[k v]|]; split_if;
    try finish_framed; now rewrite app_nil_r.
Qed.

Lemma MainGo_checkProbePort_framed probeName h :
  framed (fun errors => checkProbePort filename errors probeName h).
Proof.
  intros errors. unfold checkProbePort, keyLine, addError.
  destruct (findMapKey (Some h) "port") as [[k v]|]; [|finish_framed].
  apply MainGo_checkPort_framed.
Qed.

Lemma MainGo_validateProbe_framed probeName probeNode :
  framed (fun errors => validateProbe filename errors probeName probeNode).
Proof.
  intros errors. unfold validateProbe, addError.
  destruct (negb (KindT_eqb (Kind probeNode) MappingNode)); [finish_framed|].
  destruct (findMapKey (Some probeNode) "httpGet") as [[k h]|];
    [|now rewrite app_nil_r].
  destruct (negb (KindT_eqb (Kind h) MappingNode)); [finish_framed|].
  use_framed (MainGo_checkProbePort_framed probeName h).
  use_framed (MainGo_checkProbePath_framed probeName h).
  finish_framed.
Qed.

Lemma MainGo_checkCPU_framed resNode resType :
  framed (fun errors => checkCPU filename errors resNode resType).
Proof.
  intros errors. unfold checkCPU, keyLine, addError.
  destruct (findMapKey (Some resNode) "cpu") as [[k v]|]; [|finish_framed].
  destruct (strconv.Atoi (Value v)); split_if; try finish_framed;
    now rewrite app_nil_r.
Qed.

Lemma MainGo_checkMemory_framed resNode resType :
  framed (fun errors => checkMemory filename errors resNode resType).
Proof.
  intros errors. unfold checkMemory, keyLine, addError.
  destruct (findMapKey (Some resNode) "memory") as [[k v]|]; split_if;
    try finish_framed; now rewrite app_nil_r.
Qed.

Lemma MainGo_checkResourceType_framed resourcesNode resType :
  framed (fun errors => checkResourceType filename errors resourcesNode resType).
Proof.
  intros errors. unfold checkResourceType, addError.
  destruct (findMapKey (Some resourcesNode) resType) as [[k r]|];
    [|finish_framed].
  destruct (negb (KindT_eqb (Kind r) MappingNode)); [finish_framed|].
  use_framed (MainGo_checkMemory_framed r resType).
  use_framed (MainGo_checkCPU_framed r resType).
  finish_framed.
Qed.

Lemma MainGo_checkResourceValues_framed resourcesNode :
  framed (fun errors => checkResourceValues filename errors resourcesNode).
Proof.
  intros errors. unfold checkResourceValues, addError.
  destruct (negb (KindT_eqb (Kind resourcesNode) MappingNode));
    [finish_framed|].
  apply (framed_fold
           (fun errors resType =>
              checkResourceType filename errors resourcesNode resType)).
  intros x. apply MainGo_checkResourceType_framed.
Qed.

Lemma MainGo_checkProtocol_framed proto :
  framed (fun errors => checkProtocol filename errors proto).
Proof.
  intros errors. unfold checkProtocol, addError.
  destruct proto as [[k v]|]; split_if; try finish_framed;
    now rewrite app_nil_r.
Qed.

Lemma MainGo_validatePortItem_framed portItem :
  framed (fun errors => validatePortItem filename errors portItem).
Proof.
  intros errors. unfold validatePortItem, keyLine, addError.
  destruct (negb (KindT_eqb (Kind portItem) MappingNode)); [finish_framed|].
  use_framed (MainGo_checkProtocol_framed
                (findMapKey (Some portItem) "protocol")).
  destruct (findMapKey (Some portItem) "containerPort") as [[k v]|];
    [|finish_framed].
  use_framed (MainGo_checkPort_framed "containerPort" v).
  finish_framed.
Qed.

Lemma MainGo_checkName_framed container :
  framed (fun errors => checkName filename errors container).
Proof.
  intros errors. unfold checkName, keyLine, addError.
  destruct (findMapKey (Some container) "name") as [[k v]|]; split_if;
    try finish_framed; now rewrite app_nil_r.
Qed.

Lemma MainGo_checkImage_framed container :
  framed (fun errors => checkImage filename errors container).
Proof.
  intros errors. unfold checkImage, keyLine, addError.
  destruct (findMapKey (Some container) "image") as [[k v]|]; split_if;
    try finish_framed; now rewrite app_nil_r.
Qed.

Lemma MainGo_checkPorts_framed container :
  framed (fun errors => checkPorts filename errors container).
Proof.
  intros errors. unfold checkPorts, addError.
  destruct (findMapKey (Some container) "ports") as [[k p]|];
    [|now rewrite app_nil_r].
  destruct (negb (KindT_eqb (Kind p) SequenceNode)); [finish_framed|].
  apply (framed_fold
           (fun errors portItem => validatePortItem filename errors portItem)).
  intros x. apply MainGo_validatePortItem_framed.
Qed.

Lemma MainGo_checkProbe_framed probeName container :
  framed (fun errors => checkProbe filename errors probeName container).
Proof.
  intros errors. unfold checkProbe.
  destruct (findMapKey (Some container) probeName) as [[k p]|];
    [apply MainGo_validateProbe_framed | now rewrite app_nil_r].
Qed.

Lemma MainGo_validateContainerItem_framed container :
  framed (fun errors => validateContainerItem filename errors container).
Proof.
  intros errors. unfold validateContainerItem, addError.
  destruct (negb (KindT_eqb (Kind container) MappingNode)); [finish_framed|].
  assert (Hres : framed (fun errors =>
                           match findMapKey (Some container) "resources" with
                           | Some (_, resNode) =>
                               checkResourceValues filename errors resNode
                           | None => errors
                           end)).
  { intros e. destruct (findMapKey (Some container) "resources") as [[k r]|];
      [apply MainGo_checkResourceValues_framed | now rewrite app_nil_r]. }
  use_framed Hres.
  use_framed (MainGo_checkProbe_framed "livenessProbe" container).
  use_framed (MainGo_checkProbe_framed "readinessProbe" container).
  use_framed (MainGo_checkPorts_framed container).
  use_framed (MainGo_checkImage_framed container).
  use_framed (MainGo_checkName_framed container).
  finish_framed.
Qed.

Lemma MainGo_checkOS_framed specNode :
  framed (fun errors => checkOS filename errors specNode).
Proof.
  intros errors. unfold checkOS, addError.
  destruct (findMapKey (Some specNode) "os") as [[k v]|]; split_if;
    try finish_framed; now rewrite app_nil_r.
Qed.

Lemma MainGo_validateSpec_framed rootMap :
  framed (fun errors => validateSpec filename errors rootMap).
Proof.
  intros errors. unfold validateSpec, addError.
  destruct (findMapKey (Some rootMap) "spec") as [[k spec]|];
    [|finish_framed].
  destruct (negb (KindT_eqb (Kind spec) MappingNode)); [finish_framed|].
  use_framed (MainGo_checkOS_framed spec).
  destruct (findMapKey (Some spec) "containers") as [[kc cs]|];
    [|finish_framed].
  destruct (negb (KindT_eqb (Kind cs) SequenceNode)); [finish_framed|].
  destruct (List.length (Content cs) =? 0)%nat; [finish_framed|].
  use_framed (framed_fold
                (fun errors container =>
                   validateContainerItem filename errors container)
                (Content cs) MainGo_validateContainerItem_framed).
  finish_framed.
Qed.

Lemma MainGo_validateMetadata_framed rootMap :
  framed (fun errors => validateMetadata filename errors rootMap).
Proof.
  intros errors. unfold validateMetadata, addError.
  destruct (findMapKey (Some rootMap) "metadata") as [[k m]|];
    [|finish_framed].
  destruct (negb (KindT_eqb (Kind m) MappingNode)); [finish_framed|].
  destruct (findMapKey (Some m) "name") as [[kn n]|]; split_if;
    try finish_framed; now rewrite app_nil_r.
Qed.

End MainGoFrames.

Lemma nonempty_length {A : Type} (l : list A) :
  l <> [] -> (List.length l =? 0)%nat = false.
Proof. destruct l; [congruence | reflexivity]. Qed.

(** X5.  [validateDocument] only appends: the diagnostics that were
    collected before come first and unchanged, and what the document adds
    does not depend on them. *)
Theorem validateDocument_appends (filename : string) (doc : Node)
    (errors : Errors) :
  Part001.validateDocument doc filename errors
  = errors ++ Part001.validateDocument doc filename [].
Proof. apply validateDocument_framed. Qed.

(** X6.  In the full validator a [spec] with a non-empty list of
    containers reports what [os] reports, then what every container
    reports on its own, in the order of the list. *)
Theorem validateSpec_every_container (filename : string) (spec cs : Node)
    (errors : Errors) :
  Kind spec = MappingNode ->
  Part001.getMappingValue (Some spec) "containers" = Some cs ->
  Kind cs = SequenceNode ->
  Content cs <> [] ->
  Part001.validateSpec (Some spec) errors filename
  = errors
    ++ match Part001.getMappingValue (Some spec) "os" with
       | Some osNode => Part001.validateOS osNode [] filename
       | None => []
       end
    ++ List.concat
         (map (fun c => Part001.validateContainer c [] filename) (Content cs)).
Proof.
  intros Hspec Hcs Hseq Hne. unfold Part001.validateSpec.
  rewrite Hspec, Hcs, Hseq. cbn [KindT_eqb negb].
  rewrite (nonempty_length _ Hne).
  rewrite (fold_concat
             (fun errors cNode => Part001.validateContainer cNode errors filename)
             (Content cs) (validateContainer_framed filename)).
  destruct (Part001.getMappingValue (Some spec) "os") as [osNode|].
  - rewrite (validateOS_framed filename osNode errors).
    now rewrite <- app_assoc.
  - reflexivity.
Qed.

Lemma validateSpec_every_container_witness :
  let spec := Build.spec Build.goodImage "12" (Build.portEntry (Build.str 11 "80")) in
  exists cs,
    Part001.getMappingValue (Some spec) "containers" = Some cs /\
    Part001.validateSpec (Some spec) ["earlier"] "pod.yaml"
    = ["earlier"]
      ++ List.concat
           (map (fun c => Part001.validateContainer c [] "pod.yaml") (Content cs)).
Proof.
  intros spec.
  exists (Build.seq 8 [Build.container Build.goodImage "12"
                         (Build.portEntry (Build.str 11 "80"))]).
  split; [reflexivity|].
  apply (validateSpec_every_container "pod.yaml" spec
           (Build.seq 8 [Build.container Build.goodImage "12"
                           (Build.portEntry (Build.str 11 "80"))])
           ["earlier"]);
    [reflexivity | reflexivity | reflexivity | discriminate].
Defined.

(** X7.  In [main.go] a [spec] with a non-empty list of containers reports
    what the [os] check reports, then what every container reports on its
    own, in the order of the list. *)
Theorem main_go_every_container (filename : string)
    (rootMap k spec kc cs : Node) (errors : Errors) :
  MainGo.findMapKey (Some rootMap) "spec" = Some (k, spec) ->
  Kind spec = MappingNode ->
  MainGo.findMapKey (Some spec) "containers" = Some (kc, cs) ->
  Kind cs = SequenceNode ->
  Content cs <> [] ->
  MainGo.validateSpec filename errors rootMap
  = errors
    ++ MainGo.checkOS filename [] spec
    ++ List.concat
         (map (MainGo.validateContainerItem filename []) (Content cs)).
Proof.
  intros Hs Hspec Hcs Hseq Hne. unfold MainGo.validateSpec.
  rewrite Hs, Hspec, Hcs, Hseq. cbn [KindT_eqb negb].
  rewrite (nonempty_length _ Hne).
  rewrite (fold_concat
             (fun errors container =>
                MainGo.validateContainerItem filename errors container)
             (Content cs) (MainGo_validateContainerItem_framed filename)).
  rewrite (MainGo_checkOS_framed filename spec errors).
  now rewrite <- app_assoc.
Qed.

Lemma main_go_every_container_witness :
  let spec := Build.spec "nginx" "12" (Build.portEntry (Build.str 11 "x")) in
  let root := Build.pod "nginx" "12" (Build.portEntry (Build.str 11 "x")) in
  MainGo.validateSpec "pod.yaml" ["earlier"] root
  = ["earlier"]
    ++ MainGo.checkOS "pod.yaml" [] spec
    ++ List.concat
         (map (MainGo.validateContainerItem "pod.yaml" [])
            [Build.container "nginx" "12" (Build.portEntry (Build.str 11 "x"))]).
Proof.
  intros spec root.
  apply (main_go_every_container "pod.yaml" root (Build.str 5 "spec") spec
           (Build.str 7 "containers")
           (Build.seq 8 [Build.container "nginx" "12"
                           (Build.portEntry (Build.str 11 "x"))])
           ["earlier"]);
    [reflexivity | reflexivity | reflexivity | reflexivity | discriminate].
Defined.

(** X8.  The list of ports of the full validator: a sequence reports what
    every entry reports on its own, in the order of the list; anything
    else is one diagnostic. *)
Theorem validatePorts_every_entry (filename : string) (portsNode : Node)
    (errors : Errors) :
  Part001.validatePorts portsNode errors filename
  = errors
    ++ (if KindT_eqb (Kind portsNode) SequenceNode then
          List.concat
            (map (fun e => Part001.validatePortEntry e [] filename)
               (Content portsNode))
        else [Part001.at_line filename portsNode "ports must be array"]).
Proof.
  unfold Part001.validatePorts.
  destruct (KindT_eqb (Kind portsNode) SequenceNode); cbn [negb].
  - apply (fold_concat
             (fun errors e => Part001.validatePortEntry e errors filename)).
    apply validatePortEntry_framed.
  - reflexivity.
Qed.

(** ** The documents of a file and the exit status *)

(** X9.  The errors that the full validator's [main] collects from the
    parsed root: one fixed line when the root has no content; otherwise
    what each document of [root.Content] reports on its own, in order. *)
Theorem collect_all_documents (filename : string) (root : Node) :
  Part001.collect filename root
  = match Content root with
    | [] => [(filename ++ ": YAML content is empty or invalid")%string]
    | docs =>
        List.concat
          (map (fun doc => Part001.validateDocument doc filename []) docs)
    end.
Proof.
  unfold Part001.collect. destruct (Content root) as [|d docs] eqn:E.
  - reflexivity.
  - change ((List.length (d :: docs) =? 0)%nat) with false. cbv iota.
    apply (fold_concat
             (fun errors doc => Part001.validateDocument doc filename errors)
             (d :: docs)).
    intros x. apply validateDocument_framed.
Qed.

Lemma status_of_errors (errors : Errors) :
  let r := if (0 <? List.length errors)%nat then (errors, 1) else ([], 0) in
  (snd r = 0 /\ fst r = []) \/ (snd r = 1 /\ fst r <> []).
Proof.
  destruct errors; simpl; [left | right]; split; auto; discriminate.
Qed.

(** X10.  Each of the three programs ends with status 0 and no output, or
    with status 1 and at least one line of output. *)
Theorem exit_status (filename : string) (docs : list Node) :
  Forall (fun r : list string * Z =>
            (snd r = 0 /\ fst r = []) \/ (snd r = 1 /\ fst r <> []))
    [Part001.main filename docs;
     MainGo.main filename docs;
     Part000.main filename docs].
Proof.
  apply Forall_cons; [|apply Forall_cons; [|apply Forall_cons; [|constructor]]].
  - unfold Part001.main. apply status_of_errors.
  - unfold MainGo.main.
    match goal with
    | |- context [if negb ?b then _ else _] => destruct b
    end; cbn [negb]; [apply status_of_errors|].
    right. split; [reflexivity | discriminate].
  - unfold Part000.main.
    match goal with
    | |- context [if negb ?b then _ else _] => destruct b
    end; cbn [negb]; [apply status_of_errors|].
    right. split; [reflexivity | discriminate].
Qed.

(** X11.  A stream without a document: each program writes its one line
    for an unusable root and ends with status 1. *)
Theorem empty_stream (filename : string) :
  Part001.main filename []
  = ([(filename ++ ": YAML content is empty or invalid")%string], 1) /\
  MainGo.main filename []
  = ([(filename ++ ":1 YAML content is not a mapping")%string], 1) /\
  Part000.main filename []
  = ([(filename ++ ": root YAML node is not a mapping")%string], 1).
Proof. repeat split. Qed.

(** X12.  A first document whose root is no mapping: each program writes
    one line and ends with status 1, and nothing else of the document is
    looked at. *)
Theorem root_not_a_mapping (filename : string) (doc : Node)
    (others : list Node) :
  Kind doc <> MappingNode ->
  Part001.main filename (doc :: others)
  = ([(filename ++ ":" ++ strconv.Itoa (Line doc) ++
       " top-level document must be a mapping (object)")%string], 1) /\
  MainGo.main filename (doc :: others)
  = ([(filename ++ ":1 YAML content is not a mapping")%string], 1) /\
  Part000.main filename (doc :: others)
  = ([(filename ++ ": root YAML node is not a mapping")%string], 1).
Proof.
  intros H. apply KindT_neq in H.
  unfold Part001.main, Part001.collect, MainGo.main, Part000.main,
    Part001.validateDocument.
  cbn [Unmarshal Content Kind KindT_eqb andb List.length Nat.eqb Nat.ltb
       Nat.leb fold_left].
  rewrite H. cbn [negb]. repeat split.
Qed.

Lemma root_not_a_mapping_witness :
  Part001.main "pod.yaml" [Build.seq 1 [Build.goodPod]]
  = (["pod.yaml:1 top-level document must be a mapping (object)"], 1) /\
  MainGo.main "pod.yaml" [Build.seq 1 [Build.goodPod]]
  = (["pod.yaml:1 YAML content is not a mapping"], 1) /\
  Part000.main "pod.yaml" [Build.seq 1 [Build.goodPod]]
  = (["pod.yaml: root YAML node is not a mapping"], 1).
Proof.
  apply (root_not_a_mapping "pod.yaml" (Build.seq 1 [Build.goodPod]) []).
  discriminate.
Defined.

(** X13.  The order of the diagnostics of one document in the full
    validator: first the "is required" lines of the four top-level fields,
    in the order apiVersion, kind, metadata, spec; then what the values of
    apiVersion, kind, metadata and spec report, in that order. *)
Theorem validateDocument_order (filename : string) (doc : Node)
    (errors : Errors) :
  Kind doc = MappingNode ->
  let value := Part001.getMappingValue (Some doc) in
  let missing := fun name : string =>
    match value name with
    | None => [(filename ++ ": " ++ name ++ " is required")%string]
    | Some _ => []
    end in
  Part001.validateDocument doc filename errors
  = errors
    ++ missing "apiVersion" ++ missing "kind"
    ++ missing "metadata" ++ missing "spec"
    ++ Part001.validateAPIVersion (value "apiVersion") [] filename
    ++ Part001.validateKind (value "kind") [] filename
    ++ Part001.validateMetadata (value "metadata") [] filename
    ++ Part001.validateSpec (value "spec") [] filename.
Proof.
  intros Hdoc value missing. subst missing value. cbv beta.
  unfold Part001.validateDocument, Part001.validateMappingField.
  rewrite Hdoc. cbn [KindT_eqb negb].
  set (d := Some doc).
  rewrite (validateSpec_framed filename (Part001.getMappingValue d "spec")).
  rewrite (validateMetadata_framed filename
             (Part001.getMappingValue d "metadata")).
  rewrite (validateKind_framed filename (Part001.getMappingValue d "kind")).
  rewrite (validateAPIVersion_framed filename
             (Part001.getMappingValue d "apiVersion")).
  destruct (Part001.getMappingValue d "apiVersion"),
    (Part001.getMappingValue d "kind"),
    (Part001.getMappingValue d "metadata"),
    (Part001.getMappingValue d "spec");
    unfold append; cbn [app]; rewrite <- ?app_assoc; cbn [app];
    reflexivity.
Qed.

Lemma validateDocument_order_witness :
  Part001.validateDocument Build.podWithoutMetadata "pod.yaml" ["earlier"]
  = ["earlier"; "pod.yaml: metadata is required"].
Proof.
  apply (validateDocument_order "pod.yaml" Build.podWithoutMetadata
           ["earlier"]).
  reflexivity.
Defined.

(** X14.  The order of the diagnostics of one container in the full
    validator: first the "is required" lines of name, image and resources;
    then what name, image, ports, readinessProbe, livenessProbe and
    resources report, in that order. *)
Theorem validateContainer_order (filename : string) (c : Node)
    (errors : Errors) :
  Kind c = MappingNode ->
  let value := Part001.getMappingValue (Some c) in
  let missing := fun name : string =>
    match value name with
    | None => [(filename ++ ": " ++ name ++ " is required")%string]
    | Some _ => []
    end in
  Part001.validateContainer c errors filename
  = errors
    ++ missing "name" ++ missing "image" ++ missing "resources"
    ++ Part001.checkName (value "name") [] filename
    ++ Part001.checkImage (value "image") [] filename
    ++ match value "ports" with
       | Some portsNode => Part001.validatePorts portsNode [] filename
       | None => []
       end
    ++ Part001.checkProbe "readinessProbe" (value "readinessProbe") [] filename
    ++ Part001.checkProbe "livenessProbe" (value "livenessProbe") [] filename
    ++ Part001.checkResources (value "resources") [] filename.
Proof.
  intros Hc value missing. subst missing value. cbv beta.
  unfold Part001.validateContainer, Part001.validateMappingField.
  rewrite Hc. cbn [KindT_eqb negb].
  set (n := Some c).
  rewrite (checkResources_framed filename
             (Part001.getMappingValue n "resources")).
  rewrite (checkProbe_framed filename "livenessProbe"
             (Part001.getMappingValue n "livenessProbe")).
  rewrite (checkProbe_framed filename "readinessProbe"
             (Part001.getMappingValue n "readinessProbe")).
  rewrite (portsBlock_framed filename (Part001.getMappingValue n "ports")).
  rewrite (checkImage_framed filename (Part001.getMappingValue n "image")).
  rewrite (checkName_framed filename (Part001.getMappingValue n "name")).
  destruct (Part001.getMappingValue n "name"),
    (Part001.getMappingValue n "image"),
    (Part001.getMappingValue n "resources"),
    (Part001.getMappingValue n "ports");
    unfold append; cbn [app]; rewrite <- ?app_assoc; cbn [app];
    reflexivity.
Qed.

Lemma validateContainer_order_witness :
  Part001.validateContainer
    (Build.map 8 [Build.str 8 "name"; Build.str 8 "Web";
                  Build.str 9 "image"; Build.str 9 "nginx"])
    ["earlier"] "pod.yaml"
  = ["earlier";
     "pod.yaml: resources is required";
     "pod.yaml:8 name has invalid format 'Web'";
     "pod.yaml:9 image has invalid format 'nginx'"].
Proof.
  apply (validateContainer_order "pod.yaml"
           (Build.map 8 [Build.str 8 "name"; Build.str 8 "Web";
                         Build.str 9 "image"; Build.str 9 "nginx"])
           ["earlier"]).
  reflexivity.
Defined.

(** X15.  The order of the diagnostics of [main.go]: the "is required"
    line of apiVersion, then that of kind, both at line 1 and for an absent
    key only, then what the metadata block and the spec block report.  The
    values of apiVersion and kind are never looked at. *)
Theorem main_go_validate_order (filename : string) (rootMap : Node) :
  let missing := fun key : string =>
    match MainGo.findMapKey (Some rootMap) key with
    | None => [(filename ++ ":1 " ++ key ++ " is required")%string]
    | Some _ => []
    end in
  MainGo.validate filename rootMap
  = missing "apiVersion" ++ missing "kind"
    ++ MainGo.validateMetadata filename [] rootMap
    ++ MainGo.validateSpec filename [] rootMap.
Proof.
  intros missing. subst missing. cbv beta. unfold MainGo.validate.
  rewrite (MainGo_validateSpec_framed filename rootMap).
  rewrite (MainGo_validateMetadata_framed filename rootMap).
  destruct (MainGo.findMapKey (Some rootMap) "apiVersion"),
    (MainGo.findMapKey (Some rootMap) "kind");
    unfold MainGo.addError, append; cbn [app]; rewrite <- ?app_assoc;
    reflexivity.
Qed.

(** ** The reduced validator *)

Section Part000Facts.

Import Part000.
Variable filename : string.

Lemma Part000_portLoop_framed content :
  framed (fun errs => portLoop content filename errs).
Proof.
  induction content as [| x | k v rest IH] using entries_ind; intros errs;
    cbn [portLoop]; try now rewrite app_nil_r.
  use_framed IH.
  destruct (strconv.Atoi (Value v)); split_if; try finish_framed;
    now rewrite app_nil_r.
Qed.

Lemma Part000_httpGetLoop_framed content :
  framed (fun errs => httpGetLoop content filename errs).
Proof.
  induction content as [| x | k v rest IH] using entries_ind; intros errs;
    cbn [httpGetLoop]; try now rewrite app_nil_r.
  use_framed IH. use_framed (Part000_portLoop_framed (Content v)).
  split_if; try finish_framed; now rewrite app_nil_r.
Qed.

Lemma Part000_validateProbe_framed probeNode :
  framed (fun errs => validateProbe filename errs probeNode).
Proof.
  intros errs. unfold validateProbe.
  destruct probeNode as [p|]; [|now rewrite app_nil_r].
  destruct (negb (KindT_eqb (Kind p) MappingNode)); [now rewrite app_nil_r|].
  apply Part000_httpGetLoop_framed.
Qed.

Lemma Part000_cpuLoop_framed content :
  framed (fun errs => cpuLoop content filename errs).
Proof.
  induction content as [| x | k v rest IH] using entries_ind; intros errs;
    cbn [cpuLoop]; try now rewrite app_nil_r.
  use_framed IH. split_if; try finish_framed; now rewrite app_nil_r.
Qed.

Lemma Part000_requestsLoop_framed content :
  framed (fun errs => requestsLoop content filename errs).
Proof.
  induction content as [| x | k v rest IH] using entries_ind; intros errs;
    cbn [requestsLoop]; try now rewrite app_nil_r.
  use_framed IH. use_framed (Part000_cpuLoop_framed (Content v)).
  split_if; try finish_framed; now rewrite app_nil_r.
Qed.

Lemma Part000_checkResourceValues_framed resourcesNode :
  framed (fun errs => checkResourceValues filename errs resourcesNode).
Proof.
  intros errs. unfold checkResourceValues.
  destruct resourcesNode as [r|]; [|now rewrite app_nil_r].
  destruct (negb (KindT_eqb (Kind r) MappingNode)); [now rewrite app_nil_r|].
  apply Part000_requestsLoop_framed.
Qed.

Lemma Part000_containerLoop_framed content :
  framed (fun errs => containerLoop content filename errs).
Proof.
  induction content as [| x | k v rest IH] using entries_ind; intros errs;
    cbn [containerLoop]; try now rewrite app_nil_r.
  use_framed IH.
  use_framed (Part000_checkResourceValues_framed (Some v)).
  use_framed (Part000_validateProbe_framed (Some v)).
  split_if; try finish_framed; now rewrite app_nil_r.
Qed.

(** One iteration of the loop over the containers. *)
Lemma Part000_container_framed c :
  framed (fun errs =>
            if negb (KindT_eqb (Kind c) MappingNode) then errs
            else containerLoop (Content c) filename errs).
Proof.
  intros errs.
  destruct (negb (KindT_eqb (Kind c) MappingNode)); [now rewrite app_nil_r|].
  apply Part000_containerLoop_framed.
Qed.

Lemma findSpec_none content :
  (forall k, In k (Entries.keys content) -> Value k <> "spec"%string) ->
  findSpec content = None.
Proof.
  induction content as [| x | k v rest IH] using entries_ind; intros H;
    cbn [findSpec]; auto.
  rewrite eqb_neq_false by (apply H; now left).
  apply IH. intros k' Hin. apply H. now right.
Qed.

End Part000Facts.

(** X16.  The port check of the reduced validator on an entry [port] whose
    value is a scalar with the integer tag is the port check of the full
    validator: the same line is reported, or none. *)
Theorem reduced_port_check (filename : string) (k v : Node)
    (rest : list Node) (errs : Errors) :
  Value k = "port"%string -> Kind v = ScalarNode -> Tag v = "!!int"%string ->
  Part000.portLoop (k :: v :: rest) filename errs
  = Part000.portLoop rest filename
      (Part001.checkProbePort (Some v) errs filename).
Proof.
  intros Hk Hv Ht. cbn [Part000.portLoop].
  unfold Part001.checkProbePort, Part001.checkPortValue.
  rewrite Hk, Hv, Ht. cbn [String.eqb Ascii.eqb Bool.eqb KindT_eqb andb negb].
  destruct (String.eqb (Value v) "") eqn:E; cbn [negb].
  - apply String.eqb_eq in E. rewrite E. reflexivity.
  - destruct (strconv.Atoi (Value v)) as [port|]; [|reflexivity].
    destruct ((port <? 1) || (port >? 65535)); reflexivity.
Qed.

Lemma reduced_port_check_witness :
  Part000.portLoop [Build.str 16 "port"; Build.int 16 "70000"] "pod.yaml" []
  = ["pod.yaml:16 port value out of range"%string] /\
  Part001.checkProbePort (Some (Build.int 16 "70000")) [] "pod.yaml"
  = ["pod.yaml:16 port value out of range"%string].
Proof.
  split; [|reflexivity].
  apply (reduced_port_check "pod.yaml" (Build.str 16 "port")
           (Build.int 16 "70000") [] []); reflexivity.
Defined.

(** X17.  The reduced validator reports the value of an entry exactly
    when the key is [port], the value is a scalar and its text converts to
    a number outside 1..65535, whatever the tag of the value; a text that
    is no number (a named port) is never reported. *)
Theorem reduced_port_reported (filename : string) (k v : Node)
    (errs : Errors) :
  Part000.portLoop [k; v] filename errs <> errs <->
  Value k = "port"%string /\ Kind v = ScalarNode /\
  exists p, strconv.Atoi (Value v) = Some p /\ (p < 1 \/ 65535 < p).
Proof.
  cbn [Part000.portLoop].
  destruct (String.eqb (Value k) "port") eqn:Ek; cbn [andb].
  2:{ apply String.eqb_neq in Ek.
      split; [intros H; now contradiction H | tauto]. }
  apply String.eqb_eq in Ek.
  destruct (KindT_eqb (Kind v) ScalarNode) eqn:Ev.
  2:{ split; [intros H; now contradiction H|].
      intros (_ & Hs & _). apply KindT_eqb_eq in Hs. congruence. }
  apply KindT_eqb_eq in Ev.
  destruct (String.eqb (Value v) "") eqn:E; cbn [negb].
  - apply String.eqb_eq in E. split; [intros H; now contradiction H|].
    intros (_ & _ & p & Hp & _). rewrite E in Hp. discriminate.
  - destruct (strconv.Atoi (Value v)) as [p|] eqn:Ea.
    + destruct ((p <? 1) || (p >? 65535)) eqn:Er.
      * split; [|intros _; apply append_neq].
        intros _. repeat split; auto. exists p. split; auto.
        apply orb_true_iff in Er. rewrite Z.gtb_ltb, !Z.ltb_lt in Er. lia.
      * split; [intros H; now contradiction H|].
        intros (_ & _ & q & Hq & Hr). injection Hq as <-.
        rewrite (out_of_range_true _ Hr) in Er. discriminate.
    + split; [intros H; now contradiction H|].
      intros (_ & _ & q & Hq & _). discriminate.
Qed.

(** X18.  The cpu check of the reduced validator on an entry [cpu] whose
    value is a scalar with the string tag reports the line that the full
    validator reports for that value. *)
Theorem reduced_cpu_check (filename : string) (k v : Node)
    (rest : list Node) (errs : Errors) :
  Value k = "cpu"%string -> Kind v = ScalarNode -> Tag v = "!!str"%string ->
  Part000.cpuLoop (k :: v :: rest) filename errs
  = Part000.cpuLoop rest filename (Part001.checkCPU (Some v) errs filename).
Proof.
  intros Hk Hv Ht. cbn [Part000.cpuLoop]. unfold Part001.checkCPU.
  rewrite Hk, Hv, Ht. reflexivity.
Qed.

Lemma reduced_cpu_check_witness :
  Part000.cpuLoop [Build.str 22 "cpu"; Build.str 22 "1"] "pod.yaml" []
  = ["pod.yaml:22 cpu must be int"%string] /\
  Part001.checkCPU (Some (Build.str 22 "1")) [] "pod.yaml"
  = ["pod.yaml:22 cpu must be int"%string].
Proof.
  split; [|reflexivity].
  apply (reduced_cpu_check "pod.yaml" (Build.str 22 "cpu")
           (Build.str 22 "1") [] []); reflexivity.
Defined.

(** X19.  The os check of the reduced validator on an entry [os] whose
    value is a scalar with a non-empty text is the os check of the full
    validator. *)
Theorem reduced_os_check (filename : string) (k v : Node)
    (rest : list Node) (errs : Errors) :
  Value k = "os"%string -> Kind v = ScalarNode -> Value v <> ""%string ->
  Part000.osLoop (k :: v :: rest) filename errs
  = Part000.osLoop rest filename (Part001.validateOS v errs filename).
Proof.
  intros Hk Hv Hne. cbn [Part000.osLoop]. unfold Part001.validateOS.
  rewrite Hk, Hv. cbn [String.eqb Ascii.eqb Bool.eqb KindT_eqb andb negb].
  rewrite (eqb_neq_false _ _ Hne). cbn [negb].
  destruct (negb (String.eqb (Value v) "linux")
            && negb (String.eqb (Value v) "windows")); reflexivity.
Qed.

Lemma reduced_os_check_witness :
  Part000.osLoop [Build.str 6 "os"; Build.str 6 "macos"] "pod.yaml" []
  = ["pod.yaml:6 os has unsupported value 'macos'"%string] /\
  Part001.validateOS (Build.str 6 "macos") [] "pod.yaml"
  = ["pod.yaml:6 os has unsupported value 'macos'"%string].
Proof.
  split; [|reflexivity].
  apply (reduced_os_check "pod.yaml" (Build.str 6 "os")
           (Build.str 6 "macos") [] []);
    [reflexivity | reflexivity | discriminate].
Defined.

(** X20.  The loop of the reduced validator over the containers reports
    what every container reports on its own, in the order of the list; a
    container that is no mapping is passed over without a diagnostic. *)
Theorem reduced_every_container (filename : string) (containers : list Node)
    (errs : Errors) :
  Part000.containerList containers filename errs
  = errs
    ++ List.concat
         (map (fun c =>
                 if KindT_eqb (Kind c) MappingNode
                 then Part000.containerLoop (Content c) filename []
                 else [])
            containers).
Proof.
  unfold Part000.containerList.
  rewrite (fold_concat
             (fun errs c =>
                if negb (KindT_eqb (Kind c) MappingNode) then errs
                else Part000.containerLoop (Content c) filename errs)
             containers (Part000_container_framed filename)).
  f_equal. f_equal. apply map_ext. intros c.
  now destruct (KindT_eqb (Kind c) MappingNode).
Qed.

(** X21.  The reduced validator looks at nothing outside [spec]: a root
    mapping without a key [spec] gives no output and status 0. *)
Theorem reduced_without_spec (filename : string) (doc : Node)
    (others : list Node) :
  Kind doc = MappingNode ->
  (forall k, In k (Entries.keys (Content doc)) -> Value k <> "spec"%string) ->
  Part000.main filename (doc :: others) = ([], 0).
Proof.
  intros Hdoc Hkeys. unfold Part000.main, Part000.validate.
  cbn [Unmarshal Content Kind KindT_eqb andb List.length Nat.ltb Nat.leb].
  rewrite Hdoc. cbn [KindT_eqb negb].
  now rewrite (findSpec_none _ Hkeys).
Qed.

Lemma reduced_without_spec_witness :
  Part000.main "pod.yaml" [Build.map 1 [Build.str 1 "kind"; Build.int 1 "7"]]
  = ([], 0).
Proof.
  apply (reduced_without_spec "pod.yaml"
           (Build.map 1 [Build.str 1 "kind"; Build.int 1 "7"]) []).
  - reflexivity.
  - intros k [<- | []]. discriminate.
Defined.

(** ** The name pattern *)

Section SnakeCase.

Import regexp.

Lemma lang_Chr (c : ascii) (s : string) :
  lang (Chr c) s <-> s = String c "".
Proof.
  split.
  - intros H. inversion H; subst.
    unfold inRange in *.
    match goal with
    | [ Hr : _ && _ = true |- _ ] => apply andb_prop in Hr as [Ha Hb]
    end.
    apply Nat.leb_le in Ha, Hb.
    assert (E : nat_of_ascii c0 = nat_of_ascii c) by lia.
    apply (f_equal ascii_of_nat) in E.
    rewrite !ascii_nat_embedding in E. now subst.
  - intros ->. constructor. unfold inRange. now rewrite Nat.leb_refl.
Qed.

Lemma lang_lowerAlnum (s : string) :
  lang lowerAlnum s <->
  exists c, s = String c "" /\ Entries.lowerAlnumChar c = true.
Proof.
  unfold Entries.lowerAlnumChar. split.
  - intros H. inversion H; subst;
      match goal with
      | [ H1 : lang (Range _ _) _ |- _ ] => inversion H1; subst
      end;
      eexists; split; [reflexivity | | reflexivity | ];
      apply orb_true_iff; [now left | now right].
  - intros (c & -> & Hc). apply orb_true_iff in Hc as [Hc | Hc].
    + apply lang_Alt_l. now constructor.
    + apply lang_Alt_r. now constructor.
Qed.

Lemma lang_Star_lowerAlnum (s : string) :
  lang (Star lowerAlnum) s <->
  forall c, In c (list_ascii_of_string s) -> Entries.lowerAlnumChar c = true.
Proof.
  split.
  - intros H. remember (Star lowerAlnum) as r eqn:E.
    induction H; try discriminate.
    + intros x [].
    + injection E as ->. specialize (IHlang2 eq_refl).
      apply lang_lowerAlnum in H as (c & -> & Hc).
      intros x [<- | Hx]; [exact Hc | now apply IHlang2].
  - induction s as [|c s IH]; intros H.
    + constructor.
    + change (String c s) with (String c "" ++ s)%string.
      apply lang_Star_cons.
      * apply lang_lowerAlnum. exists c. split; [reflexivity|].
        apply H. now left.
      * apply IH. intros x Hx. apply H. now right.
Qed.

Lemma lang_segment (s : string) :
  lang (Plus lowerAlnum) s <-> Entries.segment s.
Proof.
  unfold Entries.segment. split.
  - intros H. inversion H; subst.
    match goal with
    | [ H1 : lang lowerAlnum _, H2 : lang (Star lowerAlnum) _ |- _ ] =>
        apply lang_lowerAlnum in H1 as (c & -> & Hc);
        pose proof (proj1 (lang_Star_lowerAlnum _) H2) as Hall
    end.
    split; [discriminate|].
    intros x [<- | Hx]; [exact Hc | now apply Hall].
  - intros [Hne H]. destruct s as [|c s]; [congruence|].
    change (String c s) with (String c "" ++ s)%string. constructor.
    + apply lang_lowerAlnum. exists c. split; [reflexivity|].
      apply H. now left.
    + apply lang_Star_lowerAlnum. intros x Hx. apply H. now right.
Qed.

Lemma lang_joined (s : string) :
  lang (Star (Cat (Chr "_") (Plus lowerAlnum))) s <->
  exists rest, s = Entries.joined rest /\ Forall Entries.segment rest.
Proof.
  split.
  - intros H. remember (Star (Cat (Chr "_") (Plus lowerAlnum))) as r eqn:E.
    induction H; try discriminate.
    + exists []. split; [reflexivity | constructor].
    + injection E as ->. destruct (IHlang2 eq_refl) as (rest & -> & Hrest).
      inversion H; subst.
      match goal with
      | [ H1 : lang (Chr _) _, H2 : lang (Plus lowerAlnum) _ |- _ ] =>
          apply lang_Chr in H1; apply lang_segment in H2; subst
      end.
      match goal with
      | [ Hs : Entries.segment ?seg |- _ ] => exists (seg :: rest)
      end.
      split; [|now constructor].
      reflexivity.
  - intros (rest & -> & Hrest). induction Hrest as [|seg rest Hseg _ IH].
    + constructor.
    + cbn [Entries.joined].
      replace ("_" ++ seg ++ Entries.joined rest)%string
        with (("_" ++ seg) ++ Entries.joined rest)%string by reflexivity.
      apply lang_Star_cons; [|exact IH].
      constructor; [now apply lang_Chr | now apply lang_segment].
Qed.

(** The name pattern of both validators matches exactly the runs of
    lowercase letters and digits joined by single underscores. *)
Lemma snakeCase_pattern (s : string) :
  MatchString snakeCase s = true <-> Entries.snakeText s.
Proof.
  rewrite MatchString_lang. unfold snakeCase, Entries.snakeText. split.
  - intros H. inversion H; subst.
    match goal with
    | [ H1 : lang (Plus lowerAlnum) _, H2 : lang (Star _) _ |- _ ] =>
        apply lang_segment in H1;
        apply lang_joined in H2 as (rest & -> & Hrest)
    end.
    now exists s1, rest.
  - intros (first & rest & -> & Hfirst & Hrest).
    constructor; [now apply lang_segment|].
    apply lang_joined. now exists rest.
Qed.

Lemma snakeText_nonempty (s : string) : Entries.snakeText s -> s <> ""%string.
Proof.
  intros (first & rest & -> & [Hne _] & _) E.
  apply string_app_eq_nil in E as [E _]. contradiction.
Qed.

End SnakeCase.

(** X22.  The name of a container passes in both validators exactly when
    it is made of non-empty runs of lowercase letters and digits joined by
    single underscores. *)
Theorem container_name_rule (filename : string) (errors : Errors)
    (container k n : Node) :
  Kind n = ScalarNode ->
  MainGo.findMapKey (Some container) "name" = Some (k, n) ->
  (Part001.checkName (Some n) errors filename = errors <->
   Entries.snakeText (Value n)) /\
  (MainGo.checkName filename errors container = errors <->
   Entries.snakeText (Value n)).
Proof.
  intros Hn Hfind. split.
  - unfold Part001.checkName. rewrite Hn. cbn [KindT_eqb negb].
    destruct (regexp.MatchString regexp.snakeCase (Value n)) eqn:E;
      cbn [negb].
    + apply self_eq_iff. now apply snakeCase_pattern.
    + apply append_eq_self_iff. intros H. apply snakeCase_pattern in H.
      congruence.
  - unfold MainGo.checkName, MainGo.keyLine, MainGo.addError.
    rewrite Hfind.
    destruct (String.eqb (Value n) "") eqn:Ee.
    + apply String.eqb_eq in Ee. apply append_eq_self_iff.
      intros H. now apply snakeText_nonempty in H.
    + destruct (regexp.MatchString regexp.snakeCase (Value n)) eqn:E;
        cbn [negb].
      * apply self_eq_iff. now apply snakeCase_pattern.
      * apply append_eq_self_iff. intros H. apply snakeCase_pattern in H.
        congruence.
Qed.

Lemma container_name_rule_witness :
  Entries.snakeText "web_server" /\
  ~ Entries.snakeText "web__server".
Proof.
  pose (good := Build.map 8 [Build.str 8 "name"; Build.str 8 "web_server"]).
  pose (bad := Build.map 8 [Build.str 8 "name"; Build.str 8 "web__server"]).
  split.
  - apply (proj1 (container_name_rule "pod.yaml" [] good (Build.str 8 "name")
                    (Build.str 8 "web_server") eq_refl eq_refl)).
    reflexivity.
  - intros H.
    apply (proj1 (container_name_rule "pod.yaml" [] bad (Build.str 8 "name")
                    (Build.str 8 "web__server") eq_refl eq_refl)) in H.
    discriminate H.
Defined.

(** ** The cpu quantity *)

(** X23.  The cpu value of a resource block.  The full validator passes a
    scalar exactly when it has the integer tag and its text, if it
    converts, is not negative; [main.go] passes it exactly when its text
    converts to a number that is not negative, whatever the tag. *)
Theorem cpu_rule (filename : string) (errors : Errors)
    (resNode k n : Node) (resType : string) :
  Kind n = ScalarNode ->
  MainGo.findMapKey (Some resNode) "cpu" = Some (k, n) ->
  (Part001.checkCPU (Some n) errors filename = errors <->
   Tag n = "!!int"%string /\
   forall v, strconv.Atoi (Value n) = Some v -> 0 <= v) /\
  (MainGo.checkCPU filename errors resNode resType = errors <->
   exists v, strconv.Atoi (Value n) = Some v /\ 0 <= v).
Proof.
  intros Hn Hfind. split.
  - unfold Part001.checkCPU. rewrite Hn. cbn [KindT_eqb negb].
    destruct (String.eqb (Tag n) "!!int") eqn:Et; cbn [negb].
    + apply String.eqb_eq in Et.
      destruct (strconv.Atoi (Value n)) as [v|].
      * destruct (Z.ltb_spec v 0).
        -- apply append_eq_self_iff. intros [_ H0].
           specialize (H0 v eq_refl). lia.
        -- apply self_eq_iff. split; [exact Et|]. now intros v' [= <-].
      * apply self_eq_iff. split; [exact Et | discriminate].
    + apply String.eqb_neq in Et. apply append_eq_self_iff. tauto.
  - unfold MainGo.checkCPU, MainGo.keyLine, MainGo.addError. rewrite Hfind.
    destruct (String.eqb (Value n) "") eqn:Ee.
    + apply String.eqb_eq in Ee. apply append_eq_self_iff.
      intros (v & Hv & _). rewrite Ee in Hv. discriminate.
    + destruct (strconv.Atoi (Value n)) as [v|].
      * destruct (Z.ltb_spec v 0).
        -- apply append_eq_self_iff. intros (v' & [= <-] & H0). lia.
        -- apply self_eq_iff. now exists v.
      * apply append_eq_self_iff. intros (v' & Hv & _). discriminate.
Qed.

Lemma cpu_rule_witness :
  Part001.checkCPU (Some (Build.str 19 "2")) [] "pod.yaml" <> [] /\
  MainGo.checkCPU "pod.yaml" []
    (Build.map 19 [Build.str 19 "cpu"; Build.str 19 "2"]) "limits" = [].
Proof.
  pose (res := Build.map 19 [Build.str 19 "cpu"; Build.str 19 "2"]).
  pose (R := cpu_rule "pod.yaml" [] res (Build.str 19 "cpu")
               (Build.str 19 "2") "limits" eq_refl eq_refl).
  split.
  - intros H. apply (proj1 R) in H. destruct H as [H _]. discriminate H.
  - apply (proj2 R). exists 2. split; [reflexivity | lia].
Defined.

(** ** Labels *)

Section Labels.

Variable filename : string.

Lemma labels_count (content : list Node) (errors : Errors) :
  List.length (Part001.validateLabels content errors filename)
  = (List.length errors + List.length (Entries.nonScalars content))%nat.
Proof.
  revert errors.
  induction content as [| x | k v rest IH] using entries_ind; intros errors;
    try (simpl; lia).
  cbn [Part001.validateLabels]. rewrite IH.
  unfold Entries.nonScalars.
  cbn [Entries.keys Entries.values combine flat_map fst snd app filter].
  destruct (negb (KindT_eqb (Kind k) ScalarNode)),
    (negb (KindT_eqb (Kind v) ScalarNode));
    unfold append; rewrite ?length_app; simpl; lia.
Qed.

Lemma nonScalars_nil (content : list Node) :
  Entries.nonScalars content = [] <-> Schema.scalarEntries content = true.
Proof.
  induction content as [| x | k v rest IH] using entries_ind;
    try (split; reflexivity).
  unfold Entries.nonScalars in *.
  cbn [Entries.keys Entries.values combine flat_map fst snd app filter
       Schema.scalarEntries].
  unfold Schema.isScalar.
  destruct (KindT_eqb (Kind k) ScalarNode), (KindT_eqb (Kind v) ScalarNode);
    cbn [negb andb]; try (split; discriminate).
  exact IH.
Qed.

Lemma labels_clean (content : list Node) (errors : Errors) :
  Part001.validateLabels content errors filename = errors <->
  Schema.scalarEntries content = true.
Proof.
  split; [|apply scalar_labels].
  intros H. apply nonScalars_nil.
  apply (f_equal (@List.length string)) in H. rewrite labels_count in H.
  destruct (Entries.nonScalars content); [reflexivity | simpl in H; lia].
Qed.

End Labels.

(** X24.  The loop over the labels adds one diagnostic for every key and
    every value that is no scalar, and nothing else. *)
Theorem labels_one_diagnostic_per_node (filename : string)
    (content : list Node) (errors : Errors) :
  List.length (Part001.validateLabels content errors filename)
  = (List.length errors + List.length (Entries.nonScalars content))%nat.
Proof. apply labels_count. Qed.

(** ** One diagnostic per value *)

Ltac none_or_one :=
  unfold append, MainGo.addError; cbv beta iota zeta;
  first [ exists []; split; [now rewrite app_nil_r | simpl; lia]
        | eexists [_]; split; [reflexivity | simpl; lia] ].

(** X25.  The checks of a single value add at most one diagnostic each:
    the value checks of the full validator, its [os] block, and the port
    check of [main.go], whose two tests (the text converts; the number is
    in range) never both report. *)
Theorem one_diagnostic_per_value (filename : string) (errors : Errors)
    (n : Node) (what : string) :
  Forall (fun out : Errors =>
            exists msgs,
              out = errors ++ msgs /\ (List.length msgs <= 1)%nat)
    [Part001.validateAPIVersion (Some n) errors filename;
     Part001.validateKind (Some n) errors filename;
     Part001.checkContainerPort (Some n) errors filename;
     Part001.checkProtocol (Some n) errors filename;
     Part001.checkPath (Some n) errors filename;
     Part001.checkProbePort (Some n) errors filename;
     Part001.checkCPU (Some n) errors filename;
     Part001.checkMemory (Some n) errors filename;
     Part001.checkName (Some n) errors filename;
     Part001.checkImage (Some n) errors filename;
     Part001.validateOS n errors filename;
     MainGo.checkPort what n filename errors].
Proof.
  repeat (apply Forall_cons; [|]); [..|constructor].
  - unfold Part001.validateAPIVersion. split_if; none_or_one.
  - unfold Part001.validateKind. split_if; none_or_one.
  - unfold Part001.checkContainerPort, Part001.checkPortValue.
    destruct (strconv.Atoi (Value n)); split_if; none_or_one.
  - unfold Part001.checkProtocol. split_if; none_or_one.
  - unfold Part001.checkPath. split_if; none_or_one.
  - unfold Part001.checkProbePort, Part001.checkPortValue.
    destruct (strconv.Atoi (Value n)); split_if; none_or_one.
  - unfold Part001.checkCPU.
    destruct (strconv.Atoi (Value n)); split_if; none_or_one.
  - unfold Part001.checkMemory. split_if; none_or_one.
  - unfold Part001.checkName. split_if; none_or_one.
  - unfold Part001.checkImage. split_if; none_or_one.
  - unfold Part001.validateOS.
    destruct (KindT_eqb (Kind n) ScalarNode).
    + split_if; none_or_one.
    + destruct (KindT_eqb (Kind n) MappingNode).
      * destruct (Part001.getMappingValue (Some n) "name") as [nm|].
        -- destruct (negb (KindT_eqb (Kind nm) ScalarNode));
             cbv beta iota zeta; cbn [String.eqb negb];
             split_if; none_or_one.
        -- cbv beta iota zeta; cbn [String.eqb negb]; none_or_one.
      * cbv beta iota zeta; cbn [String.eqb negb]; none_or_one.
  - unfold MainGo.checkPort.
    destruct (strconv.Atoi (Value n)); split_if; none_or_one.
Qed.

(** ** The metadata block *)

Ltac grown H :=
  unfold append in H; rewrite <- ?app_assoc in H;
  apply app_eq_self in H; simpl in H; try discriminate H.

(** X26.  The metadata block of the full validator adds no diagnostic
    exactly when the node is a mapping with a non-empty scalar [name], a
    scalar [namespace] if there is one, and a [labels] mapping whose keys
    and values are all scalars if there is one. *)
Theorem metadata_rule (filename : string) (n : Node) (errors : Errors) :
  Part001.validateMetadata (Some n) errors filename = errors <->
  Schema.metadata Part001.get n = true.
Proof.
  split; [|apply valid_metadata].
  unfold Schema.metadata, Part001.get, Schema.isMapping, Schema.isScalar,
    Schema.required, Schema.optional.
  unfold Part001.validateMetadata, Part001.validateMappingField.
  destruct (KindT_eqb (Kind n) MappingNode); cbn [negb];
    [|intros H; grown H].
  destruct (Part001.getMappingValue (Some n) "name") as [nm|];
    destruct (Part001.getMappingValue (Some n) "namespace") as [ns|];
    destruct (Part001.getMappingValue (Some n) "labels") as [lb|];
    try rewrite (validateLabels_framed filename (Content lb));
    repeat match goal with
           | |- context [KindT_eqb ?a ?b] => destruct (KindT_eqb a b)
           | |- context [String.eqb ?a ?b] => destruct (String.eqb a b)
           end;
    cbn [negb andb]; intros H; try reflexivity; grown H;
    rewrite <- (labels_clean filename (Content lb) []); exact H.
Qed.

(** ** The two validators side by side *)

(** X27.  An image that [main.go] passes is passed by the full validator
    as well: the first demands that the first colon after the prefix has
    text on both sides, the second any colon after the prefix. *)
Theorem image_passed_by_main_go (filename : string) (errors : Errors)
    (container k n : Node) :
  Kind n = ScalarNode ->
  MainGo.findMapKey (Some container) "image" = Some (k, n) ->
  MainGo.checkImage filename errors container = errors ->
  Part001.checkImage (Some n) errors filename = errors.
Proof.
  intros Hn Hfind. unfold MainGo.checkImage, MainGo.keyLine, MainGo.addError,
    Part001.checkImage.
  rewrite Hfind, Hn. cbn [KindT_eqb negb].
  destruct (String.eqb (Value n) "");
    [intros H; now apply append_neq in H|].
  destruct (MainGo.imageOK (Value n)) eqn:E; cbn [negb];
    [|intros H; now apply append_neq in H].
  intros _. apply MainGo_imageOK_spec in E as (a & b & E & _).
  assert (P : Part001.imageOK (Value n) = true).
  { apply Part001_imageOK_spec. now exists a, b. }
  now rewrite P.
Qed.

Lemma image_passed_by_main_go_witness :
  Part001.checkImage (Some (Build.str 9 Build.goodImage)) [] "pod.yaml" = [].
Proof.
  apply (image_passed_by_main_go "pod.yaml" []
           (Build.map 8 [Build.str 9 "image"; Build.str 9 Build.goodImage])
           (Build.str 9 "image") (Build.str 9 Build.goodImage));
    reflexivity.
Defined.

(** X28.  A [resources] mapping with neither [limits] nor [requests]: the
    full validator adds no diagnostic; [main.go] reports both as required,
    limits first, at the line of the [resources] node. *)
Theorem resources_without_blocks (filename : string) (errors : Errors)
    (resourcesNode : Node) :
  Kind resourcesNode = MappingNode ->
  (forall k, In k (Entries.keys (Content resourcesNode)) ->
             Value k <> "limits"%string /\ Value k <> "requests"%string) ->
  Part001.checkResources (Some resourcesNode) errors filename = errors /\
  MainGo.checkResourceValues filename errors resourcesNode
  = errors
    ++ [(filename ++ ":" ++ strconv.Itoa (Line resourcesNode)
         ++ " resources.limits is required")%string;
        (filename ++ ":" ++ strconv.Itoa (Line resourcesNode)
         ++ " resources.requests is required")%string].
Proof.
  intros Hr Hkeys.
  assert (L1 : Part001.lookup (Content resourcesNode) "limits" = None).
  { apply lookup_none. intros k Hin _. now apply Hkeys. }
  assert (L2 : Part001.lookup (Content resourcesNode) "requests" = None).
  { apply lookup_none. intros k Hin _. now apply Hkeys. }
  assert (F1 : MainGo.find (Content resourcesNode) "limits" = None).
  { apply find_none. intros k Hin. now apply Hkeys. }
  assert (F2 : MainGo.find (Content resourcesNode) "requests" = None).
  { apply find_none. intros k Hin. now apply Hkeys. }
  split.
  - unfold Part001.checkResources, Part001.getMappingValue.
    rewrite Hr. cbn [KindT_eqb negb]. now rewrite L1, L2.
  - unfold MainGo.checkResourceValues, MainGo.checkResourceType,
      MainGo.findMapKey, MainGo.addError, append.
    rewrite Hr. cbn [KindT_eqb negb fold_left]. rewrite F1, F2.
    now rewrite <- app_assoc.
Qed.

Lemma resources_without_blocks_witness :
  Part001.checkResources (Some (Build.map 17 [])) [] "pod.yaml" = [] /\
  MainGo.checkResourceValues "pod.yaml" [] (Build.map 17 [])
  = ["pod.yaml:17 resources.limits is required"%string;
     "pod.yaml:17 resources.requests is required"%string].
Proof.
  apply (resources_without_blocks "pod.yaml" [] (Build.map 17 [])).
  - reflexivity.
  - intros k [].
Defined.

(** ** A document that lacks one required field

    The diagnostics of a document are those of its parts, so a required
    field that is missing anywhere inside a document that is otherwise in
    order gives the document's list exactly one line. *)

Section OmissionFacts.

Import Part001.
Variable filename : string.

Lemma lookup_app (pre rest : list Node) (key : string) :
  Nat.even (List.length pre) = true ->
  lookup (pre ++ rest) key
  = match lookup pre key with
    | Some v => Some v
    | None => lookup rest key
    end.
Proof.
  induction pre as [| x | k v pre IH] using entries_ind; intros Hev.
  - reflexivity.
  - discriminate.
  - cbn [app lookup].
    destruct (KindT_eqb (Kind k) ScalarNode && (Value k =? key)%string);
      [reflexivity | now apply IH].
Qed.

Lemma get_inField_hit (parent : Node) (pre : list Node) (k : Node)
    (post : list Node) (x : Node) (key : string) :
  Kind parent = MappingNode ->
  Omission.entryOf key pre k ->
  getMappingValue (Some (Omission.inField parent pre k post x)) key = Some x.
Proof.
  intros Hp (Hev & Hpre & Hk & Hv). unfold getMappingValue, Omission.inField.
  cbn [Kind Content]. rewrite Hp. cbn [KindT_eqb negb].
  rewrite (lookup_app _ _ _ Hev), Hpre. cbn [lookup].
  rewrite Hk, Hv, String.eqb_refl. reflexivity.
Qed.

Lemma get_inField_skip (parent : Node) (pre : list Node) (k : Node)
    (post : list Node) (x : Node) (key name : string) :
  Kind parent = MappingNode ->
  Omission.entryOf key pre k ->
  name <> key ->
  getMappingValue (Some (Omission.inField parent pre k post x)) name
  = lookup (pre ++ post) name.
Proof.
  intros Hp (Hev & Hpre & Hk & Hv) Hne. unfold getMappingValue, Omission.inField.
  cbn [Kind Content]. rewrite Hp. cbn [KindT_eqb negb].
  rewrite !(lookup_app _ _ _ Hev). cbn [lookup].
  rewrite Hv. rewrite (eqb_neq_false key name) by congruence.
  now rewrite andb_false_r.
Qed.

(** The diagnostics of a validator, part by part. *)
Lemma validateDocument_parts (doc : Node) (errors : Errors) :
  Kind doc = MappingNode ->
  validateDocument doc filename errors
  = errors
    ++ match getMappingValue (Some doc) "apiVersion" with
       | None => [(filename ++ ": apiVersion is required")%string]
       | Some _ => []
       end
    ++ match getMappingValue (Some doc) "kind" with
       | None => [(filename ++ ": kind is required")%string]
       | Some _ => []
       end
    ++ match getMappingValue (Some doc) "metadata" with
       | None => [(filename ++ ": metadata is required")%string]
       | Some _ => []
       end
    ++ match getMappingValue (Some doc) "spec" with
       | None => [(filename ++ ": spec is required")%string]
       | Some _ => []
       end
    ++ validateAPIVersion (getMappingValue (Some doc) "apiVersion") [] filename
    ++ validateKind (getMappingValue (Some doc) "kind") [] filename
    ++ validateMetadata (getMappingValue (Some doc) "metadata") [] filename
    ++ validateSpec (getMappingValue (Some doc) "spec") [] filename.
Proof.
  intros Hdoc. unfold validateDocument, validateMappingField.
  rewrite Hdoc. cbn [KindT_eqb negb].
  set (d := Some doc).
  rewrite (validateSpec_framed filename (getMappingValue d "spec")).
  rewrite (validateMetadata_framed filename (getMappingValue d "metadata")).
  rewrite (validateKind_framed filename (getMappingValue d "kind")).
  rewrite (validateAPIVersion_framed filename
             (getMappingValue d "apiVersion")).
  destruct (getMappingValue d "apiVersion"), (getMappingValue d "kind"),
    (getMappingValue d "metadata"), (getMappingValue d "spec");
    unfold append; cbn [app]; rewrite <- ?app_assoc; cbn [app];
    reflexivity.
Qed.

Lemma validateSpec_parts (spec : Node) (errors : Errors) :
  Kind spec = MappingNode ->
  validateSpec (Some spec) errors filename
  = errors
    ++ match getMappingValue (Some spec) "os" with
       | Some osNode => validateOS osNode [] filename
       | None => []
       end
    ++ match getMappingValue (Some spec) "containers" with
       | None => [(filename ++ ": containers is required")%string]
       | Some cs =>
           if negb (KindT_eqb (Kind cs) SequenceNode) then
             [at_line filename cs "containers must be array"]
           else
             (if (List.length (Content cs) =? 0)%nat
              then [at_line filename cs "containers must not be empty"]
              else [])
             ++ List.concat
                  (map (fun c => validateContainer c [] filename) (Content cs))
       end.
Proof.
  intros Hs. unfold validateSpec. rewrite Hs. cbn [KindT_eqb negb].
  assert (Hos : forall e,
            match getMappingValue (Some spec) "os" with
            | Some osNode => validateOS osNode e filename
            | None => e
            end
            = e ++ match getMappingValue (Some spec) "os" with
                   | Some osNode => validateOS osNode [] filename
                   | None => []
                   end).
  { intros e. destruct (getMappingValue (Some spec) "os") as [o|];
      [apply validateOS_framed | now rewrite app_nil_r]. }
  rewrite Hos.
  destruct (getMappingValue (Some spec) "containers") as [cs|];
    [|unfold append; now rewrite <- app_assoc].
  destruct (negb (KindT_eqb (Kind cs) SequenceNode));
    [unfold append; now rewrite <- app_assoc|].
  rewrite (fold_concat
             (fun errors cNode => validateContainer cNode errors filename)
             (Content cs) (validateContainer_framed filename)).
  destruct (List.length (Content cs) =? 0)%nat;
    unfold append; rewrite <- ?app_assoc; reflexivity.
Qed.

Lemma validateContainer_parts (c : Node) (errors : Errors) :
  Kind c = MappingNode ->
  validateContainer c errors filename
  = errors
    ++ match getMappingValue (Some c) "name" with
       | None => [(filename ++ ": name is required")%string]
       | Some _ => []
       end
    ++ match getMappingValue (Some c) "image" with
       | None => [(filename ++ ": image is required")%string]
       | Some _ => []
       end
    ++ match getMappingValue (Some c) "resources" with
       | None => [(filename ++ ": resources is required")%string]
       | Some _ => []
       end
    ++ checkName (getMappingValue (Some c) "name") [] filename
    ++ checkImage (getMappingValue (Some c) "image") [] filename
    ++ match getMappingValue (Some c) "ports" with
       | Some portsNode => validatePorts portsNode [] filename
       | None => []
       end
    ++ checkProbe "readinessProbe"
         (getMappingValue (Some c) "readinessProbe") [] filename
    ++ checkProbe "livenessProbe"
         (getMappingValue (Some c) "livenessProbe") [] filename
    ++ checkResources (getMappingValue (Some c) "resources") [] filename.
Proof.
  intros Hc. unfold validateContainer, validateMappingField.
  rewrite Hc. cbn [KindT_eqb negb].
  set (n := Some c).
  rewrite (checkResources_framed filename (getMappingValue n "resources")).
  rewrite (checkProbe_framed filename "livenessProbe"
             (getMappingValue n "livenessProbe")).
  rewrite (checkProbe_framed filename "readinessProbe"
             (getMappingValue n "readinessProbe")).
  rewrite (portsBlock_framed filename (getMappingValue n "ports")).
  rewrite (checkImage_framed filename (getMappingValue n "image")).
  rewrite (checkName_framed filename (getMappingValue n "name")).
  destruct (getMappingValue n "name"), (getMappingValue n "image"),
    (getMappingValue n "resources"), (getMappingValue n "ports");
    unfold append; cbn [app]; rewrite <- ?app_assoc; cbn [app];
    reflexivity.
Qed.

Lemma validatePorts_parts (ports : Node) (errors : Errors) :
  Kind ports = SequenceNode ->
  validatePorts ports errors filename
  = errors
    ++ List.concat
         (map (fun e => validatePortEntry e [] filename) (Content ports)).
Proof.
  intros Hp. unfold validatePorts. rewrite Hp. cbn [KindT_eqb negb].
  apply (fold_concat
           (fun errors e => validatePortEntry e errors filename)).
  apply validatePortEntry_framed.
Qed.

Lemma concat_map_item {A : Type} (g : A -> Errors) (pre post : list A) (x : A) :
  List.concat (map g (pre ++ x :: post))
  = List.concat (map g pre) ++ g x ++ List.concat (map g post).
Proof. rewrite map_app, concat_app. reflexivity. Qed.

Lemma item_length {A : Type} (pre post : list A) (x : A) :
  (List.length (pre ++ x :: post) =? 0)%nat = false.
Proof. rewrite length_app. simpl. apply Nat.eqb_neq. lia. Qed.

(** From "the slice followed by these parts is the slice" to "each part is
    empty", and on to the goal, whose parts are the same but one. *)
Ltac drop_parts H :=
  rewrite <- ?app_assoc in H; rewrite <- ?app_assoc;
  apply app_eq_self in H;
  repeat match type of H with
         | _ ++ _ = [] =>
             let Hp := fresh "Hp" in apply app_eq_nil in H as [Hp H]
         end;
  repeat match goal with
         | Hp : ?t = ?t |- _ => clear Hp
         | Hp : ?t = [] |- context [?t] => rewrite Hp
         end.

Ltac one_line IH :=
  rewrite IH by assumption; unfold append; cbn [app];
  rewrite ?app_nil_r; reflexivity.

Section Steps.

Variables (n whole : Node) (msg : string) (errors : Errors).

Lemma step_document_metadata parent pre k post :
  Kind parent = MappingNode ->
  Omission.entryOf "metadata" pre k ->
  (validateMetadata (Some whole) [] filename = [] ->
   validateMetadata (Some n) [] filename = [msg]) ->
  validateDocument (Omission.inField parent pre k post whole) filename errors
  = errors ->
  validateDocument (Omission.inField parent pre k post n) filename errors
  = append errors msg.
Proof.
  intros Hp He IH H.
  rewrite validateDocument_parts in H |- * by exact Hp.
  rewrite !(get_inField_hit _ _ _ _ whole _ Hp He) in H.
  rewrite !(get_inField_hit _ _ _ _ n _ Hp He).
  rewrite !(get_inField_skip _ _ _ _ whole "metadata" _ Hp He) in H
    by discriminate.
  rewrite !(get_inField_skip _ _ _ _ n "metadata" _ Hp He) by discriminate.
  cbv iota in H |- *. drop_parts H. one_line IH.
Qed.

Lemma step_document_spec parent pre k post :
  Kind parent = MappingNode ->
  Omission.entryOf "spec" pre k ->
  (validateSpec (Some whole) [] filename = [] ->
   validateSpec (Some n) [] filename = [msg]) ->
  validateDocument (Omission.inField parent pre k post whole) filename errors
  = errors ->
  validateDocument (Omission.inField parent pre k post n) filename errors
  = append errors msg.
Proof.
  intros Hp He IH H.
  rewrite validateDocument_parts in H |- * by exact Hp.
  rewrite !(get_inField_hit _ _ _ _ whole _ Hp He) in H.
  rewrite !(get_inField_hit _ _ _ _ n _ Hp He).
  rewrite !(get_inField_skip _ _ _ _ whole "spec" _ Hp He) in H
    by discriminate.
  rewrite !(get_inField_skip _ _ _ _ n "spec" _ Hp He) by discriminate.
  cbv iota in H |- *. drop_parts H. one_line IH.
Qed.

Lemma step_spec_os parent pre k post :
  Kind parent = MappingNode ->
  Omission.entryOf "os" pre k ->
  (validateOS whole [] filename = [] -> validateOS n [] filename = [msg]) ->
  validateSpec (Some (Omission.inField parent pre k post whole)) errors filename
  = errors ->
  validateSpec (Some (Omission.inField parent pre k post n)) errors filename
  = append errors msg.
Proof.
  intros Hp He IH H.
  rewrite validateSpec_parts in H |- * by exact Hp.
  rewrite !(get_inField_hit _ _ _ _ whole _ Hp He) in H.
  rewrite !(get_inField_hit _ _ _ _ n _ Hp He).
  rewrite !(get_inField_skip _ _ _ _ whole "os" _ Hp He) in H
    by discriminate.
  rewrite !(get_inField_skip _ _ _ _ n "os" _ Hp He) by discriminate.
  cbv iota in H |- *. drop_parts H. one_line IH.
Qed.

Lemma step_spec_container parent pre k post cs cpre cpost :
  Kind parent = MappingNode ->
  Omission.entryOf "containers" pre k ->
  Kind cs = SequenceNode ->
  (validateContainer whole [] filename = [] ->
   validateContainer n [] filename = [msg]) ->
  validateSpec
    (Some (Omission.inField parent pre k post
             (Omission.inItem cs cpre cpost whole))) errors filename
  = errors ->
  validateSpec
    (Some (Omission.inField parent pre k post
             (Omission.inItem cs cpre cpost n))) errors filename
  = append errors msg.
Proof.
  intros Hp He Hcs IH H.
  rewrite validateSpec_parts in H |- * by exact Hp.
  rewrite !(get_inField_hit _ _ _ _ (Omission.inItem cs cpre cpost whole) _
              Hp He) in H.
  rewrite !(get_inField_hit _ _ _ _ (Omission.inItem cs cpre cpost n) _
              Hp He).
  rewrite !(get_inField_skip _ _ _ _ (Omission.inItem cs cpre cpost whole)
              "containers" _ Hp He) in H by discriminate.
  rewrite !(get_inField_skip _ _ _ _ (Omission.inItem cs cpre cpost n)
              "containers" _ Hp He) by discriminate.
  cbv iota in H |- *. unfold Omission.inItem in H |- *.
  cbn [Kind Content] in H |- *. rewrite Hcs in H |- *.
  cbn [KindT_eqb negb] in H |- *.
  rewrite !item_length, !concat_map_item in H |- *. cbn [app] in H |- *.
  drop_parts H. one_line IH.
Qed.

Lemma step_container_ports parent pre k post :
  Kind parent = MappingNode ->
  Omission.entryOf "ports" pre k ->
  (validatePorts whole [] filename = [] ->
   validatePorts n [] filename = [msg]) ->
  validateContainer (Omission.inField parent pre k post whole) errors filename
  = errors ->
  validateContainer (Omission.inField parent pre k post n) errors filename
  = append errors msg.
Proof.
  intros Hp He IH H.
  rewrite validateContainer_parts in H |- * by exact Hp.
  rewrite !(get_inField_hit _ _ _ _ whole _ Hp He) in H.
  rewrite !(get_inField_hit _ _ _ _ n _ Hp He).
  rewrite !(get_inField_skip _ _ _ _ whole "ports" _ Hp He) in H
    by discriminate.
  rewrite !(get_inField_skip _ _ _ _ n "ports" _ Hp He) by discriminate.
  cbv iota in H |- *. drop_parts H. one_line IH.
Qed.

Lemma step_container_probe fieldName parent pre k post :
  In fieldName ["readinessProbe"; "livenessProbe"]%string ->
  Kind parent = MappingNode ->
  Omission.entryOf fieldName pre k ->
  (validateProbe whole fieldName [] filename = [] ->
   validateProbe n fieldName [] filename = [msg]) ->
  validateContainer (Omission.inField parent pre k post whole) errors filename
  = errors ->
  validateContainer (Omission.inField parent pre k post n) errors filename
  = append errors msg.
Proof.
  intros Hf Hp He IH H.
  rewrite validateContainer_parts in H |- * by exact Hp.
  destruct Hf as [<- | [<- | []]];
    rewrite !(get_inField_hit _ _ _ _ whole _ Hp He) in H;
    rewrite !(get_inField_hit _ _ _ _ n _ Hp He);
    [rewrite !(get_inField_skip _ _ _ _ whole "readinessProbe" _ Hp He)
       in H by discriminate;
     rewrite !(get_inField_skip _ _ _ _ n "readinessProbe" _ Hp He)
       by discriminate
    |rewrite !(get_inField_skip _ _ _ _ whole "livenessProbe" _ Hp He)
       in H by discriminate;
     rewrite !(get_inField_skip _ _ _ _ n "livenessProbe" _ Hp He)
       by discriminate];
    change (checkProbe ?f (Some ?x) [] filename)
      with (validateProbe x f [] filename) in H |- *;
    cbv iota in H |- *; drop_parts H; one_line IH.
Qed.

Lemma step_ports_port ports pre post :
  Kind ports = SequenceNode ->
  (validatePortEntry whole [] filename = [] ->
   validatePortEntry n [] filename = [msg]) ->
  validatePorts (Omission.inItem ports pre post whole) errors filename = errors ->
  validatePorts (Omission.inItem ports pre post n) errors filename
  = append errors msg.
Proof.
  intros Hp IH H.
  rewrite validatePorts_parts in H |- * by exact Hp.
  unfold Omission.inItem in H |- *. cbn [Content] in H |- *.
  rewrite !concat_map_item in H |- *.
  drop_parts H. one_line IH.
Qed.

End Steps.

(** A node that lacks a required field of its own. *)
Lemma missing_own_field (l : Omission.Level) (n v : Node) (field : string)
    (errors : Errors) :
  Kind n = MappingNode ->
  getMappingValue (Some n) field = None ->
  In field (Omission.requiredFields l) ->
  Omission.run filename l (Build.withField field v n) errors = errors ->
  Omission.run filename l n errors
  = append errors (Omission.presence filename l n field).
Proof.
  intros Hk Hnone Hin.
  destruct l; cbn [Omission.run Omission.presence Omission.requiredFields] in *.
  - now apply missing_top_level.
  - destruct Hin as [<- | []]. now apply missing_metadata_name.
  - destruct Hin as [<- | []]. now apply missing_containers.
  - destruct Hin as [<- | []]. intros _. unfold validateOS.
    rewrite Hk, Hnone. reflexivity.
  - now apply missing_container_field.
  - destruct Hin.
  - destruct Hin as [<- | []]. now apply missing_containerPort.
  - destruct Hin as [<- | []]. now apply missing_httpGet.
Qed.

(** A probe whose [httpGet] lacks [path] or [port]. *)
Lemma missing_httpGet_field_in_place (field : string) (v h p : Node)
    (pre : list Node) (k : Node) (post : list Node) (fieldName : string)
    (errors : Errors) :
  In field ["path"; "port"]%string ->
  Kind p = MappingNode ->
  Omission.entryOf "httpGet" pre k ->
  getMappingValue (Some h) field = None ->
  validateProbe (Omission.inField p pre k post (Build.withField field v h))
    fieldName errors filename = errors ->
  validateProbe (Omission.inField p pre k post h) fieldName errors filename
  = append errors (filename ++ ": " ++ field ++ " is required")%string.
Proof.
  intros Hf Hp He Hnone H.
  apply (missing_httpGet_field filename field v h
           (Omission.inField p pre k post h) fieldName errors Hf Hp).
  - now apply get_inField_hit.
  - exact Hnone.
  - rewrite <- H at 2. clear H.
    set (x := Build.withField field v h).
    unfold validateProbe.
    change (Kind (Build.withField "httpGet" x
                    (Omission.inField p pre k post h))) with (Kind p).
    change (Kind (Omission.inField p pre k post x)) with (Kind p).
    rewrite Hp. cbn [KindT_eqb negb].
    rewrite (get_withField "httpGet" x (Omission.inField p pre k post h)
               "httpGet" Hp).
    rewrite (get_inField_hit p pre k post x "httpGet" Hp He).
    reflexivity.
Qed.

Lemma run_framed (l : Omission.Level) (n : Node) :
  framed (fun errors => Omission.run filename l n errors).
Proof.
  destruct l; cbn [Omission.run].
  - apply validateDocument_framed.
  - apply validateMetadata_framed.
  - apply validateSpec_framed.
  - apply validateOS_framed.
  - apply validateContainer_framed.
  - apply validatePorts_framed.
  - apply validatePortEntry_framed.
  - apply validateProbe_framed.
Qed.

Lemma run_passes (l : Omission.Level) (n : Node) (errors : Errors) :
  Omission.run filename l n errors = errors ->
  Omission.run filename l n [] = [].
Proof.
  intros H. rewrite (run_framed l n errors) in H. now apply app_eq_self in H.
Qed.

(** The line of an omission is the one line that the node gets, at every
    level. *)
Lemma omits_sound (l : Omission.Level) (n whole : Node) (msg : string) :
  Omission.omits filename l n whole msg ->
  forall errors,
    Omission.run filename l whole errors = errors ->
    Omission.run filename l n errors = append errors msg.
Proof.
  induction 1 as
    [ l n field v Hk Hnone Hin
    | fieldName p pre k post h field v Hp He Hh Hnone Hin
    | l key l' parent pre k post n whole msg Hchild Hp He Hom IH
    | spec pre k post cs cpre cpost n whole msg Hp He Hcs Hom IH
    | ports pre post n whole msg Hp Hom IH ];
    intros errors Hwhole.
  - now apply (missing_own_field l n v field errors).
  - cbn [Omission.run] in *.
    now apply (missing_httpGet_field_in_place field v h p pre k post).
  - assert (IH0 : Omission.run filename l' whole [] = [] ->
                  Omission.run filename l' n [] = [msg]).
    { intros H0. now apply (IH []). }
    destruct l; cbn [Omission.child] in Hchild; try discriminate.
    + destruct (String.eqb_spec key "metadata") as [-> | _].
      * injection Hchild as <-. cbn [Omission.run] in *.
        now apply (step_document_metadata n whole msg errors).
      * destruct (String.eqb_spec key "spec") as [-> | _]; [|discriminate].
        injection Hchild as <-. cbn [Omission.run] in *.
        now apply (step_document_spec n whole msg errors).
    + destruct (String.eqb_spec key "os") as [-> | _]; [|discriminate].
      injection Hchild as <-. cbn [Omission.run] in *.
      now apply (step_spec_os n whole msg errors).
    + destruct (String.eqb_spec key "ports") as [-> | _].
      * injection Hchild as <-. cbn [Omission.run] in *.
        now apply (step_container_ports n whole msg errors).
      * destruct (String.eqb_spec key "readinessProbe") as [-> | _].
        -- injection Hchild as <-. cbn [Omission.run] in *.
           apply (step_container_probe n whole msg errors "readinessProbe"%string);
             auto. simpl. tauto.
        -- destruct (String.eqb_spec key "livenessProbe") as [-> | _];
             [|discriminate].
           injection Hchild as <-. cbn [Omission.run] in *.
           apply (step_container_probe n whole msg errors "livenessProbe"%string);
             auto. simpl. tauto.
  - cbn [Omission.run] in *.
    apply (step_spec_container n whole msg errors); auto.
  - cbn [Omission.run] in *.
    apply (step_ports_port n whole msg errors); auto.
Qed.

Lemma string_append_assoc (a b c : string) :
  ((a ++ b) ++ c)%string = (a ++ b ++ c)%string.
Proof. induction a as [|x a IH]; simpl; [reflexivity | now rewrite IH]. Qed.

(** Every line of an omission says that something is required. *)
Lemma omits_presence (l : Omission.Level) (n whole : Node) (msg : string) :
  Omission.omits filename l n whole msg ->
  exists what, msg = (what ++ " is required")%string.
Proof.
  induction 1 as
    [ l n field v Hk Hnone Hin
    | fieldName p pre k post h field v Hp He Hh Hnone Hin
    | | | ]; try assumption.
  - destruct l; cbn [Omission.presence]; unfold at_line;
      try (exists (filename ++ ": " ++ field)%string;
           now rewrite !string_append_assoc).
    + exists (filename ++ ":" ++ strconv.Itoa (Line n) ++ " os.name")%string.
      now rewrite !string_append_assoc.
    + exists (filename ++ ":" ++ strconv.Itoa (Line n) ++ " " ++ field)%string.
      now rewrite !string_append_assoc.
  - exists (filename ++ ": " ++ field)%string.
    now rewrite !string_append_assoc.
Qed.

End OmissionFacts.

(** C3.  In the full validator, a document that lacks one required field,
    of the document itself or of any node inside it that a validator
    reaches ([metadata], [spec], an [os] object, a container, a port entry,
    a probe or its [httpGet]), and that gets no diagnostic once the field
    is put back, gets exactly one diagnostic: the line that says the field
    is required.  Nothing else is reported for the absent field. *)
Theorem missing_required_field (filename : string) (errors : Errors)
    (broken whole : Node) (msg : string) :
  Omission.omits filename Omission.Document broken whole msg ->
  Part001.validateDocument whole filename errors = errors ->
  Part001.validateDocument broken filename errors = append errors msg /\
  exists what, msg = (what ++ " is required")%string.
Proof.
  intros Hom Hwhole. split.
  - exact (omits_sound filename _ _ _ _ Hom errors Hwhole).
  - exact (omits_presence filename _ _ _ _ Hom).
Qed.

(** [Build.goodPod] whose readiness probe has no [httpGet], and
    [Build.goodPod] without [metadata]. *)
Lemma missing_required_field_witness :
  let probe := Build.map 14 [] in
  let container :=
    Omission.inField (Build.map 8 [])
      [Build.str 8 "name"; Build.str 8 "web_server";
       Build.str 9 "image"; Build.str 9 Build.goodImage;
       Build.str 10 "ports";
       Build.seq 11 [Build.portEntry (Build.int 11 "80")]]
      (Build.str 13 "readinessProbe")
      [Build.str 17 "resources";
       Build.map 18
         [Build.str 18 "limits";
          Build.map 19 [Build.str 19 "cpu"; Build.int 19 "2";
                        Build.str 20 "memory"; Build.str 20 "512Mi"];
          Build.str 21 "requests";
          Build.map 22 [Build.str 22 "cpu"; Build.int 22 "1";
                        Build.str 23 "memory"; Build.str 23 "256Mi"]]] in
  let spec :=
    Omission.inField (Build.map 6 [])
      [Build.str 6 "os"; Build.str 6 "linux"] (Build.str 7 "containers") [] in
  let pod :=
    Omission.inField (Build.map 1 [])
      [Build.str 1 "apiVersion"; Build.str 1 "v1";
       Build.str 2 "kind"; Build.str 2 "Pod";
       Build.str 3 "metadata"; Build.metadata] (Build.str 5 "spec") [] in
  pod (spec (Omission.inItem (Build.seq 8 []) [] []
               (container (Build.probe 13)))) = Build.goodPod /\
  Part001.validateDocument
    (pod (spec (Omission.inItem (Build.seq 8 []) [] [] (container probe))))
    "pod.yaml" []
  = ["pod.yaml:14 httpGet is required"%string] /\
  Part001.validateDocument Build.podWithoutMetadata "pod.yaml" []
  = ["pod.yaml: metadata is required"%string].
Proof.
  intros probe container spec pod.
  pose (entry := fun (key : string) (pre : list Node) (k : Node)
                     (H : Nat.even (List.length pre) = true /\
                          Part001.lookup pre key = None /\
                          Kind k = ScalarNode /\ Value k = key) =>
                   (H : Omission.entryOf key pre k)).
  pose (httpGet := Build.map 15 [Build.str 15 "path"; Build.str 15 "/ready";
                                 Build.str 16 "port"; Build.int 16 "8080"]).
  pose (podPre := [Build.str 1 "apiVersion"; Build.str 1 "v1";
                   Build.str 2 "kind"; Build.str 2 "Pod";
                   Build.str 3 "metadata"; Build.metadata]).
  pose (specPre := [Build.str 6 "os"; Build.str 6 "linux"]).
  pose (cPre := [Build.str 8 "name"; Build.str 8 "web_server";
                 Build.str 9 "image"; Build.str 9 Build.goodImage;
                 Build.str 10 "ports";
                 Build.seq 11 [Build.portEntry (Build.int 11 "80")]]).
  pose (cPost := [Build.str 17 "resources";
                  Build.map 18
                    [Build.str 18 "limits";
                     Build.map 19 [Build.str 19 "cpu"; Build.int 19 "2";
                                   Build.str 20 "memory"; Build.str 20 "512Mi"];
                     Build.str 21 "requests";
                     Build.map 22 [Build.str 22 "cpu"; Build.int 22 "1";
                                   Build.str 23 "memory";
                                   Build.str 23 "256Mi"]]]).
  pose (D1 := Omission.omits_field "pod.yaml"
                (Omission.Probe "readinessProbe") probe "httpGet" httpGet
                eq_refl eq_refl (or_introl eq_refl)).
  pose (D2 := Omission.omits_in_field "pod.yaml" Omission.Container
                "readinessProbe" (Omission.Probe "readinessProbe")
                (Build.map 8 []) cPre (Build.str 13 "readinessProbe") cPost
                _ _ _ eq_refl eq_refl
                (entry "readinessProbe"%string cPre
                   (Build.str 13 "readinessProbe")
                   (conj eq_refl (conj eq_refl (conj eq_refl eq_refl))))
                D1).
  pose (D3 := Omission.omits_in_containers "pod.yaml" (Build.map 6 [])
                specPre (Build.str 7 "containers") [] (Build.seq 8 []) [] []
                _ _ _ eq_refl
                (entry "containers"%string specPre (Build.str 7 "containers")
                   (conj eq_refl (conj eq_refl (conj eq_refl eq_refl))))
                eq_refl D2).
  pose (D4 := Omission.omits_in_field "pod.yaml" Omission.Document "spec"
                Omission.Spec (Build.map 1 []) podPre (Build.str 5 "spec") []
                _ _ _ eq_refl eq_refl
                (entry "spec"%string podPre (Build.str 5 "spec")
                   (conj eq_refl (conj eq_refl (conj eq_refl eq_refl))))
                D3).
  refine (conj eq_refl (conj _ _)).
  - exact (proj1 (missing_required_field "pod.yaml" [] _ _ _ D4 eq_refl)).
  - exact (proj1 (missing_required_field "pod.yaml" []
                    Build.podWithoutMetadata _ _
                    (Omission.omits_field "pod.yaml" Omission.Document
                       Build.podWithoutMetadata "metadata" Build.metadata
                       eq_refl eq_refl
                       (or_intror (or_intror (or_introl eq_refl))))
                    eq_refl)).
Defined.
